(** * Forecasting-and-analytics engine of the cafe management dashboard

    A shallow embedding of the Python scripts under [web-app/scripts] and
    [web-app/Dataset-creat], followed by the properties their specification
    states about them.

    Conventions of the embedding.
    - A Python/NumPy float is a real number ([R], which has the square root
      the standard deviations need); rounding is not modelled.  Where the
      scripts themselves produce a NaN or an infinity from well-formed input
      ([Series.shift], [Series.std] of a single row, [pct_change]) this is
      modelled explicitly ([Frame.cell], [option R]).
    - A date or pandas [Timestamp] is its proleptic Gregorian ordinal
      ([date.toordinal()]), an integer; [timedelta(days=k)] adds [k].
    - A [DataFrame] is the list of its rows, in row order.
    - A raised exception is [None]. *)

From Stdlib Require Import String Reals Lra Lia ZArith Bool Arith List Sorted.
Import ListNotations.
Open Scope R_scope.

(* ================================================================= *)
(** * Part I: the embedding *)
(* ================================================================= *)

(** ** Calendar *)

Module Calendar.

(** [date.weekday()] / [Timestamp.dayofweek]: Monday is 0.  Ordinal 1 is
    0001-01-01, a Monday. *)
Definition weekday (d : Z) : Z := ((d + 6) mod 7)%Z.

Definition DAYS_BEFORE_MONTH (m : Z) : Z :=
  match m with
  | 1 => 0 | 2 => 31 | 3 => 59 | 4 => 90 | 5 => 120 | 6 => 151
  | 7 => 181 | 8 => 212 | 9 => 243 | 10 => 273 | 11 => 304 | 12 => 334
  | _ => -1
  end%Z.

Definition DAYS_IN_MONTH (m : Z) : Z :=
  match m with
  | 1 => 31 | 2 => 28 | 3 => 31 | 4 => 30 | 5 => 31 | 6 => 30
  | 7 => 31 | 8 => 31 | 9 => 30 | 10 => 31 | 11 => 30 | 12 => 31
  | _ => -1
  end%Z.

Definition b2z (b : bool) : Z := if b then 1%Z else 0%Z.

(** The standard library's ordinal-to-(year, month, day) conversion, which
    [Timestamp.day] and [Timestamp.month] read. *)
Definition ord2ymd (ordinal : Z) : Z * Z * Z :=
  (let n := ordinal - 1 in
   let n400 := n / 146097 in let n := n mod 146097 in
   let year := n400 * 400 + 1 in
   let n100 := n / 36524 in let n := n mod 36524 in
   let n4 := n / 1461 in let n := n mod 1461 in
   let n1 := n / 365 in let n := n mod 365 in
   let year := year + n100 * 100 + n4 * 4 + n1 in
   if (n1 =? 4) || (n100 =? 4) then (year - 1, 12, 31)
   else
     let leapyear := (n1 =? 3) && (negb (n4 =? 24) || (n100 =? 3)) in
     let month := Z.shiftr (n + 50) 5 in
     let preceding := DAYS_BEFORE_MONTH month + b2z ((2 <? month) && leapyear) in
     if n <? preceding then
       let month := month - 1 in
       let preceding :=
         preceding - (DAYS_IN_MONTH month + b2z ((month =? 2) && leapyear)) in
       (year, month, n - preceding + 1)
     else (year, month, n - preceding + 1))%Z.

Definition month (d : Z) : Z := snd (fst (ord2ymd d)).
Definition day_of_month (d : Z) : Z := snd (ord2ymd d).

(** [Timestamp.day_name()], as an enumeration. *)
Inductive day_name := Monday | Tuesday | Wednesday | Thursday | Friday | Saturday | Sunday.

Definition day_name_of (d : Z) : day_name :=
  match weekday d with
  | 0 => Monday | 1 => Tuesday | 2 => Wednesday | 3 => Thursday
  | 4 => Friday | 5 => Saturday | _ => Sunday
  end%Z.

Definition day_name_eqb (a b : day_name) : bool :=
  match a, b with
  | Monday, Monday | Tuesday, Tuesday | Wednesday, Wednesday
  | Thursday, Thursday | Friday, Friday | Saturday, Saturday
  | Sunday, Sunday => true
  | _, _ => false
  end.

End Calendar.

(** ** Numeric kernels of NumPy and pandas *)

Module Numeric.

Fixpoint Rsum (xs : list R) : R :=
  match xs with
  | [] => 0
  | x :: r => x + Rsum r
  end.

(** [np.mean] / [Series.mean]. *)
Definition mean (xs : list R) : R := Rsum xs / INR (length xs).

Definition sq_dev (xs : list R) : R :=
  Rsum (map (fun x => (x - mean xs) * (x - mean xs)) xs).

(** [np.std(a)]: NumPy's default, zero delta degrees of freedom. *)
Definition np_std (xs : list R) : R := sqrt (sq_dev xs / INR (length xs)).

(** [Series.std()]: pandas' default, one delta degree of freedom; NaN
    ([None]) when fewer than two observations are present. *)
Definition pd_std (xs : list R) : option R :=
  if (length xs <? 2)%nat then None
  else Some (sqrt (sq_dev xs / (INR (length xs) - 1))).

(** [Series.tail(k)]. *)
Definition tail {A} (k : nat) (xs : list A) : list A :=
  skipn (length xs - k) xs.

(** [Series.iloc[-k]] for [k >= 1]; out of range raises. *)
Definition iloc_neg {A} (k : nat) (xs : list A) : option A :=
  if (k <=? length xs)%nat then nth_error xs (length xs - k) else None.

(** [xs[-k]] where the source reads it behind a length guard, or on a
    buffer that is never empty. *)
Definition neg_index (k : nat) (xs : list R) : R :=
  nth (length xs - k) xs 0.

(** [Series.diff()] without its leading NaN, which [mean] skips. *)
Fixpoint diff (xs : list R) : list R :=
  match xs with
  | x :: ((y :: _) as r) => (y - x) :: diff r
  | _ => []
  end.

Definition Rltb (x y : R) : bool := if Rlt_dec x y then true else false.
Definition Reqb (x y : R) : bool := if Req_dec_T x y then true else false.

End Numeric.

(** ** Python dictionaries with string keys *)

Module Dict.

Definition dict (V : Type) := list (string * V).

(** [key in d]. *)
Fixpoint mem {V} (d : dict V) (k : string) : bool :=
  match d with
  | [] => false
  | (k', _) :: r => if string_dec k k' then true else mem r k
  end.

(** [d[key]], [None] for a [KeyError]. *)
Fixpoint lookup {V} (d : dict V) (k : string) : option V :=
  match d with
  | [] => None
  | (k', v) :: r => if string_dec k k' then Some v else lookup r k
  end.

(** [d.get(key, default)]. *)
Definition get {V} (d : dict V) (k : string) (default : V) : V :=
  match lookup d k with
  | Some v => v
  | None => default
  end.

(** [d[key] = v]: an existing key keeps its position. *)
Fixpoint set {V} (d : dict V) (k : string) (v : V) : dict V :=
  match d with
  | [] => [(k, v)]
  | (k', v') :: r =>
      if string_dec k k' then (k', v) :: r else (k', v') :: set r k v
  end.

End Dict.

(** ** [scripts/predict_custom.py] *)

Module PredictCustom.
Import Calendar Numeric.

(** A row of the frame [prepare_sales_df] returns: the [day] index and the
    [total_sales] column, the two entries the functions below read. *)
Record SalesRow := { day : Z; total_sales : R }.

Definition sales (df : list SalesRow) : list R := map total_sales df.

(** *** [calculate_confidence_interval] *)

Definition ci_std (predictions : list R) (historical_std : option R) : R :=
  match historical_std with
  | None =>
      if (1 <? length predictions)%nat then np_std predictions
      else mean predictions * 0.15
  | Some s => s
  end.

Definition ci_z_score (confidence : R) : R :=
  if Req_dec_T confidence 0.95 then 1.96 else 1.645.

Definition ci_margin (predictions : list R) (historical_std : option R)
    (confidence : R) : R :=
  ci_z_score confidence * ci_std predictions historical_std.

(** [lower = predictions - margin], before [np.maximum]. *)
Definition ci_lower (predictions : list R) (margin : R) : list R :=
  map (fun p => p - margin) predictions.

Definition ci_upper (predictions : list R) (margin : R) : list R :=
  map (fun p => p + margin) predictions.

Definition calculate_confidence_interval (predictions : list R)
    (historical_std : option R) (confidence : R) : list R * list R :=
  let margin := ci_margin predictions historical_std confidence in
  let lower := ci_lower predictions margin in
  let upper := ci_upper predictions margin in
  (map (fun l => Rmax l 0) lower, upper).

(** *** [detect_anomalies] *)

Record AnomalyRow := { a_row : SalesRow; z_score : R }.

Definition is_anomaly (threshold : R) (a : AnomalyRow) : bool :=
  Rltb threshold (Rabs (z_score a)).

(** With the default [column='total_sales'], which every frame of
    [prepare_sales_df] carries.  When [std] is NaN (a single row) every
    [z_score] is NaN and no comparison [abs(z) > threshold] holds. *)
Definition detect_anomalies (df : list SalesRow) (threshold : R)
    : list AnomalyRow :=
  match df with
  | [] => []
  | _ =>
      let mean := mean (sales df) in
      match pd_std (sales df) with
      | None => []
      | Some std =>
          if Req_dec_T std 0 then []
          else
            filter (is_anomaly threshold)
              (map (fun r => {| a_row := r;
                                z_score := (total_sales r - mean) / std |}) df)
      end
  end.

(** The direction the reports print for a flagged row
    ([generate_anomaly_report], [generate_full_report]). *)
Inductive direction := spike | drop.

Definition anomaly_type (z : R) : direction :=
  if Rlt_dec 0 z then spike else drop.

(** *** [analyze_seasonal_patterns] *)

(** Python's [max(items, key=...)] and [min(items, key=...)]: the first
    extremal item in iteration order. *)
Fixpoint max_by {A} (key : A -> R) (best : A) (rest : list A) : A :=
  match rest with
  | [] => best
  | x :: r => max_by key (if Rlt_dec (key best) (key x) then x else best) r
  end.

Fixpoint min_by {A} (key : A -> R) (best : A) (rest : list A) : A :=
  match rest with
  | [] => best
  | x :: r => min_by key (if Rlt_dec (key x) (key best) then x else best) r
  end.

(** [groupby('day_name')] sorts its keys: the names in alphabetical order. *)
Definition group_keys : list day_name :=
  [Friday; Monday; Saturday; Sunday; Thursday; Tuesday; Wednesday].

Definition group (df : list SalesRow) (n : day_name) : list SalesRow :=
  filter (fun r => day_name_eqb (day_name_of (day r)) n) df.

(** [df.groupby('day_name')['total_sales'].mean().to_dict()]: one entry per
    day name that occurs. *)
Definition weekly_avg (df : list SalesRow) : list (day_name * R) :=
  flat_map (fun n => match group df n with
                     | [] => []
                     | g => [(n, mean (sales g))]
                     end) group_keys.

Definition is_weekend (r : SalesRow) : bool :=
  let w := weekday (day r) in ((w =? 4) || (w =? 5))%Z.

Record SeasonalProfile := {
  weekly_pattern : list (day_name * R);
  best_day : day_name * R;
  worst_day : day_name * R;
  weekend_avg : R;
  weekday_avg : R;
  weekend_boost : R
}.

(** The Arabic relabelling of the day names ([day_names_ar]) is a renaming
    of the seven keys and is left out.  [None] is the empty dict returned
    for an empty frame. *)
Definition analyze_seasonal_patterns (df : list SalesRow)
    : option SeasonalProfile :=
  match df with
  | [] => None
  | _ =>
      match weekly_avg df with
      | [] => None
      | first :: rest =>
          let best := max_by snd first rest in
          let worst := min_by snd first rest in
          let we := filter is_weekend df in
          let wd := filter (fun r => negb (is_weekend r)) df in
          let weekend_avg := match we with [] => 0 | _ => mean (sales we) end in
          let weekday_avg := match wd with [] => 0 | _ => mean (sales wd) end in
          let weekend_boost :=
            if Rlt_dec 0 weekday_avg
            then ((weekend_avg - weekday_avg) / weekday_avg) * 100
            else 0 in
          Some {| weekly_pattern := first :: rest;
                  best_day := best;
                  worst_day := worst;
                  weekend_avg := weekend_avg;
                  weekday_avg := weekday_avg;
                  weekend_boost := weekend_boost |}
      end
  end.

(** *** [forecast_with_lightgbm] *)

(** [model.predict(X)[0]]; [None] when the call raises. *)
Definition Model := list R -> option R.

(** The dict [feature_values] of loop iteration [i], given the
    [predictions] appended so far. *)
Definition feature_values (df : list SalesRow) (historical_mean : R)
    (i : nat) (predictions : list R) (next_date : Z) : Dict.dict R :=
  [ ("day_of_week", IZR (weekday next_date));
    ("is_weekend",
      if ((weekday next_date =? 4) || (weekday next_date =? 5))%Z then 1 else 0);
    ("day_of_month", IZR (day_of_month next_date));
    ("month", IZR (month next_date)) ]%string
  ++
  (if (0 <? length df)%nat then
    [ ("sales_lag_1",
        if (i =? 0)%nat then neg_index 1 (sales df) else neg_index 1 predictions);
      ("orders_lag_1", 0);
      ("items_lag_1", 0);
      ("sales_lag_2",
        if (1 <? length df)%nat && (i <? 2)%nat then neg_index 2 (sales df)
        else if (1 <? length predictions)%nat then neg_index 2 predictions
        else historical_mean);
      ("orders_lag_2", 0);
      ("items_lag_2", 0);
      ("sales_lag_3",
        if (2 <? length df)%nat && (i <? 3)%nat then neg_index 3 (sales df)
        else historical_mean);
      ("orders_lag_3", 0);
      ("items_lag_3", 0);
      ("sales_rolling_3", mean (tail 3 (sales df)));
      ("orders_rolling_3", 0);
      ("items_rolling_3", 0);
      ("sales_rolling_7", mean (tail 7 (sales df)));
      ("orders_rolling_7", 0);
      ("items_rolling_7", 0);
      ("sales_trend",
        if (1 <? length df)%nat then mean (diff (sales df)) else 0) ]%string
   else []).

(** [X = np.array([[feature_values.get(f, 0) for f in features]])]. *)
Definition feature_array (fv : Dict.dict R) (features : list string) : list R :=
  map (fun f => Dict.get fv f 0) features.

(** [df.index.max()]. *)
Definition index_max (df : list SalesRow) : Z :=
  match df with
  | [] => 0%Z
  | r :: rest => fold_left Z.max (map day rest) (day r)
  end.

(** The state of the [for i in range(days)] loop: the two lists the source
    appends to, and (for the statements about each step's inputs) the
    feature dict each iteration built. *)
Record LoopState := {
  dates : list Z;
  predictions : list R;
  built : list (Dict.dict R)
}.

Definition loop_body (model : Model) (features : list string)
    (df : list SalesRow) (last_date : Z) (historical_mean : R)
    (i : nat) (st : LoopState) : LoopState :=
  let next_date := (last_date + (Z.of_nat i + 1))%Z in
  let fv := feature_values df historical_mean i (predictions st) next_date in
  let X := feature_array fv features in
  let appended :=
    match model X with
    | Some pred => Rmax 0 pred
    | None => historical_mean
    end in
  {| dates := dates st ++ [next_date];
     predictions := predictions st ++ [appended];
     built := built st ++ [fv] |}.

(** Iterations [i, i+1, ..., i+n-1]. *)
Fixpoint loop (model : Model) (features : list string) (df : list SalesRow)
    (last_date : Z) (historical_mean : R) (n i : nat) (st : LoopState)
    : LoopState :=
  match n with
  | O => st
  | S n' =>
      loop model features df last_date historical_mean n' (S i)
        (loop_body model features df last_date historical_mean i st)
  end.

Definition forecast_state (model : Model) (features : list string)
    (df : list SalesRow) (days : nat) : LoopState :=
  loop model features df (index_max df) (mean (sales df)) days 0
    {| dates := []; predictions := []; built := [] |}.

(** The returned frame, as its rows [(date, predicted_sales)];
    [features] is [metadata.get('features', [])]. *)
Definition forecast_with_lightgbm (model : Model) (features : list string)
    (df : list SalesRow) (days : nat) : list (Z * R) :=
  match df with
  | [] => []
  | _ =>
      let st := forecast_state model features df days in
      combine (dates st) (predictions st)
  end.

End PredictCustom.

(** ** Frames with missing values *)

Module Frame.
Import Numeric.

(** A cell of a pandas frame: a float, NaN, an infinity (what a division
    of a nonzero float by zero yields), or a [Timestamp]. *)
Inductive cell := Num (r : R) | NaN | Inf (positive : bool) | Stamp (d : Z).

Definition row := Dict.dict cell.

Definition isna (c : cell) : bool :=
  match c with NaN => true | _ => false end.

(** [Series.fillna(v)]. *)
Definition fillna (v : R) (c : cell) : cell :=
  match c with NaN => Num v | _ => c end.

(** Entry [i] of [xs.shift(k)]. *)
Definition shift_at (k : nat) (xs : list R) (i : nat) : cell :=
  if (i <? k)%nat then NaN
  else match nth_error xs (i - k) with
       | Some v => Num v
       | None => NaN
       end.

(** Entry [i] of [xs.rolling(w, min_periods=1).mean()]: the mean of the
    last [min (i+1) w] values up to and including [i]. *)
Definition rolling_mean_at (w : nat) (xs : list R) (i : nat) : R :=
  mean (skipn (S i - w) (firstn (S i) xs)).

(** Float division [x / y] as NumPy performs it. *)
Definition fdiv (x y : R) : cell :=
  if Req_dec_T y 0 then
    if Req_dec_T x 0 then NaN else Inf (Rltb 0 x)
  else Num (x / y).

(** Entry [i] of [xs.pct_change(periods=k)]: [xs[i] / xs[i-k] - 1]. *)
Definition pct_change_at (k : nat) (xs : list R) (i : nat) : cell :=
  match shift_at k xs i, nth_error xs i with
  | Num prev, Some x =>
      match fdiv x prev with
      | Num q => Num (q - 1)
      | c => c
      end
  | _, _ => NaN
  end.

(** [df.dropna()]: the rows without a missing value, in order. *)
Definition dropna (df : list row) : list row :=
  filter (fun r => negb (existsb isna (map snd r))) df.

End Frame.

(** ** The feature engineering shared by [scripts/train_lightgbm.py]
       ([load_and_prepare_data]) and [scripts/daily_predictions.py]
       ([load_latest_data]) *)

Module FeatureEngineering.
Import Calendar Numeric Frame.

(** A row of [daily_cafe_dataset.csv], as the ingestion pipeline writes it:
    typed, numeric, nothing missing.  Of its columns these are the ones the
    feature engineering reads, and [total_expenses] stands for the further
    numeric columns it carries along untouched. *)
Record DailyRecord := {
  day : Z;
  total_sales : R;
  orders_count : R;
  items_sold : R;
  total_expenses : R
}.

(** [df.sort_values('day').reset_index(drop=True)]. *)
Fixpoint insert_by_day (r : DailyRecord) (rs : list DailyRecord)
    : list DailyRecord :=
  match rs with
  | [] => [r]
  | x :: rest =>
      if (day r <=? day x)%Z then r :: x :: rest
      else x :: insert_by_day r rest
  end.

Definition sort_values (rs : list DailyRecord) : list DailyRecord :=
  fold_right insert_by_day [] rs.

Definition lag_columns (lag : nat) (df : list DailyRecord) (i : nat) : row :=
  let n := String.string_of_list_ascii
             [Ascii.ascii_of_nat (48 + lag)] in
  [ (("sales_lag_" ++ n)%string, shift_at lag (map total_sales df) i);
    (("orders_lag_" ++ n)%string, shift_at lag (map orders_count df) i);
    (("items_lag_" ++ n)%string, shift_at lag (map items_sold df) i) ].

Definition rolling_columns (window : nat) (df : list DailyRecord) (i : nat)
    : row :=
  let n := String.string_of_list_ascii
             [Ascii.ascii_of_nat (48 + window)] in
  [ (("sales_rolling_" ++ n)%string,
      Num (rolling_mean_at window (map total_sales df) i));
    (("orders_rolling_" ++ n)%string,
      Num (rolling_mean_at window (map orders_count df) i));
    (("items_rolling_" ++ n)%string,
      Num (rolling_mean_at window (map items_sold df) i)) ].

(** Row [i] of the frame just before [dropna], columns in the order the
    script creates them. *)
Definition engineered_row (df : list DailyRecord) (i : nat) (r : DailyRecord)
    : row :=
  [ ("day", Stamp (day r));
    ("total_sales", Num (total_sales r));
    ("orders_count", Num (orders_count r));
    ("items_sold", Num (items_sold r));
    ("total_expenses", Num (total_expenses r));
    ("day_of_week", Num (IZR (weekday (day r))));
    ("day_of_month", Num (IZR (day_of_month (day r))));
    ("month", Num (IZR (month (day r))));
    ("is_weekend", Num (if (5 <=? weekday (day r))%Z then 1 else 0)) ]%string
  ++ flat_map (fun lag => lag_columns lag df i) [1; 2; 3]%nat
  ++ flat_map (fun window => rolling_columns window df i) [3; 7]%nat
  ++ [ ("sales_trend"%string,
         fillna 0 (pct_change_at 3 (map total_sales df) i)) ].

Definition engineer (records : list DailyRecord) : list row :=
  let df := sort_values records in
  map (fun ir => engineered_row df (fst ir) (snd ir))
      (combine (seq 0 (length df)) df).

(** The whole preparation: engineer the columns, then [df.dropna()]. *)
Definition prepare (records : list DailyRecord) : list row :=
  dropna (engineer records).

End FeatureEngineering.

(** ** An error monad for code that may raise *)

Module Raise.

Definition bind {A B} (m : option A) (f : A -> option B) : option B :=
  match m with
  | Some a => f a
  | None => None
  end.

(** [for x in xs: acc = body(x, acc)], stopping at the first exception. *)
Fixpoint for_each {A S} (xs : list A) (body : A -> S -> option S) (acc : S)
    : option S :=
  match xs with
  | [] => Some acc
  | x :: r => bind (body x acc) (for_each r body)
  end.

End Raise.

Notation "x <- m ;; k" := (Raise.bind m (fun x => k))
  (at level 61, m at next level, right associativity).

(** ** The next-days loop shared by [scripts/daily_predictions.py]
       ([generate_predictions]) and [scripts/train_lightgbm.py]
       ([forecast_next_days]) *)

Module NextDays.
Import Calendar Frame.

(** [model.predict(X_pred)[0]]; [None] when the call raises. *)
Definition Model := list cell -> option R.

(** The four calendar entries the loop writes first. *)
Definition date_features (next_day : Z) : row :=
  [ ("day_of_week", Num (IZR (weekday next_day)));
    ("day_of_month", Num (IZR (day_of_month next_day)));
    ("month", Num (IZR (month next_day)));
    ("is_weekend", Num (if (5 <=? weekday next_day)%Z then 1 else 0)) ]%string.

(** [for col in feature_cols: if col not in features:
       features[col] = last_row[col] if col in last_row else 0]. *)
Definition fill_from_last_row (last_row : row) (feature_cols : list string)
    (features : row) : row :=
  fold_left
    (fun features col =>
       if Dict.mem features col then features
       else Dict.set features col (Dict.get last_row col (Num 0)))
    feature_cols features.

(** [pd.DataFrame([features])[feature_cols]]: every requested column has
    been written by then. *)
Definition select (features : row) (feature_cols : list string) : list cell :=
  map (fun col => Dict.get features col NaN) feature_cols.

(** [last_row['day']]. *)
Definition last_day (last_row : row) : option Z :=
  match Dict.lookup last_row "day" with
  | Some (Stamp d) => Some d
  | _ => None
  end.

(** One iteration: the features built and the value predicted for day
    [last_row['day'] + i]. *)
Definition step (model : Model) (last_row : row) (feature_cols : list string)
    (i : nat) : option (Z * row * R) :=
  d <- last_day last_row ;;
  let next_day := (d + Z.of_nat i)%Z in
  let features :=
    fill_from_last_row last_row feature_cols (date_features next_day) in
  predicted <- model (select features feature_cols) ;;
  Some (next_day, features, predicted).

(** [for i in range(1, n_days + 1)], collecting one entry per iteration. *)
Definition run (model : Model) (df : list row) (feature_cols : list string)
    (n_days : nat) : option (list (Z * row * R)) :=
  last_row <- Numeric.iloc_neg 1 df ;;
  Raise.for_each (seq 1 n_days)
    (fun i acc =>
       s <- step model last_row feature_cols i ;;
       Some (acc ++ [s]))
    [].

End NextDays.

(** ** [scripts/daily_predictions.py] *)

Module DailyPredictions.
Import Calendar Frame.

Definition load_latest_data := FeatureEngineering.prepare.

Inductive confidence := high | medium.

(** One entry of the returned list; [date] stands for its
    [strftime('%Y-%m-%d')] rendering and [day_name] for [strftime('%A')]. *)
Record Prediction := {
  date : Z;
  day_name : Calendar.day_name;
  predicted_sales : R;
  confidence_level : confidence
}.

Definition generate_predictions (model : NextDays.Model) (df : list row)
    (feature_cols : list string) (n_days : nat) : option (list Prediction) :=
  steps <- NextDays.run model df feature_cols n_days ;;
  Some (map (fun s : Z * row * R =>
               let '(next_day, _, predicted) := s in
               {| date := next_day;
                  day_name := day_name_of next_day;
                  predicted_sales := predicted;
                  confidence_level :=
                    if (weekday next_day <? 5)%Z then high else medium |})
            steps).

End DailyPredictions.

(** ** Splitters of scikit-learn, as the scripts call them *)

Module Sklearn.

(** A fold: the positional indices of the training rows and of the test
    rows. *)
Definition fold := (list nat * list nat)%type.

(** [TimeSeriesSplit(n_splits).split(X)] with [n_samples = len(X)], no gap,
    no maximal training size: [test_size = n_samples // (n_splits + 1)],
    test blocks start at
    [range(n_samples - n_splits * test_size, n_samples, test_size)] and each
    fold trains on everything before its test block.  [None] is the
    [ValueError] raised for too few samples. *)
Definition TimeSeriesSplit (n_splits n_samples : nat) : option (list fold) :=
  let n_folds := (n_splits + 1)%nat in
  let test_size := (n_samples / n_folds)%nat in
  if (n_samples <? n_folds)%nat then None
  else if (n_samples - test_size * n_splits <=? 0)%nat then None
  else
    Some (map (fun k =>
                 let test_start :=
                   (n_samples - n_splits * test_size + k * test_size)%nat in
                 (seq 0 test_start, seq test_start test_size))
              (seq 0 n_splits)).

(** [train_test_split(X, y, test_size=0.2, random_state=42)]: the rows are
    shuffled by a permutation drawn from the seeded generator (here the
    argument [permutation]); the first [ceil(0.2 n)] shuffled rows are the
    test set and the rest the training set. *)
Definition train_test_split (permutation : list nat) (n_samples : nat) : fold :=
  let n_test := ((n_samples + 4) / 5)%nat in
  let n_train := (n_samples - n_test)%nat in
  (firstn n_train (skipn n_test permutation), firstn n_test permutation).

(** [X.iloc[idx]]. *)
Definition iloc {A} (idx : list nat) (xs : list A) : list A :=
  flat_map (fun i => match nth_error xs i with
                     | Some x => [x]
                     | None => []
                     end) idx.

(** [mean_absolute_error(y_true, y_pred)]. *)
Definition mean_absolute_error (y_true y_pred : list R) : R :=
  Numeric.mean (map (fun p => Rabs (fst p - snd p)) (combine y_true y_pred)).

End Sklearn.

(** ** [scripts/train_lightgbm.py] *)

Module TrainLightgbm.
Import Calendar Frame.

Definition load_and_prepare_data := FeatureEngineering.prepare.

(** The folds of [tscv = TimeSeriesSplit(n_splits=5); tscv.split(X)]. *)
Definition cv_folds {A} (X : list A) : option (list Sklearn.fold) :=
  Sklearn.TimeSeriesSplit 5 (length X).

Section CrossValidation.
(** The regressor: what [model.fit] learns and how it predicts. *)
Variable Fitted : Type.
Variable fit : list (list cell) -> list R -> Fitted.
Variable predict : Fitted -> list (list cell) -> list R.

(** The cross-validation loop of [train_lightgbm_model]: the MAE of each
    fold, in fold order. *)
Definition mae_scores (X : list (list cell)) (y : list R)
    : option (list R) :=
  folds <- cv_folds X ;;
  Some (map (fun f : Sklearn.fold =>
               let (train_idx, test_idx) := f in
               let fitted := fit (Sklearn.iloc train_idx X)
                                 (Sklearn.iloc train_idx y) in
               let pred := predict fitted (Sklearn.iloc test_idx X) in
               Sklearn.mean_absolute_error (Sklearn.iloc test_idx y) pred)
            folds).
End CrossValidation.

Record Forecast := {
  date : Z;
  predicted_sales : R;
  day_of_week : Calendar.day_name
}.

Definition forecast_next_days (model : NextDays.Model) (df : list row)
    (feature_cols : list string) (n_days : nat) : option (list Forecast) :=
  steps <- NextDays.run model df feature_cols n_days ;;
  Some (map (fun s : Z * row * R =>
               let '(next_day, _, prediction) := s in
               {| date := next_day;
                  predicted_sales := prediction;
                  day_of_week := day_name_of next_day |})
            steps).

End TrainLightgbm.

(** ** [scripts/legacy_train_model.py] and [scripts/train_tf_model.py] *)

Module LegacyTrain.

(** The split both [train] functions make of their [n] usable rows:
    [X_train, X_test = X, X] below ten rows, a shuffled 80/20 split
    otherwise.  [rng_permutation n] is the permutation of [range(n)] the
    generator seeded with 42 draws. *)
Definition split (rng_permutation : nat -> list nat) (n : nat) : Sklearn.fold :=
  if (n <? 10)%nat then (seq 0 n, seq 0 n)
  else Sklearn.train_test_split (rng_permutation n) n.

End LegacyTrain.

(** ** [Dataset-creat/train_model.py] *)

Module TrainModel.
Import Calendar Numeric.

(** *** [train_regression]: hold-out split and choice of the regressor *)

(** Python's [xs[:k]] and [xs[k:]] for a possibly negative [k]. *)
Definition slice_index (len : nat) (k : Z) : nat :=
  if (k <? 0)%Z then Z.to_nat (Z.max 0 (Z.of_nat len + k))
  else Nat.min len (Z.to_nat k).

(** [train_size = len(df) - 3]; the row positions of [X[:train_size]] and
    of [X[train_size:]]. *)
Definition holdout (n : nat) : Sklearn.fold :=
  let cut := slice_index n (Z.of_nat n - 3) in
  (seq 0 cut, seq cut (n - cut)).

(** The state of the selection loop: [None] while [best_mae] is still
    [float('inf')], then the best name, model and MAE so far. *)
Definition Best (M : Type) := option (string * M * R).

Definition best_mae {M} (b : Best M) : option R :=
  match b with
  | Some (_, _, mae) => Some mae
  | None => None
  end.

(** [if mae < best_mae: best_mae, best_model, best_name = mae, model, name]. *)
Definition consider {M} (validate : M -> R) (b : Best M) (c : string * M)
    : Best M :=
  let mae := validate (snd c) in
  match b with
  | None => Some (fst c, snd c, mae)
  | Some (_, _, best) =>
      if Rlt_dec mae best then Some (fst c, snd c, mae) else b
  end.

(** [for name, model in models.items(): ...], where [validate model] is
    the MAE of the fitted model on the held-out rows. *)
Definition select_best {M} (validate : M -> R) (models : list (string * M))
    : Best M :=
  fold_left (consider validate) models None.

(** *** [main]: the comparison table *)

Record Metrics := { mae : R; mape : R }.

Fixpoint insert_by_mape (x : string * Metrics) (xs : list (string * Metrics))
    : list (string * Metrics) :=
  match xs with
  | [] => [x]
  | y :: r =>
      if Rle_dec (mape (snd x)) (mape (snd y)) then x :: y :: r
      else y :: insert_by_mape x r
  end.

(** [comparison.sort_values('mape')]; rows with equal keys keep their
    order. *)
Definition sort_by_mape (results : list (string * Metrics))
    : list (string * Metrics) :=
  fold_right insert_by_mape [] results.

(** [best = comparison.index[0]] of the sorted table; [results] holds the
    backends that trained, in the order [main] registers them. *)
Definition main_best (results : list (string * Metrics)) : option string :=
  match sort_by_mape results with
  | [] => None
  | (name, _) :: _ => Some name
  end.

(** *** [forecast_next_days], the branch taken when the regression
        artifact exists *)

(** The unpickled artifact: [predict] is [model.predict(scaler.transform(X))[0]],
    [None] when it raises. *)
Record Regression := {
  predict : list R -> option R;
  features : list string
}.

(** A row of the frame: index [day] and column [total_sales]. *)
Definition History := list (Z * R).

Definition history_sales (h : History) : list R := map snd h.

Definition add_if (present : bool) (key : string) (v : R)
    (row : Dict.dict R) : Dict.dict R :=
  if present then Dict.set row key v else row.

Definition has (feature_cols : list string) (name : string) : bool :=
  if in_dec string_dec name feature_cols then true else false.

(** The dict [row] built for [date] from the history buffer. *)
Definition build_row (feature_cols : list string) (history_df : History)
    (date : Z) : Dict.dict R :=
  let s := history_sales history_df in
  let row :=
    [ ("day_of_week", IZR (weekday date));
      ("is_weekend", if (4 <=? weekday date)%Z then 1 else 0) ]%string in
  let row :=
    add_if (has feature_cols "lag_1_sales") "lag_1_sales"
      (neg_index 1 s) row in
  let row :=
    add_if (has feature_cols "lag_7_sales") "lag_7_sales"
      (if (7 <=? length history_df)%nat then neg_index 7 s else mean s) row in
  let row :=
    add_if (has feature_cols "rolling_7d_sales_avg") "rolling_7d_sales_avg"
      (mean (tail 7 s)) row in
  let row :=
    add_if (has feature_cols "rolling_30d_sales_avg") "rolling_30d_sales_avg"
      (mean (tail 30 s)) row in
  row.

(** [pd.DataFrame([row])[feature_cols]]: a [KeyError] for a column the row
    lacks. *)
Fixpoint select (row : Dict.dict R) (feature_cols : list string)
    : option (list R) :=
  match feature_cols with
  | [] => Some []
  | c :: r =>
      v <- Dict.lookup row c ;;
      vs <- select row r ;;
      Some (v :: vs)
  end.

Record LoopState := {
  history_df : History;
  forecast_values : list R;
  built : list (Dict.dict R)
}.

Definition loop_body (reg : Regression) (date : Z) (st : LoopState)
    : option LoopState :=
  let row := build_row (features reg) (history_df st) date in
  X_new <- select row (features reg) ;;
  pred <- predict reg X_new ;;
  Some {| history_df := history_df st ++ [(date, pred)];
          forecast_values := forecast_values st ++ [pred];
          built := built st ++ [row] |}.

Definition index_max (df : History) : option Z :=
  match df with
  | [] => None
  | r :: rest => Some (fold_left Z.max (map fst rest) (fst r))
  end.

(** [pd.date_range(start=df.index.max() + pd.Timedelta(days=1), periods=days)]. *)
Definition future_dates (df : History) (days : nat) : option (list Z) :=
  m <- index_max df ;;
  Some (map (fun k => (m + 1 + Z.of_nat k)%Z) (seq 0 days)).

Definition forecast_state (reg : Regression) (df : History) (days : nat)
    : option LoopState :=
  ds <- future_dates df days ;;
  Raise.for_each ds (loop_body reg)
    {| history_df := df; forecast_values := []; built := [] |}.

(** The returned frame, as its rows [(date, predicted_sales)]. *)
Definition forecast_next_days (reg : Regression) (df : History) (days : nat)
    : option (list (Z * R)) :=
  ds <- future_dates df days ;;
  st <- forecast_state reg df days ;;
  Some (combine ds (forecast_values st)).

End TrainModel.


(** ** [scripts/train_lightgbm.py]: [train_lightgbm_model] *)

Module TrainLightgbmModel.
Import Frame.

(** The columns [train_lightgbm_model] keeps out of the features. *)
Definition excluded (target_col : string) : list string :=
  [ "day"; target_col; "orders_count"; "items_sold"; "total_expenses";
    "receipt_expenses"; "cash_sales"; "order_sales"; "discounts";
    "evening_shift_sales"; "morning_shift_sales"; "inventory_waste_qty";
    "inventory_usage_qty"; "average_order_value"; "gross_profit";
    "profit_margin"; "cash_ratio" ]%string.

(** [df.columns]; every row of a frame has the same keys.  (An empty frame
    makes the function raise before its columns are used.) *)
Definition columns (df : list row) : list string :=
  match df with
  | [] => []
  | r :: _ => map fst r
  end.

(** [[col for col in df.columns if col not in [...]]]. *)
Definition feature_cols (df : list row) (target_col : string) : list string :=
  filter (fun col => if in_dec string_dec col (excluded target_col)
                     then false else true)
         (columns df).

(** [df[feature_cols]], row by row. *)
Definition select_columns (df : list row) (cols : list string)
    : list (list cell) :=
  map (fun r => map (fun c => Dict.get r c NaN) cols) df.

(** [df[target_col]] as floats; [None] for a missing column ([KeyError]) or
    a cell that is not a number. *)
Fixpoint target (df : list row) (target_col : string) : option (list R) :=
  match df with
  | [] => Some []
  | r :: rest =>
      match Dict.lookup r target_col with
      | Some (Num v) => vs <- target rest target_col ;; Some (v :: vs)
      | _ => None
      end
  end.

(** [np.finfo(np.float64).eps]. *)
Definition epsilon : R := / 4503599627370496.

(** scikit-learn's [mean_absolute_percentage_error(y_true, y_pred)]. *)
Definition mean_absolute_percentage_error (y_true y_pred : list R) : R :=
  Numeric.mean
    (map (fun p => Rabs (snd p - fst p) / Rmax (Rabs (fst p)) epsilon)
         (combine y_true y_pred)).

Record Metrics := { mae : R; mape : R }.

Section Train.
(** The regressor: what [model.fit] learns and how it predicts. *)
Variable Fitted : Type.
Variable fit : list (list cell) -> list R -> Fitted.
Variable predict : Fitted -> list (list cell) -> list R.

(** The per-fold scores [(mae, mape)] of the cross-validation loop. *)
Definition fold_scores (X : list (list cell)) (y : list R)
    : option (list (R * R)) :=
  folds <- TrainLightgbm.cv_folds X ;;
  Some (map (fun f : Sklearn.fold =>
               let (train_idx, test_idx) := f in
               let fitted := fit (Sklearn.iloc train_idx X)
                                 (Sklearn.iloc train_idx y) in
               let pred := predict fitted (Sklearn.iloc test_idx X) in
               let y_test := Sklearn.iloc test_idx y in
               (Sklearn.mean_absolute_error y_test pred,
                mean_absolute_percentage_error y_test pred * 100))
            folds).

(** The returned triple: the model refitted on all rows, the feature names,
    and the mean scores.  [None] when a step raises. *)
Definition train_lightgbm_model (df : list row) (target_col : string)
    : option (Fitted * list string * Metrics) :=
  let cols := feature_cols df target_col in
  let X := select_columns df cols in
  y <- target df target_col ;;
  scores <- fold_scores X y ;;
  Some (fit X y, cols,
        {| mae := Numeric.mean (map fst scores);
           mape := Numeric.mean (map snd scores) |}).

End Train.

End TrainLightgbmModel.

(** ** [Dataset-creat/pipeline_json.py]: [engineer_features] *)

Module PipelineJson.
Import Calendar Numeric Frame.

(** A row of the frame [extract_dataset] returns: the index [day] and, of
    its numeric columns (none missing after its [fillna(0)]), the three
    that [engineer_features] reads. *)
Record MasterRow := {
  day : Z;
  total_sales : R;
  total_expenses : R;
  inventory_usage_qty : R
}.

(** The columns [engineer_features] adds to row [i], in the order it creates
    them. *)
Definition added_columns (df : list MasterRow) (i : nat) (r : MasterRow)
    : row :=
  let sales := map total_sales df in
  [ ("rolling_7d_sales_avg", Num (rolling_mean_at 7 sales i));
    ("rolling_30d_sales_avg", Num (rolling_mean_at 30 sales i));
    ("inventory_burn_rate",
      Num (rolling_mean_at 7 (map inventory_usage_qty df) i));
    ("sales_growth_rate", fillna 0 (pct_change_at 1 sales i));
    ("expense_growth_rate",
      fillna 0 (pct_change_at 1 (map total_expenses df) i));
    ("lag_1_sales", fillna 0 (shift_at 1 sales i));
    ("lag_7_sales", fillna 0 (shift_at 7 sales i));
    ("day_of_week", Num (IZR (weekday (day r))));
    ("is_weekend",
      Num (if ((weekday (day r) =? 4) || (weekday (day r) =? 5))%Z
           then 1 else 0)) ]%string.

(** The returned frame, row by row: the columns read, followed by the
    columns added. *)
Definition engineer_features (df : list MasterRow) : list row :=
  map (fun ir : nat * MasterRow =>
         [ ("day", Stamp (day (snd ir)));
           ("total_sales", Num (total_sales (snd ir)));
           ("total_expenses", Num (total_expenses (snd ir)));
           ("inventory_usage_qty", Num (inventory_usage_qty (snd ir))) ]%string
         ++ added_columns df (fst ir) (snd ir))
      (combine (seq 0 (length df)) df).

End PipelineJson.

(** ** [scripts/predict_custom.py]: [analyze_products] and
       [generate_recommendations] *)

Module PredictCustomReports.
Import Calendar Numeric PredictCustom.

(** *** [analyze_products] *)

(** An entry of [data['MenuItems']] and of [data['OrderItems']]: [None] is
    an absent key; identifiers and quantities are integers, prices floats. *)
Record MenuItem := {
  idMenuItem : option Z;
  id : option Z;
  itemName : option string;
  name : option string
}.

Record OrderItem := {
  menuItemId : option Z;
  quantity : option Z;
  price : option R
}.

(** Truth values of Python: 0 and the empty string are false. *)
Definition truthy_id (v : option Z) : bool :=
  match v with
  | Some z => negb (z =? 0)%Z
  | None => false
  end.

Definition truthy_name (v : option string) : bool :=
  match v with
  | Some s => negb (String.eqb s EmptyString)
  | None => false
  end.

(** [a or b]. *)
Definition py_or {A} (truthy : option A -> bool) (a b : option A) : option A :=
  if truthy a then a else b.

(** [menu_lookup], most recent assignment first. *)
Definition menu_lookup (menu_items : list MenuItem) : list (Z * string) :=
  fold_left
    (fun acc item =>
       let item_id := py_or truthy_id (idMenuItem item) (id item) in
       let item_name := py_or truthy_name (itemName item) (name item) in
       match item_id, item_name with
       | Some i, Some n =>
           if truthy_id item_id && truthy_name item_name
           then (i, n) :: acc else acc
       | _, _ => acc
       end)
    menu_items [].

(** [menu_lookup.get(menu_id, default)]. *)
Fixpoint menu_get (menu : list (Z * string)) (menu_id : Z) (default : string)
    : string :=
  match menu with
  | [] => default
  | (i, n) :: r => if (i =? menu_id)%Z then n else menu_get r menu_id default
  end.

Definition get_or {A} (v : option A) (default : A) : A :=
  match v with
  | Some a => a
  | None => default
  end.

(** [sorted(items, key=lambda x: x[1], reverse=True)]: descending, items
    with equal keys in their original order. *)
Fixpoint insert_desc {A} (geb : A -> A -> bool) (x : A) (xs : list A)
    : list A :=
  match xs with
  | [] => [x]
  | y :: r => if geb x y then x :: y :: r else y :: insert_desc geb x r
  end.

Definition sorted_desc {A} (geb : A -> A -> bool) (xs : list A) : list A :=
  fold_right (insert_desc geb) [] xs.

Definition count_geb (x y : string * Z) : bool := (snd y <=? snd x)%Z.

Definition revenue_geb (x y : string * R) : bool :=
  if Rle_dec (snd y) (snd x) then true else false.

Record Products := {
  top_by_quantity : list (string * Z);
  top_by_revenue : list (string * R);
  total_products_sold : Z;
  unique_products : nat
}.

Section Analysis.
(** The placeholder name of a product the menu lacks, an f-string of
    [menu_id]. *)
Variable unknown : Z -> string.

Definition product_name (menu : list (Z * string)) (item : OrderItem)
    : string :=
  let menu_id := get_or (menuItemId item) 0%Z in
  menu_get menu menu_id (unknown menu_id).

(** [product_counts] after the loop over [order_items]. *)
Definition product_counts (menu : list (Z * string))
    (order_items : list OrderItem) : Dict.dict Z :=
  fold_left
    (fun counts item =>
       let n := product_name menu item in
       Dict.set counts n (Dict.get counts n 0 + get_or (quantity item) 1)%Z)
    order_items [].

(** [product_revenue] after the loop. *)
Definition product_revenue (menu : list (Z * string))
    (order_items : list OrderItem) : Dict.dict R :=
  fold_left
    (fun revenue item =>
       let n := product_name menu item in
       Dict.set revenue n
         (Dict.get revenue n 0
          + get_or (price item) 0 * IZR (get_or (quantity item) 1%Z)))
    order_items [].

(** [None] is the empty dict returned when either list is empty. *)
Definition analyze_products (order_items : list OrderItem)
    (menu_items : list MenuItem) : option Products :=
  match order_items, menu_items with
  | [], _ => None
  | _, [] => None
  | _, _ =>
      let menu := menu_lookup menu_items in
      let counts := product_counts menu order_items in
      let revenue := product_revenue menu order_items in
      Some {| top_by_quantity := firstn 5 (sorted_desc count_geb counts);
              top_by_revenue := firstn 5 (sorted_desc revenue_geb revenue);
              total_products_sold := fold_right Z.add 0%Z (map snd counts);
              unique_products := length counts |}
  end.

End Analysis.

(** *** [generate_recommendations] *)

(** The frame [prepare_sales_df] returns, as far as the function reads it:
    the rows, and the column [total_expenses], row by row, when the receipts
    carry one. *)
Record SalesFrame := {
  rows : list SalesRow;
  total_expenses : option (list R)
}.

(** The messages, by their template and the values formatted into them. *)
Inductive Recommendation :=
| WeekendHigher (weekend_boost : R)
| WeekendWeaker
| BestDay (day : day_name) (average : R)
| TopProduct (product : string)
| SalesRising (trend : R)
| SalesFalling (decline : R)
| LowMargin (margin_pct : R)
| ExcellentMargin (margin_pct : R)
| KeepCollecting.

(** 1. Based on seasonal patterns; [None] is the empty dict. *)
Definition seasonal_advice (patterns : option SeasonalProfile)
    : list Recommendation :=
  match patterns with
  | None => []
  | Some p =>
      (if Rlt_dec 20 (weekend_boost p) then [WeekendHigher (weekend_boost p)]
       else if Rlt_dec (weekend_boost p) (-10) then [WeekendWeaker]
       else [])
      ++ [BestDay (fst (best_day p)) (snd (best_day p))]
  end.

(** 2. Based on product analysis. *)
Definition product_advice (products : option Products) : list Recommendation :=
  match products with
  | Some p =>
      match top_by_quantity p with
      | (top_product, _) :: _ => [TopProduct top_product]
      | [] => []
      end
  | None => []
  end.

(** 3. Based on sales trends. *)
Definition trend_advice (sales_df : SalesFrame) : list Recommendation :=
  let s := sales (rows sales_df) in
  if (14 <=? length s)%nat then
    let recent_sales := mean (tail 7 s) in
    let older_sales := mean (firstn 7 s) in
    if Rlt_dec 0 older_sales then
      let trend := ((recent_sales - older_sales) / older_sales) * 100 in
      if Rlt_dec 10 trend then [SalesRising trend]
      else if Rlt_dec trend (-10) then [SalesFalling (Rabs trend)]
      else []
    else []
  else [].

(** [(sales_df['total_sales'] - sales_df['total_expenses']).mean()] and the
    margin percentage derived from it. *)
Definition margin_pct (s expenses : list R) : R :=
  let avg_margin := mean (map (fun p => fst p - snd p) (combine s expenses)) in
  let avg_sales := mean s in
  if Rlt_dec 0 avg_sales then avg_margin / avg_sales * 100 else 0.

(** 4. Expense optimization. *)
Definition margin_advice (sales_df : SalesFrame) : list Recommendation :=
  match rows sales_df, total_expenses sales_df with
  | _ :: _, Some expenses =>
      let m := margin_pct (sales (rows sales_df)) expenses in
      if Rlt_dec m 30 then [LowMargin m]
      else if Rlt_dec 50 m then [ExcellentMargin m]
      else []
  | _, _ => []
  end.

(** The argument [data] of the source is not read. *)
Definition generate_recommendations (sales_df : SalesFrame)
    (patterns : option SeasonalProfile) (products : option Products)
    : list Recommendation :=
  let recommendations :=
    seasonal_advice patterns ++ product_advice products
    ++ trend_advice sales_df ++ margin_advice sales_df in
  match recommendations with
  | [] => [KeepCollecting]
  | _ => recommendations
  end.

(** The list [generate_recommendations_report] prints: the patterns are
    those of the same frame. *)
Definition report_recommendations (sales_df : SalesFrame)
    (products : option Products) : list Recommendation :=
  generate_recommendations sales_df
    (analyze_seasonal_patterns (rows sales_df)) products.

(** *** [generate_anomaly_report] *)

(** What the report prints: the statistics, the band it calls normal (the
    upper limit is NaN, [None], for a single row; Python's [max(0, nan)] is
    0), and the table of flagged rows with their direction.  [None] is the
    short report for an empty frame. *)
Record AnomalyReport := {
  report_mean : R;
  report_std : option R;
  normal_upper : option R;
  normal_lower : R;
  table : list (AnomalyRow * direction)
}.

Definition generate_anomaly_report (sales_df : list SalesRow)
    : option AnomalyReport :=
  match sales_df with
  | [] => None
  | _ =>
      let mean := mean (sales sales_df) in
      let std := pd_std (sales sales_df) in
      Some {| report_mean := mean;
              report_std := std;
              normal_upper := option_map (fun s => mean + 2 * s) std;
              normal_lower := match std with
                              | Some s => Rmax 0 (mean - 2 * s)
                              | None => 0
                              end;
              table := map (fun a => (a, anomaly_type (z_score a)))
                           (detect_anomalies sales_df 2) |}
  end.

End PredictCustomReports.

(** ** [Dataset-creat/train_model.py]: the frame of [train_regression] *)

(** The feature names [train_regression] selects, in its order. *)
Definition regression_features : list string :=
  [ "lag_1_sales"; "lag_7_sales";
    "rolling_7d_sales_avg"; "rolling_30d_sales_avg";
    "day_of_week"; "is_weekend" ]%string.

Module TrainRegression.
Import Calendar Numeric Frame.

(** A row of the frame [load_data] returns: the index [day], the numeric
    target, and the other columns of the dataset. *)
Record CsvRow := {
  day : Z;
  total_sales : R;
  others : row
}.

(** Row [i] after the derived features are computed: lags and rolling means
    are assigned (replacing columns of the same name), the two calendar
    columns only when the dataset lacks them. *)
Definition derived_row (df : list CsvRow) (i : nat) (r : CsvRow) : row :=
  let sales := map total_sales df in
  let c := ("total_sales"%string, Num (total_sales r)) :: others r in
  let c := Dict.set c "lag_1_sales" (shift_at 1 sales i) in
  let c := Dict.set c "lag_7_sales" (shift_at 7 sales i) in
  let c := Dict.set c "rolling_7d_sales_avg" (Num (rolling_mean_at 7 sales i)) in
  let c := Dict.set c "rolling_30d_sales_avg"
             (Num (rolling_mean_at 30 sales i)) in
  let c := if Dict.mem c "day_of_week" then c
           else Dict.set c "day_of_week" (Num (IZR (weekday (day r)))) in
  let c := if Dict.mem c "is_weekend" then c
           else Dict.set c "is_weekend"
                  (Num (if ((weekday (day r) =? 4) || (weekday (day r) =? 5))%Z
                        then 1 else 0)) in
  c.

(** The frame after [df.dropna(inplace=True)], with its index. *)
Definition usable (df : list CsvRow) : list (Z * row) :=
  filter (fun dr => negb (existsb isna (map snd (snd dr))))
    (map (fun ir => (day (snd ir), derived_row df (fst ir) (snd ir)))
         (combine (seq 0 (length df)) df)).

(** [[c for c in feature_cols if c in df.columns]], the columns being the
    keys of a row. *)
Definition feature_cols (r : row) : list string :=
  filter (Dict.mem r) regression_features.

(** [X_train, X_test = X[:train_size], X[train_size:]] with
    [train_size = len(df) - 3]. *)
Definition split (df : list CsvRow) : list (Z * row) * list (Z * row) :=
  let frame := usable df in
  let (train_idx, test_idx) := TrainModel.holdout (length frame) in
  (Sklearn.iloc train_idx frame, Sklearn.iloc test_idx frame).

End TrainRegression.

(** ** [scripts/predict.py] *)

Module Predict.
Import Numeric.

(** A row of the frame [load_historical_data] returns: the calendar date of
    [receiptDate] and the numeric [totalSales]; several receipts may share
    a date. *)
Record Receipt := { receiptDate : Z; totalSales : R }.

(** [df.groupby(df['receiptDate'].dt.date)['totalSales'].sum()]: one row
    per date, dates ascending. *)
Fixpoint add_to_day (r : Receipt) (daily : list (Z * R)) : list (Z * R) :=
  match daily with
  | [] => [(receiptDate r, totalSales r)]
  | (d, s) :: rest =>
      if (receiptDate r <? d)%Z then (receiptDate r, totalSales r) :: daily
      else if (receiptDate r =? d)%Z then (d, s + totalSales r) :: rest
      else (d, s) :: add_to_day r rest
  end.

Definition daily_df (df : list Receipt) : list (Z * R) :=
  fold_left (fun daily r => add_to_day r daily) df [].

Inductive kind := sudden_rise | sudden_drop.

(** A reported line: the date, the label and the day's sales. *)
Record Anomaly := { date : Z; type_ : kind; sales : R }.

(** A NaN [std] (a single day) makes every comparison false. *)
Definition detect_anomalies (df : list Receipt) : list Anomaly :=
  if (length df <? 5)%nat then []
  else
    let daily := daily_df df in
    let mean := mean (map snd daily) in
    match pd_std (map snd daily) with
    | None => []
    | Some std =>
        let threshold := 1.5 * std in
        tail 3
          (flat_map
             (fun row : Z * R =>
                let diff := snd row - mean in
                if Rlt_dec threshold (Rabs diff)
                then [ {| date := fst row;
                          type_ := if Rlt_dec 0 diff then sudden_rise
                                   else sudden_drop;
                          sales := snd row |} ]
                else [])
             daily)
    end.

(** The hour printed by [analyze_peak_hours]: the half of the day and the
    hour on a twelve-hour clock. *)
Inductive half := morning | evening.

Definition hour_label (h : Z) : half * Z :=
  let ampm := if (h <? 12)%Z then morning else evening in
  let h_12 := if (h <=? 12)%Z then h else (h - 12)%Z in
  let h_12 := if (h_12 =? 0)%Z then 12%Z else h_12 in
  (ampm, h_12).



(** An entry of the forecast. *)
Record Forecast := { date_str : Z; forecast_sales : R }.

(** [predict_future]: [predict] is the scaler followed by the network, on
    one row; [today] is [datetime.now()]. *)
Definition predict_future (predict : list R -> R) (today : Z) (days : nat)
    : list Forecast :=
  map (fun i =>
         let date := (today + Z.of_nat i)%Z in
         {| date_str := date;
            forecast_sales :=
              Rmax 0 (predict [ IZR (Calendar.weekday date);
                                IZR (Calendar.month date);
                                IZR (Calendar.day_of_month date) ]) |})
      (seq 1 days).

(** The labels of [analyze_trends].  The slope of [np.polyfit(x, y, 1)] is
    an argument; [n] is [len(df)]. *)
Inductive trend :=
| insufficient | strong_growth | slight_growth | decline | slight_decline
| stable.

Definition analyze_trends (n : nat) (slope avg_sales : R) : trend :=
  if (n <? 2)%nat then insufficient
  else if Rlt_dec (avg_sales * 0.05) slope then strong_growth
  else if Rlt_dec 0 slope then slight_growth
  else if Rlt_dec slope (- avg_sales * 0.05) then decline
  else if Rlt_dec slope 0 then slight_decline
  else stable.

(** Whether the label contains the word for growth. *)
Definition mentions_growth (t : trend) : bool :=
  match t with
  | strong_growth | slight_growth => true
  | _ => false
  end.

(** The closing recommendation of [generate_report]. *)
Inductive strategy :=
| invest_in_marketing | expect_high_traffic | sales_below_average.

Definition recommend (t : trend) (forecast : list Forecast) (avg_sales : R)
    : strategy :=
  let total_forecast := Rsum (map forecast_sales forecast) in
  if mentions_growth t then invest_in_marketing
  else if Rlt_dec (avg_sales * 3.5) total_forecast then expect_high_traffic
  else sales_below_average.

End Predict.

(** ** [scripts/daily_predictions.py]: recommendations and summary *)

Module DailyReport.
Import Numeric DailyPredictions.

Inductive demand := high_demand | low_demand.

(** A recommendation: its type and the forecast point it is about. *)
Record Recommendation := { type : demand; about : Prediction }.

(** [sales] is the column [df['total_sales']]. *)
Definition generate_recommendations (predictions : list Prediction)
    (sales : list R) : list Recommendation :=
  let avg_sales := mean (tail 30 sales) in
  flat_map
    (fun pred =>
       if Rlt_dec (avg_sales * 1.2) (predicted_sales pred)
       then [ {| type := high_demand; about := pred |} ]
       else if Rlt_dec (predicted_sales pred) (avg_sales * 0.7)
            then [ {| type := low_demand; about := pred |} ]
            else [])
    predictions.




End DailyReport.

(* ================================================================= *)
(** * Part II: vocabulary of the statements *)
(* ================================================================= *)

(** ** Feature frames *)

(** Strictly increasing days: ascending and duplicate-free. *)
Definition ascending (S : list FeatureEngineering.DailyRecord) : Prop :=
  Sorted (fun a b => (FeatureEngineering.day a < FeatureEngineering.day b)%Z) S.

(** The name of a lag column, as the f-string [f'sales_lag_{lag}'] builds it. *)
Definition lag_column (metric : string) (lag : nat) : string :=
  (metric ++ "_lag_" ++ String.string_of_list_ascii [Ascii.ascii_of_nat (48 + lag)])%string.

(** ** Validation folds *)



(** ** Anomalies *)

(** The z-score of a row against a given mean and deviation. *)
Definition z_of (mu sigma : R) (r : PredictCustom.SalesRow) : R :=
  (PredictCustom.total_sales r - mu) / sigma.


(** ** Model selection *)

(** The best candidate so far is the first of those seen with the least MAE. *)
Definition first_minimal {M : Type} (validate : M -> R) (b : TrainModel.Best M)
    (seen : list (string * M)) : Prop :=
  match b with
  | None => seen = []
  | Some (name, m, best) =>
      best = validate m
      /\ exists pre post,
           seen = pre ++ (name, m) :: post
           /\ (forall c, In c pre -> validate m < validate (snd c))
           /\ (forall c, In c post -> validate m <= validate (snd c))
  end.

(** ** The loop of [forecast_with_lightgbm] *)

Section LightgbmLoopVocabulary.
Import PredictCustom.
Variables (model : Model) (features : list string) (df : list SalesRow).
Variables (last_date : Z) (hm : R).

(** The date of iteration [i]. *)
Definition date_of (i : nat) : Z := (last_date + (Z.of_nat i + 1))%Z.

(** What iteration [i] appends, given the predictions made before it. *)
Definition appended_at (i : nat) (before : list R) : R :=
  match model (feature_array
                 (feature_values df hm i before (date_of i)) features) with
  | Some pred => Rmax 0 pred
  | None => hm
  end.

(** The state reached after [i] iterations from the empty state. *)
Definition reached (i : nat) (st : LoopState) : Prop :=
  length (predictions st) = i
  /\ dates st = map date_of (seq 0 i)
  /\ built st
     = map (fun k => feature_values df hm k (firstn k (predictions st)) (date_of k))
           (seq 0 i)
  /\ forall k p, nth_error (predictions st) k = Some p ->
       p = appended_at k (firstn k (predictions st)).

End LightgbmLoopVocabulary.

(** ** The next-days loop *)

(** The entries collected so far are the results of the iterations done. *)
Definition collected (model : NextDays.Model) (last_row : Frame.row)
    (feature_cols : list string) (done : list nat)
    (acc : list (Z * Frame.row * R)) : Prop :=
  Forall2 (fun i s => NextDays.step model last_row feature_cols i = Some s)
          done acc.

(** ** The loop of [train_model.forecast_next_days] *)

(** The buffer after the first [k] steps: the history followed by the first
    [k] forecast rows. *)
Definition buffer (df : TrainModel.History) (ds : list Z) (values : list R)
    (k : nat) : TrainModel.History :=
  df ++ firstn k (combine ds values).

(** The state after the dates [done] have been processed. *)
Definition buffered (reg : TrainModel.Regression) (df : TrainModel.History)
    (done : list Z) (st : TrainModel.LoopState) : Prop :=
  length (TrainModel.forecast_values st) = length done
  /\ TrainModel.history_df st
     = buffer df done (TrainModel.forecast_values st) (length done)
  /\ TrainModel.built st
     = map (fun k => TrainModel.build_row (TrainModel.features reg)
                       (buffer df done (TrainModel.forecast_values st) k)
                       (nth k done 0%Z))
           (seq 0 (length done)).

(** ** Sample data *)

(** Five consecutive days, Monday 2024-01-01 to Friday 2024-01-05. *)
Definition five_days : list FeatureEngineering.DailyRecord :=
  map (fun k =>
         {| FeatureEngineering.day := 738886 + Z.of_nat k;
            FeatureEngineering.total_sales := 1000 + INR k;
            FeatureEngineering.orders_count := 40;
            FeatureEngineering.items_sold := 90;
            FeatureEngineering.total_expenses := 300 |})
      (seq 0 5).

(** Six days, Monday 2024-01-01 to Saturday 2024-01-06: mean 1, sample
    deviation 2, population deviation [sqrt (10/3)]. *)
Definition six_days : list PredictCustom.SalesRow :=
  [ {| PredictCustom.day := 738886; PredictCustom.total_sales := 0 |};
    {| PredictCustom.day := 738887; PredictCustom.total_sales := 0 |};
    {| PredictCustom.day := 738888; PredictCustom.total_sales := 0 |};
    {| PredictCustom.day := 738889; PredictCustom.total_sales := 0 |};
    {| PredictCustom.day := 738890; PredictCustom.total_sales := 1 |};
    {| PredictCustom.day := 738891; PredictCustom.total_sales := 5 |} ].

(** Ten days of constant sales (scenario A of the specification): no
    anomaly, and no weekend boost. *)
Definition ten_constant_days : list PredictCustom.SalesRow :=
  map (fun k => {| PredictCustom.day := 738886 + Z.of_nat k;
                   PredictCustom.total_sales := 1000 |}) (seq 0 10).

(** The last row of a prepared frame, reduced to the columns used below. *)
Definition last_row_frame : list Frame.row :=
  [[("day", Frame.Stamp 738891); ("total_sales", Frame.Num 100);
    ("sales_lag_1", Frame.Num 90)]]%string.

(** A regression artifact whose prediction is its single input plus 10. *)
Definition lag_plus_10 : TrainModel.Regression :=
  {| TrainModel.predict := fun X => match X with [x] => Some (x + 10) | _ => None end;
     TrainModel.features := ["lag_1_sales"]%string |}.

(** ** Further vocabulary *)

(** The sum of the squares of a list. *)
Definition squares (xs : list R) : R :=
  Numeric.Rsum (map (fun x => x * x) xs).

(** The feature names [train_lightgbm_model] derives from a prepared frame,
    in column order. *)
Definition engineered_features : list string :=
  [ "day_of_week"; "day_of_month"; "month"; "is_weekend";
    "sales_lag_1"; "orders_lag_1"; "items_lag_1";
    "sales_lag_2"; "orders_lag_2"; "items_lag_2";
    "sales_lag_3"; "orders_lag_3"; "items_lag_3";
    "sales_rolling_3"; "orders_rolling_3"; "items_rolling_3";
    "sales_rolling_7"; "orders_rolling_7"; "items_rolling_7";
    "sales_trend" ]%string.

(** The confidence label [generate_predictions] attaches to a day. *)
Definition confidence_of (d : Z) : DailyPredictions.confidence :=
  if (Calendar.weekday d <? 5)%Z then DailyPredictions.high
  else DailyPredictions.medium.

Definition is_medium (c : DailyPredictions.confidence) : bool :=
  match c with
  | DailyPredictions.medium => true
  | DailyPredictions.high => false
  end.

(** The four names the next-days loop computes from the date. *)
Definition calendar_features : list string :=
  ["day_of_week"; "day_of_month"; "month"; "is_weekend"]%string.

(** The columns of [pipeline_json.engineer_features] that
    [load_and_prepare_data] does not recompute. *)
Definition pipeline_features : list string :=
  [ "rolling_7d_sales_avg"; "rolling_30d_sales_avg"; "inventory_burn_rate";
    "sales_growth_rate"; "expense_growth_rate";
    "lag_1_sales"; "lag_7_sales" ]%string.

(** A week of pipeline rows, Monday 2024-01-01 to Sunday 2024-01-07, closed
    on the Wednesday. *)
Definition pipeline_week : list PipelineJson.MasterRow :=
  map (fun k =>
         {| PipelineJson.day := 738886 + Z.of_nat k;
            PipelineJson.total_sales := if (k =? 2)%nat then 0 else 500;
            PipelineJson.total_expenses := 100;
            PipelineJson.inventory_usage_qty := 3 |})
      (seq 0 7).

(** The six sample days with an expense of 1 on each. *)
Definition six_days_frame : PredictCustomReports.SalesFrame :=
  {| PredictCustomReports.rows := six_days;
     PredictCustomReports.total_expenses := Some [1; 1; 1; 1; 1; 1] |}.

(** The quantity [analyze_products] counts for an order item. *)
Definition counted (item : PredictCustomReports.OrderItem) : Z :=
  PredictCustomReports.get_or (PredictCustomReports.quantity item) 1%Z.

Definition Zsum (zs : list Z) : Z := fold_right Z.add 0%Z zs.

(** Three order items on a menu of one product: two known, one unknown. *)
Definition sample_menu : list PredictCustomReports.MenuItem :=
  [ {| PredictCustomReports.idMenuItem := Some 7%Z;
       PredictCustomReports.id := None;
       PredictCustomReports.itemName := Some "latte"%string;
       PredictCustomReports.name := None |} ].

Definition sample_orders : list PredictCustomReports.OrderItem :=
  [ {| PredictCustomReports.menuItemId := Some 7%Z;
       PredictCustomReports.quantity := Some 2%Z;
       PredictCustomReports.price := Some 3 |};
    {| PredictCustomReports.menuItemId := Some 9%Z;
       PredictCustomReports.quantity := None;
       PredictCustomReports.price := Some 4 |};
    {| PredictCustomReports.menuItemId := Some 7%Z;
       PredictCustomReports.quantity := Some 1%Z;
       PredictCustomReports.price := Some 3 |} ].



(** Ten days of a dataset with no column besides the target. *)
Definition ten_day_dataset : list TrainRegression.CsvRow :=
  map (fun k => {| TrainRegression.day := 738886 + Z.of_nat k;
                   TrainRegression.total_sales := 500 + INR k;
                   TrainRegression.others := [] |})
      (seq 0 10).



(* ================================================================= *)
(** * Part III: properties *)
(* ================================================================= *)

(** ** Dictionaries *)

Section DictFacts.
Context {V : Type}.
Implicit Types (d : Dict.dict V) (k : string) (v : V).

Lemma mem_lookup d k : Dict.mem d k = false <-> Dict.lookup d k = None.
Proof.
  induction d as [|[k' v'] d IH]; simpl; [tauto|].
  destruct (string_dec k k'); [split; discriminate | exact IH].
Qed.

Lemma get_missing d k v : Dict.mem d k = false -> Dict.get d k v = v.
Proof.
  intros H. unfold Dict.get. apply mem_lookup in H. now rewrite H.
Qed.

Lemma lookup_set_same d k v : Dict.lookup (Dict.set d k v) k = Some v.
Proof.
  induction d as [|[k' v'] d IH]; simpl.
  - destruct (string_dec k k); congruence.
  - destruct (string_dec k k') as [E|N]; simpl.
    + destruct (string_dec k k'); congruence.
    + destruct (string_dec k k'); congruence.
Qed.

Lemma lookup_set_other d k k' v :
  k' <> k -> Dict.lookup (Dict.set d k v) k' = Dict.lookup d k'.
Proof.
  intros N. induction d as [|[k0 v0] d IH]; simpl.
  - destruct (string_dec k' k); congruence.
  - destruct (string_dec k k0) as [E|N0]; simpl.
    + subst k0. destruct (string_dec k' k); congruence.
    + destruct (string_dec k' k0); congruence.
Qed.

Lemma mem_true_lookup d k : Dict.mem d k = true -> exists v, Dict.lookup d k = Some v.
Proof.
  induction d as [|[k' v'] d IH]; simpl; [discriminate|].
  destruct (string_dec k k'); eauto.
Qed.

End DictFacts.

(** ** Missing features at inference time *)

Section MissingFeature.
Import Frame NextDays.

(** Once a key is present, the filling loop leaves its value alone. *)
Lemma fill_keeps last_row cols : forall features col c,
  Dict.lookup features col = Some c ->
  Dict.lookup (fill_from_last_row last_row cols features) col = Some c.
Proof.
  unfold fill_from_last_row.
  induction cols as [|c0 cols IH]; intros features col c H; simpl; [exact H|].
  apply IH. destruct (Dict.mem features c0) eqn:M; [exact H|].
  destruct (string_dec col c0) as [->|N].
  - apply mem_lookup in M. congruence.
  - now rewrite lookup_set_other.
Qed.

(** A requested column the features lack is read from the last row, with
    default 0. *)
Lemma fill_new last_row cols : forall features col,
  In col cols -> Dict.mem features col = false ->
  Dict.lookup (fill_from_last_row last_row cols features) col
  = Some (Dict.get last_row col (Num 0)).
Proof.
  unfold fill_from_last_row.
  induction cols as [|c0 cols IH]; intros features col HI M; simpl; [destruct HI|].
  destruct (string_dec col c0) as [->|N].
  - rewrite M. apply (fill_keeps last_row cols). apply lookup_set_same.
  - destruct HI as [E|HI]; [congruence|].
    apply IH; [exact HI|].
    destruct (Dict.mem features c0); [exact M|].
    apply mem_lookup. rewrite lookup_set_other by exact N. now apply mem_lookup.
Qed.

End MissingFeature.

(** C1 (as the code has it).  A feature name of the persisted metadata that
    the live feature dict lacks is given the value 0 and prediction goes on:
    in [forecast_with_lightgbm] the entry of the array [X] at that name's
    position is 0, and in [generate_predictions] the entry written for a
    column that is neither a calendar feature nor in the last row is 0. *)
Theorem C1_missing_feature_defaults_to_zero :
  forall (f : string) (features : list string) (k : nat),
    nth_error features k = Some f ->
    (forall df hm i preds d,
        Dict.mem (PredictCustom.feature_values df hm i preds d) f = false ->
        nth_error
          (PredictCustom.feature_array
             (PredictCustom.feature_values df hm i preds d) features) k
        = Some 0)
    /\
    (forall last_row next_day,
        Dict.mem (NextDays.date_features next_day) f = false ->
        Dict.mem last_row f = false ->
        nth_error
          (NextDays.select
             (NextDays.fill_from_last_row last_row features
                (NextDays.date_features next_day)) features) k
        = Some (Frame.Num 0)).
Proof.
  intros f features k Hk. split.
  - intros df hm i preds d M.
    unfold PredictCustom.feature_array.
    rewrite nth_error_map, Hk. simpl. now rewrite get_missing.
  - intros last_row next_day M1 M2.
    unfold NextDays.select. rewrite nth_error_map, Hk. simpl.
    unfold Dict.get at 1.
    rewrite (fill_new last_row features _ f); [|eapply nth_error_In; eauto|exact M1].
    now rewrite get_missing.
Qed.

Lemma C1_missing_feature_witness :
  nth_error
    (PredictCustom.feature_array
       (PredictCustom.feature_values
          [{| PredictCustom.day := 738886; PredictCustom.total_sales := 250 |}]
          250 0 [] 738887)
       ["sales_lag_1"; "foo"]%string) 1
  = Some 0
  /\
  nth_error
    (NextDays.select
       (NextDays.fill_from_last_row
          [("day", Frame.Stamp 738886); ("sales_lag_1", Frame.Num 240)]%string
          ["sales_lag_1"; "foo"]%string
          (NextDays.date_features 738887))
       ["sales_lag_1"; "foo"]%string) 1
  = Some (Frame.Num 0).
Proof.
  destruct (C1_missing_feature_defaults_to_zero
              "foo" ["sales_lag_1"; "foo"]%string 1 eq_refl) as [H1 H2].
  split.
  - apply H1. reflexivity.
  - apply H2; reflexivity.
Defined.

(** C1 as stated fails: with the persisted feature list [["foo"]], a name no
    script ever builds, both forecasters return normally, and the value they
    return is the one the backend computes from a 0 in the place of "foo". *)
Lemma C1_counterexample :
  let backend (x : R) := Some (1000 + x) in
  let df := [{| PredictCustom.day := 738886; PredictCustom.total_sales := 250 |}] in
  let frame := [[("day", Frame.Stamp 738886); ("total_sales", Frame.Num 250)]]%string in
  PredictCustom.forecast_with_lightgbm
    (fun X => match X with [x] => backend x | _ => None end)
    ["foo"]%string df 1
  = [(738887%Z, 1000)]
  /\
  option_map (map DailyPredictions.predicted_sales)
    (DailyPredictions.generate_predictions
       (fun X => match X with [Frame.Num x] => backend x | _ => None end)
       frame ["foo"]%string 1)
  = Some [1000].
Proof.
  split.
  - cbv [PredictCustom.forecast_with_lightgbm PredictCustom.forecast_state
         PredictCustom.loop PredictCustom.loop_body PredictCustom.feature_array
         PredictCustom.dates PredictCustom.predictions PredictCustom.index_max
         app combine map fold_left PredictCustom.day].
    rewrite get_missing by reflexivity.
    replace (Rmax 0 (1000 + 0)) with 1000
      by (unfold Rmax; destruct (Rle_dec 0 (1000 + 0)); lra).
    reflexivity.
  - cbn. f_equal. f_equal. lra.
Qed.

(** ** Feature engineering *)

Section FeatureRows.
Import Frame FeatureEngineering.

Lemma insert_by_day_length r rs :
  length (insert_by_day r rs) = S (length rs).
Proof.
  induction rs as [|x rs IH]; simpl; [reflexivity|].
  destruct (day r <=? day x)%Z; simpl; congruence.
Qed.

Lemma sort_values_length rs : length (sort_values rs) = length rs.
Proof.
  induction rs as [|r rs IH]; simpl; [reflexivity|].
  now rewrite insert_by_day_length, IH.
Qed.

(** Sorting an ascending frame changes nothing. *)
Lemma sort_values_ascending rs : ascending rs -> sort_values rs = rs.
Proof.
  induction 1 as [|r rs HS IH HR]; simpl; [reflexivity|].
  rewrite IH. destruct HR as [|x rs' Hlt]; simpl; [reflexivity|].
  destruct (Z.leb_spec (day r) (day x)); [reflexivity|lia].
Qed.

Lemma shift_at_isna k xs i :
  (i < length xs)%nat -> isna (shift_at k xs i) = (i <? k)%nat.
Proof.
  intros Hi. unfold shift_at.
  destruct (Nat.ltb_spec i k); [reflexivity|].
  destruct (nth_error xs (i - k)) eqn:E; [reflexivity|].
  apply nth_error_None in E. lia.
Qed.

Lemma shift_at_value k xs i x :
  (k <= i)%nat -> nth_error xs (i - k) = Some x -> shift_at k xs i = Num x.
Proof.
  intros Hk E. unfold shift_at.
  destruct (Nat.ltb_spec i k); [lia|]. now rewrite E.
Qed.

Lemma isna_fillna v c : isna (fillna v c) = false.
Proof. now destruct c. Qed.

(** A row of the engineered frame has a missing value exactly when it is
    one of the first three. *)
Lemma engineered_row_isna df i r :
  (i < length df)%nat ->
  existsb isna (map snd (engineered_row df i r)) = (i <? 3)%nat.
Proof.
  intros Hi. unfold engineered_row, lag_columns, rolling_columns.
  cbn [flat_map app map snd existsb isna orb].
  rewrite isna_fillna.
  rewrite !shift_at_isna by (rewrite ?length_map; exact Hi).
  destruct (Nat.ltb_spec i 1), (Nat.ltb_spec i 2), (Nat.ltb_spec i 3);
    try reflexivity; lia.
Qed.

Lemma dropna_map {A} (f : A -> row) (l : list A) :
  dropna (map f l)
  = map f (filter (fun a => negb (existsb isna (map snd (f a)))) l).
Proof.
  unfold dropna. induction l as [|a l IH]; simpl; [reflexivity|].
  destruct (existsb isna (map snd (f a))); simpl; now rewrite IH.
Qed.

Lemma filter_from_index {A} (k : nat) : forall (l : list A) (s : nat),
  filter (fun ir => negb (fst ir <? k)%nat) (combine (seq s (length l)) l)
  = combine (seq (Nat.max s k) (length l - (k - s))) (skipn (k - s) l).
Proof.
  induction l as [|a l IH]; intros s.
  - cbn [length seq combine filter]. now rewrite skipn_nil, combine_nil.
  - cbn [length seq combine filter fst].
    rewrite IH. destruct (Nat.ltb_spec s k) as [Hlt|Hge]; cbn [negb].
    + replace (k - s)%nat with (S (k - S s)) by lia.
      cbn [skipn]. f_equal; f_equal; lia.
    + replace (k - S s)%nat with 0%nat by lia.
      replace (k - s)%nat with 0%nat by lia.
      rewrite Nat.sub_0_r. cbn [skipn].
      replace (Nat.max (S s) k) with (S s) by lia.
      replace (Nat.max s k) with s by lia.
      rewrite Nat.sub_0_r. reflexivity.
Qed.

Lemma nth_error_combine {A B} (l : list A) (l' : list B) : forall n a b,
  nth_error l n = Some a -> nth_error l' n = Some b ->
  nth_error (combine l l') n = Some (a, b).
Proof.
  revert l'. induction l as [|x l IH]; intros [|y l'] [|n] a b Ha Hb;
    simpl in *; try discriminate.
  - congruence.
  - now apply IH.
Qed.

(** What [dropna] leaves of the engineered frame: the rows from index 3 on. *)
Lemma prepare_rows records :
  let df := sort_values records in
  prepare records
  = map (fun ir => engineered_row df (fst ir) (snd ir))
        (combine (seq 3 (length df - 3)) (skipn 3 df)).
Proof.
  intros df. unfold prepare, engineer. fold df.
  rewrite dropna_map. f_equal.
  pose proof (filter_from_index 3 df 0) as F.
  change (3 - 0)%nat with 3%nat in F. change (Nat.max 0 3) with 3%nat in F.
  rewrite <- F.
  apply filter_ext_in. intros [i r] HI. cbn [fst snd].
  rewrite engineered_row_isna; [reflexivity|].
  apply in_combine_l in HI. apply in_seq in HI. lia.
Qed.

Lemma prepare_length records :
  length (prepare records) = (length records - 3)%nat.
Proof.
  rewrite prepare_rows. rewrite length_map, length_combine, length_seq.
  rewrite length_skipn, sort_values_length. lia.
Qed.

Lemma prepare_nth records j r :
  ascending records ->
  nth_error records (3 + j) = Some r ->
  nth_error (prepare records) j = Some (engineered_row records (3 + j) r).
Proof.
  intros Hasc Hr. rewrite prepare_rows, (sort_values_ascending _ Hasc).
  rewrite nth_error_map.
  assert (Hlen : (3 + j < length records)%nat)
    by (apply nth_error_Some; congruence).
  assert (E : nth_error (combine (seq 3 (length records - 3)) (skipn 3 records)) j
              = Some ((3 + j)%nat, r)).
  { apply nth_error_combine.
    - rewrite nth_error_seq. destruct (Nat.ltb_spec j (length records - 3)); [reflexivity|lia].
    - now rewrite nth_error_skipn. }
  now rewrite E.
Qed.

End FeatureRows.

Lemma engineered_row_lags df i r lag :
  (1 <= lag <= 3)%nat ->
  Dict.lookup (FeatureEngineering.engineered_row df i r) (lag_column "sales" lag)
  = Some (Frame.shift_at lag (map FeatureEngineering.total_sales df) i)
  /\ Dict.lookup (FeatureEngineering.engineered_row df i r) (lag_column "orders" lag)
  = Some (Frame.shift_at lag (map FeatureEngineering.orders_count df) i)
  /\ Dict.lookup (FeatureEngineering.engineered_row df i r) (lag_column "items" lag)
  = Some (Frame.shift_at lag (map FeatureEngineering.items_sold df) i).
Proof.
  intros Hlag.
  assert (H : lag = 1%nat \/ lag = 2%nat \/ lag = 3%nat) by lia.
  destruct H as [->|[->| ->]]; repeat split; reflexivity.
Qed.

(** C3 (as the code has it).  For an ascending, duplicate-free sequence [S]
    of daily records, [load_and_prepare_data] and [load_latest_data] (the same
    computation) return [|S| - 3] rows: the first three records, whose lag
    columns are undefined, are dropped, not filled.  Row [j] of the result is
    built from record [3 + j], and each of its lag columns holds the value of
    the record [lag] positions earlier. *)
Theorem C3_rows_with_undefined_lags_are_dropped :
  forall S : list FeatureEngineering.DailyRecord,
    ascending S ->
    length (TrainLightgbm.load_and_prepare_data S) = (length S - 3)%nat
    /\ DailyPredictions.load_latest_data S = TrainLightgbm.load_and_prepare_data S
    /\ forall j r,
         nth_error S (3 + j) = Some r ->
         exists row,
           nth_error (TrainLightgbm.load_and_prepare_data S) j = Some row
           /\ Dict.lookup row "day" = Some (Frame.Stamp (FeatureEngineering.day r))
           /\ forall lag, (1 <= lag <= 3)%nat ->
                exists p,
                  nth_error S (3 + j - lag) = Some p
                  /\ Dict.lookup row (lag_column "sales" lag)
                     = Some (Frame.Num (FeatureEngineering.total_sales p))
                  /\ Dict.lookup row (lag_column "orders" lag)
                     = Some (Frame.Num (FeatureEngineering.orders_count p))
                  /\ Dict.lookup row (lag_column "items" lag)
                     = Some (Frame.Num (FeatureEngineering.items_sold p)).
Proof.
  intros S Hasc. unfold TrainLightgbm.load_and_prepare_data,
    DailyPredictions.load_latest_data.
  split; [apply prepare_length|]. split; [reflexivity|].
  intros j r Hr. eexists. split; [apply prepare_nth; eassumption|].
  split; [reflexivity|].
  intros lag Hlag.
  assert (Hlen : (3 + j < length S)%nat) by (apply nth_error_Some; congruence).
  destruct (nth_error S (3 + j - lag)) as [p|] eqn:Ep;
    [|apply nth_error_None in Ep; lia].
  exists p. split; [reflexivity|].
  destruct (engineered_row_lags S (3 + j) r lag Hlag) as (E1 & E2 & E3).
  rewrite E1, E2, E3.
  repeat split; f_equal; apply shift_at_value; try lia;
    rewrite nth_error_map, Ep; reflexivity.
Qed.

Lemma five_days_ascending : ascending five_days.
Proof.
  unfold ascending, five_days. cbn [map seq].
  repeat (constructor; cbn [FeatureEngineering.day]; try lia).
Qed.

Lemma C3_rows_dropped_witness :
  length (TrainLightgbm.load_and_prepare_data five_days) = 2%nat
  /\ exists row,
       nth_error (TrainLightgbm.load_and_prepare_data five_days) 0 = Some row
       /\ Dict.lookup row "sales_lag_1" = Some (Frame.Num (1000 + INR 2)).
Proof.
  destruct (C3_rows_with_undefined_lags_are_dropped five_days five_days_ascending)
    as (Hlen & _ & Hrow).
  split; [exact Hlen|].
  destruct (Hrow 0%nat _ eq_refl) as (row & Hnth & _ & Hlags).
  exists row. split; [exact Hnth|].
  destruct (Hlags 1%nat ltac:(lia)) as (p & Hp & Hs & _).
  injection Hp as <-. exact Hs.
Defined.

(** C3 as stated fails: five ascending, duplicate-free records yield two
    feature rows, not five, and in the engineered frame the first record's
    [sales_lag_1] is a missing value, not a fallback. *)
Lemma C3_counterexample :
  ascending five_days
  /\ length five_days = 5%nat
  /\ length (TrainLightgbm.load_and_prepare_data five_days) = 2%nat
  /\ length (DailyPredictions.load_latest_data five_days) = 2%nat
  /\ (exists row,
        nth_error (FeatureEngineering.engineer five_days) 0 = Some row
        /\ Dict.lookup row "sales_lag_1" = Some Frame.NaN).
Proof.
  split; [exact five_days_ascending|]. split; [reflexivity|].
  split; [apply prepare_length|]. split; [apply prepare_length|].
  unfold FeatureEngineering.engineer.
  rewrite (sort_values_ascending _ five_days_ascending).
  eexists. split; reflexivity.
Qed.

(** ** Validation folds *)


Lemma TimeSeriesSplit_5 n :
  (6 <= n)%nat ->
  Sklearn.TimeSeriesSplit 5 n
  = Some (map (fun k => (seq 0 (n - 5 * (n / 6) + k * (n / 6)),
                         seq (n - 5 * (n / 6) + k * (n / 6)) (n / 6)))
              (seq 0 5)).
Proof.
  intros Hn. unfold Sklearn.TimeSeriesSplit.
  change (5 + 1)%nat with 6%nat.
  destruct (Nat.ltb_spec n 6) as [|_]; [lia|].
  pose proof (Nat.Div0.mul_div_le n 6) as Hd.
  assert (Hpos : (1 <= n / 6)%nat) by (apply Nat.div_le_lower_bound; lia).
  destruct (Nat.leb_spec (n - n / 6 * 5) 0); [lia|]. reflexivity.
Qed.




(** ** Anomaly detection *)

Section Anomalies.
Import Numeric PredictCustom.

Lemma Rltb_true x y : Rltb x y = true <-> x < y.
Proof. unfold Rltb. destruct (Rlt_dec x y); split; auto; discriminate. Qed.

Lemma detect_anomalies_flagged df T sigma :
  pd_std (sales df) = Some sigma -> sigma <> 0 ->
  forall a,
    In a (detect_anomalies df T)
    <-> exists r, In r df
                  /\ a = {| a_row := r; z_score := z_of (mean (sales df)) sigma r |}
                  /\ T < Rabs (z_of (mean (sales df)) sigma r).
Proof.
  intros Hs Hne a. unfold detect_anomalies.
  destruct df as [|r0 df0]; [discriminate|].
  rewrite Hs. destruct (Req_dec_T sigma 0); [contradiction|].
  rewrite filter_In, in_map_iff. unfold is_anomaly. rewrite Rltb_true.
  split.
  - intros [(r & <- & Hr) Hz]. exists r. auto.
  - intros (r & Hr & -> & Hz). split; [exists r; auto|exact Hz].
Qed.

End Anomalies.


Section SixDays.
Import Numeric PredictCustom.

Lemma six_days_mean : mean (sales six_days) = 1.
Proof.
  unfold mean, sales, six_days. cbn [map total_sales Rsum length INR]. lra.
Qed.




Lemma lt_div a b c : 0 < c -> a * c < b -> a < b / c.
Proof.
  intros Hc H. apply Rmult_lt_reg_r with c; [exact Hc|].
  unfold Rdiv. rewrite Rmult_assoc, Rinv_l; lra.
Qed.

Lemma not_anomaly T z : Rabs z <= T -> Rltb T (Rabs z) = false.
Proof. intros H. unfold Rltb. destruct (Rlt_dec T (Rabs z)); [lra|reflexivity]. Qed.

Lemma filter_none {A} (f : A -> bool) (l : list A) :
  (forall x, In x l -> f x = false) -> filter f l = [].
Proof.
  induction l as [|x l IH]; intros H; simpl; [reflexivity|].
  rewrite (H x (or_introl eq_refl)). apply IH. intros y Hy. apply H. now right.
Qed.


End SixDays.



(** ** Confidence intervals *)

Section Confidence.
Import Numeric PredictCustom.

Lemma ci_z_score_pos c : 0 < ci_z_score c.
Proof. unfold ci_z_score. destruct (Req_dec_T c 0.95); lra. Qed.

Lemma Rsum_nonneg xs : (forall x, In x xs -> 0 <= x) -> 0 <= Rsum xs.
Proof.
  induction xs as [|x xs IH]; intros H; simpl; [lra|].
  pose proof (H x (or_introl eq_refl)).
  assert (0 <= Rsum xs) by (apply IH; intros; apply H; now right). lra.
Qed.

Lemma mean_nonneg xs : (forall x, In x xs -> 0 <= x) -> 0 <= mean xs.
Proof.
  intros H. unfold mean, Rdiv.
  apply Rmult_le_pos; [now apply Rsum_nonneg|].
  destruct xs as [|x xs]; [simpl; rewrite Rinv_0; lra|].
  apply Rlt_le, Rinv_0_lt_compat, lt_0_INR. simpl. lia.
Qed.

(** The dispersion is non-negative when a given [historical_std] is, and
    always when it is estimated from non-negative predictions. *)
Lemma ci_std_nonneg predictions historical_std :
  (forall p, In p predictions -> 0 <= p) ->
  match historical_std with Some s => 0 <= s | None => True end ->
  0 <= ci_std predictions historical_std.
Proof.
  intros Hp Hs. unfold ci_std. destruct historical_std as [s|]; [exact Hs|].
  destruct (1 <? length predictions)%nat.
  - apply sqrt_pos.
  - pose proof (mean_nonneg predictions Hp). lra.
Qed.


End Confidence.




(** C10.  For non-negative predictions and a non-negative dispersion (given,
    or estimated from the predictions), every prediction lies between its
    returned bounds.  The condition on the predictions is needed: for the
    prediction -10 with dispersion 1 the lower bound 0 exceeds the upper
    bound. *)
Theorem C10_bounds_bracket_nonnegative_predictions :
  (forall (predictions : list R) (historical_std : option R) (confidence : R),
      (forall p, In p predictions -> 0 <= p) ->
      match historical_std with Some s => 0 <= s | None => True end ->
      let lower := fst (PredictCustom.calculate_confidence_interval
                          predictions historical_std confidence) in
      let upper := snd (PredictCustom.calculate_confidence_interval
                          predictions historical_std confidence) in
      length lower = length predictions
      /\ length upper = length predictions
      /\ forall i p, nth_error predictions i = Some p ->
           exists l u, nth_error lower i = Some l
                       /\ nth_error upper i = Some u
                       /\ l <= p <= u)
  /\ (exists l u,
         PredictCustom.calculate_confidence_interval [-10] (Some 1) 0.95 = ([l], [u])
         /\ u < l).
Proof.
  split.
  - intros predictions historical_std confidence Hp Hs lower upper.
    unfold lower, upper, PredictCustom.calculate_confidence_interval,
      PredictCustom.ci_lower, PredictCustom.ci_upper.
    cbn [fst snd]. rewrite !length_map. split; [reflexivity|].
    split; [reflexivity|].
    intros i p Hi. rewrite !nth_error_map, Hi. cbn [option_map].
    eexists. eexists. split; [reflexivity|]. split; [reflexivity|].
    assert (Hm : 0 <= PredictCustom.ci_margin predictions historical_std confidence).
    { unfold PredictCustom.ci_margin. apply Rmult_le_pos.
      - apply Rlt_le, ci_z_score_pos.
      - now apply ci_std_nonneg. }
    pose proof (Hp p (nth_error_In _ _ Hi)) as Hp0.
    split; [apply Rmax_lub; lra|lra].
  - exists 0, (-10 + 1.96 * 1).
    unfold PredictCustom.calculate_confidence_interval, PredictCustom.ci_margin,
      PredictCustom.ci_lower, PredictCustom.ci_upper, PredictCustom.ci_std,
      PredictCustom.ci_z_score.
    cbn [map]. destruct (Req_dec_T 0.95 0.95); [|contradiction].
    split; [|lra]. f_equal. f_equal.
    unfold Rmax. destruct (Rle_dec (-10 - 1.96 * 1) 0); lra.
Qed.

Lemma C10_bounds_witness :
  let lower := fst (PredictCustom.calculate_confidence_interval [100; 0] (Some 30) 0.95) in
  let upper := snd (PredictCustom.calculate_confidence_interval [100; 0] (Some 30) 0.95) in
  exists l u, nth_error lower 1 = Some l /\ nth_error upper 1 = Some u /\ l <= 0 <= u.
Proof.
  destruct C10_bounds_bracket_nonnegative_predictions as [H _].
  assert (Hp : forall p, In p [100; 0] -> 0 <= p)
    by (intros p [<-|[<-|[]]]; lra).
  assert (Hs : 0 <= 30) by lra.
  destruct (H [100; 0] (Some 30) 0.95 Hp Hs) as (_ & _ & Hb).
  exact (Hb 1%nat 0 eq_refl).
Defined.

(** ** Seasonal patterns *)

Section Seasonal.
Import Calendar Numeric PredictCustom.


Lemma group_keys_complete n : In n group_keys.
Proof. destruct n; cbn; tauto. Qed.

Lemma weekly_avg_In df n v :
  In (n, v) (weekly_avg df)
  <-> group df n <> [] /\ v = mean (sales (group df n)).
Proof.
  unfold weekly_avg. rewrite in_flat_map. split.
  - intros (m & _ & Hm). destruct (group df m) as [|r g] eqn:E; [destruct Hm|].
    destruct Hm as [Hm|[]]. injection Hm as <- <-. rewrite E.
    split; [discriminate|reflexivity].
  - intros [Hne ->]. exists n. split; [apply group_keys_complete|].
    destruct (group df n) as [|r g] eqn:E; [contradiction|]. now left.
Qed.

Lemma day_name_eqb_refl n : day_name_eqb n n = true.
Proof. now destruct n. Qed.

Lemma weekly_avg_nonempty df : df <> [] -> weekly_avg df <> [].
Proof.
  destruct df as [|r df]; [contradiction|]. intros _ E.
  assert (H : In (day_name_of (day r),
                  mean (sales (group (r :: df) (day_name_of (day r)))))
                 (weekly_avg (r :: df))).
  { apply weekly_avg_In. split; [|reflexivity].
    unfold group. cbn [filter]. rewrite day_name_eqb_refl. discriminate. }
  rewrite E in H. destruct H.
Qed.

End Seasonal.



(** ** Model selection *)

Section Selection.
Import TrainModel.
Context {M : Type} (validate : M -> R).

Lemma consider_first_minimal b seen c :
  first_minimal validate b seen ->
  first_minimal validate (consider validate b c) (seen ++ [c]).
Proof.
  destruct c as [cn cm]. unfold consider. cbn [fst snd].
  destruct b as [[[name m] best]|]; cbn [first_minimal].
  - intros (-> & pre & post & -> & Hpre & Hpost).
    destruct (Rlt_dec (validate cm) (validate m)) as [Hlt|Hge]; cbn [first_minimal].
    + split; [reflexivity|]. exists (pre ++ (name, m) :: post), [].
      split; [reflexivity|]. split; [|intros c []].
      intros c Hc. apply in_app_iff in Hc. destruct Hc as [Hc|[<-|Hc]].
      * pose proof (Hpre c Hc). lra.
      * exact Hlt.
      * pose proof (Hpost c Hc). lra.
    + split; [reflexivity|]. exists pre, (post ++ [(cn, cm)]).
      split; [now rewrite <- app_assoc|]. split; [exact Hpre|].
      intros c Hc. apply in_app_iff in Hc. destruct Hc as [Hc|[<-|[]]].
      * now apply Hpost.
      * cbn [snd]. lra.
  - intros ->. split; [reflexivity|]. exists [], []. split; [reflexivity|].
    split; intros c [].
Qed.

Lemma fold_first_minimal models : forall b seen,
  first_minimal validate b seen ->
  first_minimal validate (fold_left (consider validate) models b) (seen ++ models).
Proof.
  induction models as [|c models IH]; intros b seen H; cbn [fold_left].
  - now rewrite app_nil_r.
  - replace (seen ++ c :: models) with ((seen ++ [c]) ++ models)
      by (now rewrite <- app_assoc).
    apply IH. now apply consider_first_minimal.
Qed.

Lemma select_best_first_minimal models :
  first_minimal validate (select_best validate models) models.
Proof. apply (fold_first_minimal models None []). reflexivity. Qed.

End Selection.

Section Comparison.
Import TrainModel.

Lemma insert_by_mape_head x xs :
  exists h t,
    insert_by_mape x xs = h :: t
    /\ (h = x \/ In h xs)
    /\ mape (snd h) <= mape (snd x)
    /\ match xs with [] => True | y :: _ => mape (snd h) <= mape (snd y) end.
Proof.
  destruct xs as [|y r]; cbn [insert_by_mape].
  - exists x, []. repeat split; auto; lra.
  - destruct (Rle_dec (mape (snd x)) (mape (snd y))).
    + exists x, (y :: r). repeat split; auto; lra.
    + exists y, (insert_by_mape x r). repeat split; try lra. right. now left.
Qed.

Lemma insert_by_mape_In x xs c :
  In c (insert_by_mape x xs) -> c = x \/ In c xs.
Proof.
  induction xs as [|y r IH]; cbn [insert_by_mape].
  - intros [<-|[]]. now left.
  - destruct (Rle_dec (mape (snd x)) (mape (snd y))).
    + intros [<-|H]; [now left|now right].
    + intros [<-|H]; [right; now left|].
      destruct (IH H) as [->|H']; [now left|right; now right].
Qed.

Lemma sort_by_mape_In results c :
  In c (sort_by_mape results) -> In c results.
Proof.
  induction results as [|x r IH]; [intros []|].
  unfold sort_by_mape. cbn [fold_right]. fold (sort_by_mape r).
  intros H. apply insert_by_mape_In in H.
  destruct H as [->|H]; [now left|right; now apply IH].
Qed.

(** The head of the sorted table has the least MAPE. *)
Lemma sort_by_mape_head results :
  results <> [] ->
  exists h t,
    sort_by_mape results = h :: t
    /\ In h results
    /\ forall c, In c results -> mape (snd h) <= mape (snd c).
Proof.
  induction results as [|x r IH]; [contradiction|]. intros _.
  unfold sort_by_mape. cbn [fold_right]. fold (sort_by_mape r).
  destruct (insert_by_mape_head x (sort_by_mape r)) as (h & t & E & Hh & Hx & Hy).
  exists h, t. split; [exact E|]. split.
  - destruct Hh as [->|Hh]; [now left|right; now apply sort_by_mape_In].
  - intros c [<-|Hc]; [exact Hx|].
    destruct r as [|y r']; [destruct Hc|].
    destruct (IH ltac:(discriminate)) as (h' & t' & E' & _ & Hmin').
    rewrite E' in Hy. pose proof (Hmin' c Hc). lra.
Qed.

End Comparison.

(** C8 (as the code has it).  The selection loop of [train_regression] picks,
    among its candidate regressors, one with the least validation MAE, the
    earliest-registered in case of a tie: every earlier candidate has a
    strictly larger MAE and no later one a smaller.  The comparison of [main]
    ranks the trained backends by MAPE: the one it names best has the least
    MAPE. *)
Theorem C8_selection_by_mae_and_ranking_by_mape :
  (forall (M : Type) (validate : M -> R) (models : list (string * M)),
      models <> [] ->
      exists name m pre post,
        TrainModel.select_best validate models = Some (name, m, validate m)
        /\ models = pre ++ (name, m) :: post
        /\ (forall c, In c pre -> validate m < validate (snd c))
        /\ (forall c, In c post -> validate m <= validate (snd c)))
  /\ (forall results : list (string * TrainModel.Metrics),
         results <> [] ->
         exists name metrics,
           TrainModel.main_best results = Some name
           /\ In (name, metrics) results
           /\ forall c, In c results ->
                TrainModel.mape metrics <= TrainModel.mape (snd c)).
Proof.
  split.
  - intros M validate models Hne.
    pose proof (select_best_first_minimal validate models) as H.
    destruct (TrainModel.select_best validate models) as [[[name m] best]|];
      cbn [first_minimal] in H.
    + destruct H as (-> & pre & post & E & Hpre & Hpost).
      exists name, m, pre, post. auto.
    + contradiction.
  - intros results Hne.
    destruct (sort_by_mape_head results Hne) as ([name metrics] & t & E & Hin & Hmin).
    exists name, metrics. unfold TrainModel.main_best. rewrite E. auto.
Qed.

Lemma C8_selection_witness :
  exists name m pre post,
    TrainModel.select_best (fun mae : R => mae)
      [("Ridge", 80); ("RandomForest", 50); ("GradientBoosting", 50)]%string
    = Some (name, m, m)
    /\ [("Ridge", 80); ("RandomForest", 50); ("GradientBoosting", 50)]%string
       = pre ++ (name, m) :: post
    /\ (forall c, In c pre -> m < snd c)
    /\ (forall c, In c post -> m <= snd c).
Proof.
  destruct C8_selection_by_mae_and_ranking_by_mape as [H _].
  apply (H R (fun mae : R => mae)
           [("Ridge", 80); ("RandomForest", 50); ("GradientBoosting", 50)]%string).
  discriminate.
Defined.

(** Two candidates with validation MAE 50 and 80, in either order, and a tie. *)
Example select_best_50_80 :
  TrainModel.select_best (fun mae : R => mae) [("a", 50); ("b", 80)]%string
  = Some ("a"%string, 50, 50)
  /\ TrainModel.select_best (fun mae : R => mae) [("b", 80); ("a", 50)]%string
     = Some ("a"%string, 50, 50)
  /\ TrainModel.select_best (fun mae : R => mae) [("a", 50); ("b", 50)]%string
     = Some ("a"%string, 50, 50).
Proof.
  unfold TrainModel.select_best, TrainModel.consider. cbn [fold_left fst snd].
  repeat split.
  - destruct (Rlt_dec 80 50); [lra|reflexivity].
  - destruct (Rlt_dec 50 80); [reflexivity|lra].
  - destruct (Rlt_dec 50 50); [lra|reflexivity].
Qed.

(** C8 as stated fails for the comparison of [main]: of two backends with
    validation MAE 50 and 80, it names the MAE-80 one best when that one has
    the smaller MAPE. *)
Lemma C8_counterexample :
  TrainModel.main_best
    [("ARIMA", {| TrainModel.mae := 50; TrainModel.mape := 20 |});
     ("Regression", {| TrainModel.mae := 80; TrainModel.mape := 10 |})]%string
  = Some "Regression"%string
  /\ 50 < 80.
Proof.
  split; [|lra].
  unfold TrainModel.main_best, TrainModel.sort_by_mape.
  cbn [fold_right TrainModel.insert_by_mape TrainModel.mape snd].
  destruct (Rle_dec 20 10); [lra|reflexivity].
Qed.

(** ** The forecasting loop of [forecast_with_lightgbm] *)

Section LightgbmLoop.
Import Numeric PredictCustom.
Variables (model : Model) (features : list string) (df : list SalesRow).
Variables (last_date : Z) (hm : R).

Let body := loop_body model features df last_date hm.
Let run := loop model features df last_date hm.

Lemma firstn_snoc {A} (l : list A) (x : A) k :
  (k <= length l)%nat -> firstn k (l ++ [x]) = firstn k l.
Proof.
  intros H. rewrite firstn_app.
  replace (k - length l)%nat with 0%nat by lia.
  cbn [firstn]. now rewrite app_nil_r.
Qed.

Lemma firstn_snoc_all {A} (l : list A) (x : A) k :
  length l = k -> firstn k (l ++ [x]) = l.
Proof.
  intros <-. now rewrite firstn_app, firstn_all, Nat.sub_diag, app_nil_r.
Qed.

Lemma reached_step i st :
  reached model features df last_date hm i st ->
  reached model features df last_date hm (S i) (body i st).
Proof.
  intros (Hlen & Hd & Hb & Hp). unfold body, loop_body.
  fold (date_of last_date i). unfold reached. cbn [predictions dates built].
  split; [rewrite length_app; cbn [length]; lia|].
  split; [rewrite seq_S, map_app, Hd; reflexivity|].
  split.
  - rewrite seq_S, map_app. cbn [map Nat.add]. f_equal.
    + rewrite Hb. apply map_ext_in. intros k Hk. apply in_seq in Hk.
      now rewrite firstn_snoc by lia.
    + now rewrite (firstn_snoc_all _ _ _ Hlen).
  - intros k p Hk.
    destruct (Nat.lt_ge_cases k i) as [Hlt|Hge].
    + rewrite nth_error_app1 in Hk by lia.
      rewrite firstn_snoc by lia. now apply Hp.
    + rewrite nth_error_app2 in Hk by lia.
      destruct (k - length (predictions st))%nat as [|k'] eqn:E;
        [|destruct k'; discriminate].
      assert (k = i) by lia. subst k. cbn in Hk. injection Hk as <-.
      now rewrite (firstn_snoc_all _ _ _ Hlen).
Qed.

Lemma reached_run n : forall i st,
  reached model features df last_date hm i st ->
  reached model features df last_date hm (n + i) (run n i st).
Proof.
  induction n as [|n IH]; intros i st H; [exact H|].
  unfold run. cbn [loop]. replace (S n + i)%nat with (n + S i)%nat by lia.
  apply IH. now apply reached_step.
Qed.

End LightgbmLoop.

Section LightgbmFacts.
Import Numeric PredictCustom.

Lemma forecast_state_reached model features df days :
  reached model features df (index_max df) (mean (sales df)) days
    (forecast_state model features df days).
Proof.
  unfold forecast_state. rewrite <- (Nat.add_0_r days) at 1.
  apply reached_run. repeat split. intros [|k] p H; discriminate.
Qed.

(** In an ascending frame the largest index is the last. *)
Lemma index_max_last r df d :
  Sorted (fun a b => (day a <= day b)%Z) (r :: df) ->
  index_max (r :: df) = day (last (r :: df) d).
Proof.
  unfold index_max. revert r. induction df as [|x df IH]; intros r H;
    [reflexivity|].
  cbn [map fold_left]. inversion H as [|? ? HS HR]; subst.
  inversion HR; subst.
  replace (Z.max (day r) (day x)) with (day x) by lia.
  rewrite IH by exact HS. reflexivity.
Qed.

Lemma lookup_sales_lag_1 df hm i preds d :
  df <> [] ->
  Dict.lookup (feature_values df hm i preds d) "sales_lag_1"
  = Some (if (i =? 0)%nat then neg_index 1 (sales df) else neg_index 1 preds).
Proof.
  intros H. unfold feature_values.
  destruct df as [|r df]; [contradiction|]. reflexivity.
Qed.

Lemma lookup_sales_rolling df hm i preds d :
  df <> [] ->
  Dict.lookup (feature_values df hm i preds d) "sales_rolling_3"
  = Some (mean (tail 3 (sales df)))
  /\ Dict.lookup (feature_values df hm i preds d) "sales_rolling_7"
     = Some (mean (tail 7 (sales df))).
Proof.
  intros H. unfold feature_values.
  destruct df as [|r df]; [contradiction|]. split; reflexivity.
Qed.

Lemma neg_index_1_firstn (ps : list R) k p :
  nth_error ps k = Some p -> neg_index 1 (firstn (S k) ps) = p.
Proof.
  intros H. unfold neg_index.
  assert (Hk : (k < length ps)%nat) by (apply nth_error_Some; congruence).
  rewrite length_firstn. replace (Nat.min (S k) (length ps) - 1)%nat with k by lia.
  rewrite nth_firstn. destruct (Nat.ltb_spec k (S k)); [|lia].
  now apply nth_error_nth.
Qed.

End LightgbmFacts.

(** ** Loops that may raise *)

Section ForEach.
Context {A S : Type} (body : A -> S -> option S).

(** An invariant of the processed prefix and the accumulator holds at exit. *)
Lemma for_each_inv (P : list A -> S -> Prop) :
  (forall done x s s', P done s -> body x s = Some s' -> P (done ++ [x]) s') ->
  forall xs done s out,
    P done s -> Raise.for_each xs body s = Some out -> P (done ++ xs) out.
Proof.
  intros Hstep. induction xs as [|x xs IH]; intros done s out HP Hrun;
    cbn [Raise.for_each] in Hrun.
  - injection Hrun as <-. now rewrite app_nil_r.
  - destruct (body x s) as [s'|] eqn:E; [|discriminate]. cbn [Raise.bind] in Hrun.
    replace (done ++ x :: xs) with ((done ++ [x]) ++ xs)
      by (now rewrite <- app_assoc).
    eapply IH; [|exact Hrun]. eapply Hstep; eassumption.
Qed.

(** A loop whose body never raises returns. *)
Lemma for_each_total xs :
  (forall x s, In x xs -> body x s <> None) ->
  forall s, exists out, Raise.for_each xs body s = Some out.
Proof.
  induction xs as [|x xs IH]; intros Hb s; cbn [Raise.for_each].
  - eauto.
  - destruct (body x s) as [s'|] eqn:E.
    + cbn [Raise.bind]. apply IH. intros y s0 Hy. apply Hb. now right.
    + exfalso. apply (Hb x s); [now left|exact E].
Qed.

End ForEach.

(** ** The next-days loop of [generate_predictions] *)

Section NextDaysFacts.
Import Frame NextDays.
Variables (model : Model) (last_row : row) (feature_cols : list string).

Lemma step_inv i d f p :
  step model last_row feature_cols i = Some (d, f, p) ->
  exists d0,
    last_day last_row = Some d0
    /\ d = (d0 + Z.of_nat i)%Z
    /\ f = fill_from_last_row last_row feature_cols (date_features d)
    /\ model (select f feature_cols) = Some p.
Proof.
  unfold step. destruct (last_day last_row) as [d0|]; [|discriminate].
  cbn [Raise.bind].
  destruct (model _) as [q|] eqn:E; [|discriminate]. cbn [Raise.bind].
  intros H. injection H as <- <- <-. exists d0. auto.
Qed.

Lemma run_collected df n out :
  Numeric.iloc_neg 1 df = Some last_row ->
  run model df feature_cols n = Some out ->
  collected model last_row feature_cols (seq 1 n) out.
Proof.
  intros Hl. unfold run. rewrite Hl. cbn [Raise.bind]. intros H.
  apply (for_each_inv _ (collected model last_row feature_cols)) with (done := []) in H; [exact H| |constructor].
  intros done x s s' HP Hb.
  destruct (step model last_row feature_cols x) as [e|] eqn:E; [|discriminate].
  cbn [Raise.bind] in Hb. injection Hb as <-.
  apply Forall2_app; [exact HP|]. constructor; [exact E|constructor].
Qed.

Lemma run_total df n d0 :
  Numeric.iloc_neg 1 df = Some last_row ->
  last_day last_row = Some d0 ->
  (forall X, model X <> None) ->
  exists out, run model df feature_cols n = Some out.
Proof.
  intros Hl Hd Hm. unfold run. rewrite Hl. cbn [Raise.bind].
  apply for_each_total. intros i s _. unfold step. rewrite Hd.
  cbn [Raise.bind].
  destruct (model _) eqn:E; [discriminate|]. now apply Hm in E.
Qed.

Lemma collected_nth done acc :
  collected model last_row feature_cols done acc ->
  length acc = length done
  /\ forall k i, nth_error done k = Some i ->
       exists s, nth_error acc k = Some s
                 /\ step model last_row feature_cols i = Some s.
Proof.
  induction 1 as [|i s done acc Hs HF [IHlen IH]]; cbn [length].
  - split; [reflexivity|]. intros [|k] i H; discriminate.
  - split; [now rewrite IHlen|]. intros [|k] j Hk; cbn in Hk |- *.
    + injection Hk as <-. eauto.
    + now apply IH.
Qed.

End NextDaysFacts.

Section ForecastFacts.

Lemma map_fst_combine {A B} (l : list A) : forall (l' : list B),
  length l = length l' -> map fst (combine l l') = l.
Proof.
  induction l as [|a l IH]; intros [|b l'] H; cbn in *; try discriminate;
    [reflexivity|]. f_equal. apply IH. lia.
Qed.

Lemma map_snd_combine {A B} (l : list A) : forall (l' : list B),
  length l = length l' -> map snd (combine l l') = l'.
Proof.
  induction l as [|a l IH]; intros [|b l'] H; cbn in *; try discriminate;
    [reflexivity|]. f_equal. apply IH. lia.
Qed.

(** Consecutive days are strictly increasing. *)
Lemma consecutive_days_sorted (a : Z) n : forall s,
  StronglySorted Z.lt (map (fun k => (a + (Z.of_nat k + 1))%Z) (seq s n)).
Proof.
  induction n as [|n IH]; intros s; cbn [seq map]; constructor.
  - apply IH.
  - apply Forall_forall. intros d Hd. apply in_map_iff in Hd.
    destruct Hd as (k & <- & Hk). apply in_seq in Hk. lia.
Qed.

Lemma collected_components model last_row cols d0 done acc :
  collected model last_row cols done acc ->
  NextDays.last_day last_row = Some d0 ->
  map (fun s : Z * Frame.row * R => fst (fst s)) acc
  = map (fun i => (d0 + Z.of_nat i)%Z) done
  /\ forall s, In s acc ->
       snd (fst s)
       = NextDays.fill_from_last_row last_row cols
           (NextDays.date_features (fst (fst s)))
       /\ model (NextDays.select (snd (fst s)) cols) = Some (snd s).
Proof.
  intros HF Hd. induction HF as [|i [[d f] p] done acc Hs HF [IHd IHs]].
  - split; [reflexivity|intros s []].
  - apply step_inv in Hs. destruct Hs as (d1 & Hd1 & -> & -> & Hm).
    rewrite Hd in Hd1. injection Hd1 as <-. split.
    + cbn [map fst]. now rewrite IHd.
    + intros s [<-|Hs]; [cbn [fst snd]; auto|now apply IHs].
Qed.

End ForecastFacts.

Lemma collected_In model last_row cols done acc :
  collected model last_row cols done acc ->
  forall s, In s acc ->
    exists i, In i done /\ NextDays.step model last_row cols i = Some s.
Proof.
  induction 1 as [|i s0 done acc Hs HF IH]; intros s Hin; [destruct Hin|].
  destruct Hin as [<-|Hin].
  - exists i. split; [now left|exact Hs].
  - destruct (IH s Hin) as (j & Hj & Hstep). exists j. split; [now right|exact Hstep].
Qed.

(** Each value [generate_predictions] returns is the backend's answer for
    that step, as it is. *)
Lemma generate_predictions_values model df cols H last_row preds :
  Numeric.iloc_neg 1 df = Some last_row ->
  DailyPredictions.generate_predictions model df cols H = Some preds ->
  forall p, In p preds ->
    exists X, model X = Some (DailyPredictions.predicted_sales p).
Proof.
  intros Hl Hg p Hp. unfold DailyPredictions.generate_predictions in Hg.
  destruct (NextDays.run model df cols H) as [steps|] eqn:Hrun; [|discriminate].
  cbn [Raise.bind] in Hg. injection Hg as <-.
  pose proof (run_collected model last_row cols df H steps Hl Hrun) as Hc.
  apply in_map_iff in Hp. destruct Hp as ([[d f] q] & <- & Hin).
  destruct (collected_In _ _ _ _ _ Hc _ Hin) as (i & _ & Hstep).
  apply step_inv in Hstep. destruct Hstep as (d0 & _ & _ & _ & Hm).
  eexists. exact Hm.
Qed.

(** C7 (as the code has it).  For a non-empty ascending history and a
    horizon [H], [forecast_with_lightgbm] returns exactly [H] points, dated
    last+1, ..., last+H in strictly increasing order; every value a backend
    returns is clamped at 0, so each predicted value is non-negative or is
    the historical mean a failing step falls back to, and all are
    non-negative when that mean is or when the backend never fails.
    [generate_predictions] returns, whenever the backend answers at every
    step (and then it does return), exactly [H] points with the same dates. *)
Theorem C7_forecast_points_dates_and_clamping :
  (forall (model : PredictCustom.Model) (features : list string)
          (df : list PredictCustom.SalesRow) (H : nat) (r : PredictCustom.SalesRow),
      df <> [] ->
      Sorted (fun a b => (PredictCustom.day a <= PredictCustom.day b)%Z) df ->
      let out := PredictCustom.forecast_with_lightgbm model features df H in
      let last := PredictCustom.day (last df r) in
      length out = H
      /\ map fst out = map (fun k => (last + (Z.of_nat k + 1))%Z) (seq 0 H)
      /\ StronglySorted Z.lt (map fst out)
      /\ (forall p, In p (map snd out) ->
            0 <= p \/ p = Numeric.mean (PredictCustom.sales df))
      /\ (0 <= Numeric.mean (PredictCustom.sales df) ->
          forall p, In p (map snd out) -> 0 <= p)
      /\ ((forall X, model X <> None) ->
          forall p, In p (map snd out) -> 0 <= p))
  /\
  (forall (model : NextDays.Model) (df : list Frame.row)
          (feature_cols : list string) (H : nat) (last_row : Frame.row) (last : Z),
      Numeric.iloc_neg 1 df = Some last_row ->
      NextDays.last_day last_row = Some last ->
      (forall preds,
          DailyPredictions.generate_predictions model df feature_cols H = Some preds ->
          length preds = H
          /\ map DailyPredictions.date preds
             = map (fun k => (last + (Z.of_nat k + 1))%Z) (seq 0 H)
          /\ StronglySorted Z.lt (map DailyPredictions.date preds))
      /\ ((forall X, model X <> None) ->
          exists preds,
            DailyPredictions.generate_predictions model df feature_cols H
            = Some preds)).
Proof.
  split.
  - intros model features df H r Hne Hsorted out last.
    destruct (forecast_state_reached model features df H)
      as (Hlen & Hd & _ & Hp).
    assert (Hout : out = combine
                     (PredictCustom.dates (PredictCustom.forecast_state model features df H))
                     (PredictCustom.predictions (PredictCustom.forecast_state model features df H))).
    { unfold out, PredictCustom.forecast_with_lightgbm.
      destruct df; [contradiction|reflexivity]. }
    assert (Hlast : PredictCustom.index_max df = last).
    { unfold last. destruct df as [|r0 df0]; [contradiction|].
      now apply index_max_last. }
    assert (Hdl : length (PredictCustom.dates
                            (PredictCustom.forecast_state model features df H)) = H)
      by (rewrite Hd, length_map, length_seq; reflexivity).
    assert (Hfst : map fst out
                   = map (fun k => (last + (Z.of_nat k + 1))%Z) (seq 0 H)).
    { rewrite Hout, map_fst_combine by lia. rewrite Hd, Hlast. reflexivity. }
    assert (Hval : forall p, In p (map snd out) ->
              0 <= p \/ p = Numeric.mean (PredictCustom.sales df)).
    { intros p Hin. rewrite Hout, map_snd_combine in Hin by lia.
      apply In_nth_error in Hin. destruct Hin as [k Hk].
      rewrite (Hp k p Hk). unfold appended_at.
      destruct (model _); [left; apply Rmax_l|now right]. }
    split; [rewrite Hout, length_combine; lia|].
    split; [exact Hfst|].
    split; [rewrite Hfst; apply consecutive_days_sorted|].
    split; [exact Hval|]. split.
    + intros Hm p Hin. destruct (Hval p Hin) as [? | ->]; assumption.
    + intros Htot p Hin. rewrite Hout, map_snd_combine in Hin by lia.
      apply In_nth_error in Hin. destruct Hin as [k Hk].
      rewrite (Hp k p Hk). unfold appended_at.
      destruct (model _) eqn:E; [apply Rmax_l|now apply Htot in E].
  - intros model df cols H last_row last Hl Hd. split.
    + intros preds Hg. unfold DailyPredictions.generate_predictions in Hg.
      destruct (NextDays.run model df cols H) as [steps|] eqn:Hrun;
        [|discriminate].
      cbn [Raise.bind] in Hg. injection Hg as <-.
      pose proof (run_collected model last_row cols df H steps Hl Hrun) as Hc.
      destruct (collected_nth _ _ _ _ _ Hc) as [Hlen _].
      destruct (collected_components _ _ _ _ _ _ Hc Hd) as [Hdates Hs].
      assert (Hdt : map DailyPredictions.date
                      (map (fun s : Z * Frame.row * R =>
                              let '(next_day, _, predicted) := s in
                              {| DailyPredictions.date := next_day;
                                 DailyPredictions.day_name := Calendar.day_name_of next_day;
                                 DailyPredictions.predicted_sales := predicted;
                                 DailyPredictions.confidence_level :=
                                   if (Calendar.weekday next_day <? 5)%Z
                                   then DailyPredictions.high
                                   else DailyPredictions.medium |}) steps)
                    = map (fun k => (last + (Z.of_nat k + 1))%Z) (seq 0 H)).
      { rewrite map_map.
        rewrite (map_ext _ (fun s : Z * Frame.row * R => fst (fst s)))
          by (intros [[? ?] ?]; reflexivity).
        rewrite Hdates, <- seq_shift, map_map.
        apply map_ext. intros k. lia. }
      split; [rewrite length_map, Hlen, length_seq; reflexivity|].
      split; [exact Hdt|].
      rewrite Hdt. apply consecutive_days_sorted.
    + intros Htot.
      destruct (run_total model last_row cols df H last Hl Hd Htot) as [steps Hrun].
      unfold DailyPredictions.generate_predictions. rewrite Hrun.
      cbn [Raise.bind]. eauto.
Qed.

Lemma six_days_sorted :
  Sorted (fun a b => (PredictCustom.day a <= PredictCustom.day b)%Z) six_days.
Proof.
  unfold six_days. repeat (constructor; cbn [PredictCustom.day]; try lia).
Qed.

Lemma C7_forecast_witness :
  length (PredictCustom.forecast_with_lightgbm
            (fun _ => Some 250) ["sales_lag_1"]%string six_days 3) = 3%nat
  /\ map fst (PredictCustom.forecast_with_lightgbm
                (fun _ => Some 250) ["sales_lag_1"]%string six_days 3)
     = [738892; 738893; 738894]%Z
  /\ exists preds,
       DailyPredictions.generate_predictions
         (fun _ => Some 250) last_row_frame ["sales_lag_1"]%string 3 = Some preds.
Proof.
  destruct C7_forecast_points_dates_and_clamping as [H1 H2].
  assert (Hne : six_days <> []) by (unfold six_days; discriminate).
  destruct (H1 (fun _ => Some 250) ["sales_lag_1"]%string six_days 3%nat
               {| PredictCustom.day := 0; PredictCustom.total_sales := 0 |}
               Hne six_days_sorted) as (Hlen & Hdates & _).
  split; [exact Hlen|]. split; [exact Hdates|].
  destruct (H2 (fun _ => Some 250) last_row_frame ["sales_lag_1"]%string 3%nat
               _ 738891%Z eq_refl eq_refl) as [_ Htot].
  apply Htot. discriminate.
Defined.

(** C7 as stated fails.  In [forecast_with_lightgbm], when the backend
    raises, the step falls back to the historical mean, which nothing clamps:
    on a one-day history with sales -10 the forecast point is -10.  In
    [generate_predictions] a backend that answers -5 yields forecast points
    with predicted value -5. *)
Lemma C7_counterexample :
  PredictCustom.forecast_with_lightgbm (fun _ => None) ["sales_lag_1"]%string
    [{| PredictCustom.day := 738891; PredictCustom.total_sales := -10 |}] 1
  = [(738892%Z, -10)]
  /\ option_map (map DailyPredictions.predicted_sales)
       (DailyPredictions.generate_predictions
          (fun _ => Some (-5)) last_row_frame ["sales_lag_1"]%string 2)
     = Some [-5; -5]
  /\ -10 < 0 /\ -5 < 0.
Proof.
  split; [|split; [reflexivity|lra]].
  cbv [PredictCustom.forecast_with_lightgbm PredictCustom.forecast_state
       PredictCustom.loop PredictCustom.loop_body PredictCustom.dates
       PredictCustom.predictions PredictCustom.index_max PredictCustom.day
       PredictCustom.sales PredictCustom.total_sales
       app combine map fold_left].
  f_equal. f_equal. unfold Numeric.mean. cbn [Numeric.Rsum length INR]. lra.
Qed.

(** ** The recursive loop of [train_model.forecast_next_days] *)

Section RegressionLoop.
Import Numeric TrainModel.
Variables (reg : Regression) (df : History).

Lemma combine_app {A B} (l1 : list A) : forall (l1' : list B) l2 l2',
  length l1 = length l1' ->
  combine (l1 ++ l2) (l1' ++ l2') = combine l1 l1' ++ combine l2 l2'.
Proof.
  induction l1 as [|a l1 IH]; intros [|b l1'] l2 l2' H; cbn in *;
    try discriminate; [reflexivity|].
  f_equal. apply IH. lia.
Qed.

Lemma buffered_step done x st st' :
  buffered reg df done st -> loop_body reg x st = Some st' ->
  buffered reg df (done ++ [x]) st'.
Proof.
  intros (Hlen & Hh & Hb) Hbody. unfold loop_body in Hbody.
  destruct (select _ _) as [X|]; [|discriminate]. cbn [Raise.bind] in Hbody.
  destruct (predict reg X) as [pred|]; [|discriminate].
  cbn [Raise.bind] in Hbody. injection Hbody as <-.
  unfold buffered, buffer in *. cbn [forecast_values history_df built].
  assert (Hc : length (combine done (forecast_values st)) = length done)
    by (rewrite length_combine; lia).
  rewrite !length_app. cbn [length].
  rewrite combine_app by lia. cbn [combine].
  split; [lia|]. split.
  - rewrite Hh. replace (length done + 1)%nat with (S (length done)) by lia.
    rewrite (firstn_all2 (n := length done)) by lia.
    rewrite firstn_all2 by (rewrite length_app; cbn [length]; lia).
    now rewrite app_assoc.
  - replace (length done + 1)%nat with (S (length done)) by lia.
    rewrite seq_S, map_app. cbn [map Nat.add]. f_equal.
    + rewrite Hb. apply map_ext_in. intros k Hk. apply in_seq in Hk.
      rewrite firstn_snoc by lia. now rewrite app_nth1 by lia.
    + rewrite (firstn_snoc_all _ _ _ Hc).
      rewrite app_nth2, Nat.sub_diag by lia. cbn [nth].
      rewrite Hh. now rewrite firstn_all2 by lia.
Qed.

Lemma forecast_state_buffered days st :
  forecast_state reg df days = Some st ->
  exists ds,
    future_dates df days = Some ds /\ length ds = days /\ buffered reg df ds st.
Proof.
  unfold forecast_state.
  destruct (future_dates df days) as [ds|] eqn:E; [|discriminate].
  cbn [Raise.bind]. intros H. exists ds. split; [reflexivity|]. split.
  - unfold future_dates in E. destruct (index_max df); [|discriminate].
    cbn [Raise.bind] in E. injection E as <-.
    now rewrite length_map, length_seq.
  - apply (for_each_inv _ (buffered reg df)) with (done := []) in H; [exact H| |].
    + intros done x s s'. apply buffered_step.
    + unfold buffered, buffer. cbn. now rewrite app_nil_r.
Qed.

Lemma lookup_lag_1_sales cols h d :
  has cols "lag_1_sales" = true ->
  Dict.lookup (build_row cols h d) "lag_1_sales"
  = Some (neg_index 1 (history_sales h)).
Proof.
  intros H. unfold build_row. rewrite H.
  destruct (has cols "lag_7_sales"), (has cols "rolling_7d_sales_avg"),
    (has cols "rolling_30d_sales_avg"); reflexivity.
Qed.

Lemma neg_index_1_app (xs ys : list R) :
  ys <> [] -> neg_index 1 (xs ++ ys) = neg_index 1 ys.
Proof.
  intros H. unfold neg_index. rewrite length_app.
  destruct ys as [|y ys]; [contradiction|]. cbn [length].
  rewrite app_nth2 by lia. f_equal. lia.
Qed.

(** After at least one step the last sale in the buffer is the previous
    step's prediction. *)
Lemma buffer_last ds values k p :
  length values = length ds ->
  nth_error values k = Some p ->
  neg_index 1 (history_sales (buffer df ds values (S k))) = p.
Proof.
  intros Hlen Hk. unfold buffer, history_sales.
  assert (Hlt : (k < length values)%nat) by (apply nth_error_Some; congruence).
  rewrite map_app, <- firstn_map, map_snd_combine by lia.
  rewrite neg_index_1_app.
  - now apply neg_index_1_firstn.
  - destruct values; [cbn in Hlt; lia|discriminate].
Qed.

End RegressionLoop.

(** C2 (as the code has it).
    - [train_model.forecast_next_days] (regression branch): the row built at
      each step is computed from a private buffer, the history followed by
      the predictions of the earlier steps; from the second step on its
      [lag_1_sales] is the previous step's prediction.
    - [forecast_with_lightgbm]: from the second step on [sales_lag_1] is the
      previous step's stored prediction, while [sales_rolling_3] and
      [sales_rolling_7] are at every step the means over the observed history
      alone.
    - [generate_predictions] and [train_lightgbm.forecast_next_days]: at
      every step each requested column other than the four calendar ones
      holds the last observed row's value (0 if that row lacks it). *)
Theorem C2_recursive_inputs_per_forecaster :
  (forall (reg : TrainModel.Regression) (df : TrainModel.History) (days : nat)
          (st : TrainModel.LoopState),
      TrainModel.forecast_state reg df days = Some st ->
      exists ds,
        TrainModel.forecast_next_days reg df days
        = Some (combine ds (TrainModel.forecast_values st))
        /\ length ds = days
        /\ length (TrainModel.forecast_values st) = days
        /\ (forall k row,
               nth_error (TrainModel.built st) k = Some row ->
               row = TrainModel.build_row (TrainModel.features reg)
                       (buffer df ds (TrainModel.forecast_values st) k)
                       (nth k ds 0%Z))
        /\ (TrainModel.has (TrainModel.features reg) "lag_1_sales" = true ->
            forall k row p,
              nth_error (TrainModel.built st) (S k) = Some row ->
              nth_error (TrainModel.forecast_values st) k = Some p ->
              Dict.lookup row "lag_1_sales" = Some p))
  /\
  (forall (model : PredictCustom.Model) (features : list string)
          (df : list PredictCustom.SalesRow) (days : nat),
      df <> [] ->
      let st := PredictCustom.forecast_state model features df days in
      map snd (PredictCustom.forecast_with_lightgbm model features df days)
      = PredictCustom.predictions st
      /\ (forall k fv p,
             nth_error (PredictCustom.built st) (S k) = Some fv ->
             nth_error (PredictCustom.predictions st) k = Some p ->
             Dict.lookup fv "sales_lag_1" = Some p)
      /\ (forall k fv,
             nth_error (PredictCustom.built st) k = Some fv ->
             Dict.lookup fv "sales_rolling_3"
             = Some (Numeric.mean (Numeric.tail 3 (PredictCustom.sales df)))
             /\ Dict.lookup fv "sales_rolling_7"
                = Some (Numeric.mean (Numeric.tail 7 (PredictCustom.sales df)))))
  /\
  (forall (model : NextDays.Model) (df : list Frame.row)
          (feature_cols : list string) (n_days : nat) (last_row : Frame.row)
          (steps : list (Z * Frame.row * R)),
      Numeric.iloc_neg 1 df = Some last_row ->
      NextDays.run model df feature_cols n_days = Some steps ->
      length steps = n_days
      /\ forall s col,
           In s steps -> In col feature_cols ->
           Dict.mem (NextDays.date_features (fst (fst s))) col = false ->
           Dict.lookup (snd (fst s)) col
           = Some (Dict.get last_row col (Frame.Num 0))).
Proof.
  split; [|split].
  - intros reg df days st Hst.
    destruct (forecast_state_buffered reg df days st Hst)
      as (ds & Hds & Hlen & Hfv & _ & Hb).
    exists ds. split.
    { unfold TrainModel.forecast_next_days. rewrite Hds, Hst. reflexivity. }
    split; [exact Hlen|]. split; [lia|]. split.
    + intros k row Hk. rewrite Hb, nth_error_map in Hk.
      destruct (nth_error (seq 0 (length ds)) k) as [j|] eqn:Ej; [|discriminate].
      pose proof Ej as Ej'. apply nth_error_In, in_seq in Ej'.
      rewrite nth_error_seq in Ej.
      destruct (Nat.ltb_spec k (length ds)); [|discriminate].
      injection Ej as <-. cbn [option_map Nat.add] in Hk. now injection Hk as <-.
    + intros Hhas k row p Hk Hp. rewrite Hb, nth_error_map in Hk.
      rewrite nth_error_seq in Hk.
      destruct (Nat.ltb_spec (S k) (length ds)); [|discriminate].
      cbn [option_map Nat.add] in Hk. injection Hk as <-.
      rewrite lookup_lag_1_sales by exact Hhas. f_equal.
      now apply buffer_last.
  - intros model features df days Hne st.
    destruct (forecast_state_reached model features df days)
      as (Hlen & Hd & Hb & _). fold st in Hlen, Hd, Hb.
    split.
    { unfold PredictCustom.forecast_with_lightgbm.
      destruct df; [contradiction|]. fold st.
      apply map_snd_combine. rewrite Hd, length_map, length_seq. lia. }
    split.
    + intros k fv p Hk Hp. rewrite Hb, nth_error_map, nth_error_seq in Hk.
      destruct (Nat.ltb_spec (S k) days); [|discriminate].
      cbn [option_map Nat.add] in Hk. injection Hk as <-.
      rewrite lookup_sales_lag_1 by exact Hne. cbn [Nat.eqb]. f_equal.
      now apply neg_index_1_firstn.
    + intros k fv Hk. rewrite Hb, nth_error_map, nth_error_seq in Hk.
      destruct (Nat.ltb_spec k days); [|discriminate].
      cbn [option_map Nat.add] in Hk. injection Hk as <-.
      now apply lookup_sales_rolling.
  - intros model df cols n last_row steps Hl Hrun.
    pose proof (run_collected model last_row cols df n steps Hl Hrun) as Hc.
    destruct (collected_nth _ _ _ _ _ Hc) as [Hlen _].
    split; [now rewrite Hlen, length_seq|].
    intros [[d f] p] col Hs Hcol Hmem.
    destruct (collected_In _ _ _ _ _ Hc _ Hs) as (i & _ & Hstep).
    apply step_inv in Hstep. destruct Hstep as (d0 & _ & _ & -> & _).
    cbn [fst snd] in *. now apply fill_new.
Qed.

Lemma C2_recursive_inputs_witness :
  exists st row p,
    TrainModel.forecast_state lag_plus_10 [(738886%Z, 100)] 2 = Some st
    /\ nth_error (TrainModel.built st) 1 = Some row
    /\ nth_error (TrainModel.forecast_values st) 0 = Some p
    /\ Dict.lookup row "lag_1_sales" = Some p.
Proof.
  eexists. eexists. eexists.
  split; [reflexivity|]. split; [reflexivity|]. split; [reflexivity|].
  destruct C2_recursive_inputs_per_forecaster as [H _].
  destruct (H lag_plus_10 [(738886%Z, 100)] 2%nat _ eq_refl)
    as (ds & _ & _ & _ & _ & Hlag).
  apply (Hlag eq_refl 0%nat); reflexivity.
Defined.

(** C2 as stated fails twice.  In [generate_predictions] (backend: lag plus
    10) the second step's [sales_lag_1] is the last row's 90, not the first
    step's prediction 100.  In [forecast_with_lightgbm] (same backend, on the
    six-day series) the second step's [sales_rolling_3] is 2, the mean of the
    last three observed days, although the first step predicted 15: the mean
    over a buffer holding that prediction would be 7. *)
Lemma C2_counterexample :
  (exists d1 f1 p1 d2 f2 p2,
      NextDays.run
        (fun X => match X with [Frame.Num x] => Some (x + 10) | _ => None end)
        last_row_frame ["sales_lag_1"]%string 2
      = Some [(d1, f1, p1); (d2, f2, p2)]
      /\ p1 = 100
      /\ Dict.lookup f2 "sales_lag_1" = Some (Frame.Num 90)
      /\ 90 <> 100)
  /\
  (let st := PredictCustom.forecast_state
               (fun X => match X with [l; _] => Some (l + 10) | _ => None end)
               ["sales_lag_1"; "sales_rolling_3"]%string six_days 2 in
   exists fv2,
     nth_error (PredictCustom.predictions st) 0 = Some 15
     /\ nth_error (PredictCustom.built st) 1 = Some fv2
     /\ Dict.lookup fv2 "sales_rolling_3" = Some 2
     /\ Numeric.mean (Numeric.tail 3 (PredictCustom.sales six_days ++ [15])) = 7).
Proof.
  split.
  - do 6 eexists. split; [reflexivity|]. split; [cbn; lra|].
    split; [reflexivity|lra].
  - assert (Hne : six_days <> []) by (unfold six_days; discriminate).
    cbv zeta. eexists. split; [|split; [reflexivity|split]].
    + cbn [PredictCustom.forecast_state PredictCustom.loop PredictCustom.loop_body
           PredictCustom.predictions app nth_error].
      f_equal. unfold PredictCustom.feature_array. cbn [map].
      unfold Dict.get. rewrite lookup_sales_lag_1 by exact Hne.
      cbn [Nat.eqb]. unfold Numeric.neg_index, six_days.
      cbn [PredictCustom.sales map PredictCustom.total_sales length Nat.sub nth].
      replace (5 + 10) with 15 by lra. apply Rmax_right. lra.
    + rewrite (proj1 (lookup_sales_rolling six_days _ _ _ _ Hne)).
      f_equal. unfold Numeric.mean, Numeric.tail, six_days.
      cbn [PredictCustom.sales map PredictCustom.total_sales length Nat.sub skipn
           Numeric.Rsum INR]. lra.
    + unfold Numeric.mean, Numeric.tail, six_days.
      cbn [PredictCustom.sales map PredictCustom.total_sales length Nat.sub skipn
           Numeric.Rsum INR app]. lra.
Qed.

(** ** Scenarios of the specification *)

Example constant_series_no_anomaly :
  PredictCustom.detect_anomalies ten_constant_days 2 = [].
Proof.
  assert (Hm : Numeric.mean (PredictCustom.sales ten_constant_days) = 1000).
  { unfold Numeric.mean, ten_constant_days.
    cbn [seq map PredictCustom.sales PredictCustom.total_sales Numeric.Rsum length INR].
    lra. }
  assert (Hs : Numeric.pd_std (PredictCustom.sales ten_constant_days) = Some 0).
  { unfold Numeric.pd_std, Numeric.sq_dev. rewrite Hm.
    unfold ten_constant_days.
    cbn [seq map PredictCustom.sales PredictCustom.total_sales Numeric.Rsum
         length INR Nat.ltb Nat.leb].
    f_equal.
    match goal with |- sqrt ?a = 0 => replace a with 0; [apply sqrt_0|] end.
    lra. }
  unfold PredictCustom.detect_anomalies.
  change (match ten_constant_days with [] => [] | _ => ?x end) with x.
  cbv zeta. rewrite Hs. destruct (Req_dec_T 0 0); [reflexivity|contradiction].
Qed.

(** Scenario C of the specification: a backend answering its [sales_lag_1]
    input, last observed value 250, horizon 3. *)
Example lag_1_backend_repeats_last_value :
  map snd
    (PredictCustom.forecast_with_lightgbm
       (fun X => match X with [x] => Some x | _ => None end)
       ["sales_lag_1"]%string
       [{| PredictCustom.day := 738891; PredictCustom.total_sales := 250 |}] 3)
  = [250; 250; 250].
Proof.
  assert (Hmax : Rmax 0 250 = 250) by (apply Rmax_right; lra).
  cbv [PredictCustom.forecast_with_lightgbm PredictCustom.forecast_state
       PredictCustom.loop PredictCustom.loop_body PredictCustom.dates
       PredictCustom.predictions PredictCustom.feature_array
       app combine map fold_left snd].
  unfold Dict.get. rewrite !lookup_sales_lag_1 by discriminate.
  cbn [Nat.eqb]. unfold Numeric.neg_index.
  cbn [PredictCustom.sales map PredictCustom.total_sales length Nat.sub nth app].
  rewrite !Hmax. reflexivity.
Qed.

(* ================================================================= *)
(** * Part IV: further properties of the code *)
(* ================================================================= *)

(** ** Seasonal profile: worst day, order of the pattern, ties *)

Section SeasonalMore.
Import Calendar Numeric PredictCustom.

(** [max] keeps the first maximal item: whatever was seen before it is
    strictly smaller, whatever comes after is not larger. *)
Lemma max_by_first_gen {A} (key : A -> R) : forall rest best pre0 post0,
  (forall x, In x pre0 -> key x < key best) ->
  (forall x, In x post0 -> key x <= key best) ->
  exists pre post,
    pre0 ++ best :: post0 ++ rest = pre ++ max_by key best rest :: post
    /\ (forall x, In x pre -> key x < key (max_by key best rest))
    /\ (forall x, In x post -> key x <= key (max_by key best rest)).
Proof.
  induction rest as [|y rest IH]; intros best pre0 post0 Hpre Hpost; cbn [max_by].
  - exists pre0, post0. rewrite app_nil_r. auto.
  - destruct (Rlt_dec (key best) (key y)) as [Hlt|Hge].
    + destruct (IH y (pre0 ++ best :: post0) []) as (pre & post & E & H1 & H2).
      * intros x Hx. apply in_app_iff in Hx. destruct Hx as [Hx|[<-|Hx]].
        -- pose proof (Hpre x Hx). lra.
        -- exact Hlt.
        -- pose proof (Hpost x Hx). lra.
      * intros x [].
      * exists pre, post. split; [|auto].
        rewrite <- E. cbn [app]. now rewrite <- !app_assoc.
    + destruct (IH best pre0 (post0 ++ [y])) as (pre & post & E & H1 & H2).
      * exact Hpre.
      * intros x Hx. apply in_app_iff in Hx. destruct Hx as [Hx|[<-|[]]].
        -- now apply Hpost.
        -- lra.
      * exists pre, post. split; [|auto].
        rewrite <- E. now rewrite <- !app_assoc.
Qed.

Lemma max_by_first {A} (key : A -> R) best rest :
  exists pre post,
    best :: rest = pre ++ max_by key best rest :: post
    /\ (forall x, In x pre -> key x < key (max_by key best rest))
    /\ (forall x, In x post -> key x <= key (max_by key best rest)).
Proof.
  apply (max_by_first_gen key rest best [] []); intros x [].
Qed.

Lemma min_by_first_gen {A} (key : A -> R) : forall rest best pre0 post0,
  (forall x, In x pre0 -> key best < key x) ->
  (forall x, In x post0 -> key best <= key x) ->
  exists pre post,
    pre0 ++ best :: post0 ++ rest = pre ++ min_by key best rest :: post
    /\ (forall x, In x pre -> key (min_by key best rest) < key x)
    /\ (forall x, In x post -> key (min_by key best rest) <= key x).
Proof.
  induction rest as [|y rest IH]; intros best pre0 post0 Hpre Hpost; cbn [min_by].
  - exists pre0, post0. rewrite app_nil_r. auto.
  - destruct (Rlt_dec (key y) (key best)) as [Hlt|Hge].
    + destruct (IH y (pre0 ++ best :: post0) []) as (pre & post & E & H1 & H2).
      * intros x Hx. apply in_app_iff in Hx. destruct Hx as [Hx|[<-|Hx]].
        -- pose proof (Hpre x Hx). lra.
        -- exact Hlt.
        -- pose proof (Hpost x Hx). lra.
      * intros x [].
      * exists pre, post. split; [|auto].
        rewrite <- E. cbn [app]. now rewrite <- !app_assoc.
    + destruct (IH best pre0 (post0 ++ [y])) as (pre & post & E & H1 & H2).
      * exact Hpre.
      * intros x Hx. apply in_app_iff in Hx. destruct Hx as [Hx|[<-|[]]].
        -- now apply Hpost.
        -- lra.
      * exists pre, post. split; [|auto].
        rewrite <- E. now rewrite <- !app_assoc.
Qed.

Lemma min_by_first {A} (key : A -> R) best rest :
  exists pre post,
    best :: rest = pre ++ min_by key best rest :: post
    /\ (forall x, In x pre -> key (min_by key best rest) < key x)
    /\ (forall x, In x post -> key (min_by key best rest) <= key x).
Proof.
  apply (min_by_first_gen key rest best [] []); intros x [].
Qed.

(** The keys of the weekly pattern: the day names that occur, in the
    alphabetical order of [groupby]. *)
Lemma weekly_avg_keys df :
  map fst (weekly_avg df)
  = filter (fun n => match group df n with [] => false | _ => true end) group_keys.
Proof.
  unfold weekly_avg. induction group_keys as [|n ks IH]; [reflexivity|].
  cbn [flat_map filter]. rewrite map_app, IH.
  destruct (group df n); reflexivity.
Qed.

End SeasonalMore.

(** X1.  For a non-empty series, the worst day of the seasonal profile is an
    entry of the weekly pattern whose mean is at most every entry's mean, and
    at most the best day's.  The pattern lists the occurring day names in
    alphabetical order, and ties go to the first: every entry before the best
    day is strictly smaller, every entry before the worst day strictly
    larger. *)
Theorem seasonal_worst_day_and_ties :
  forall (df : list PredictCustom.SalesRow) (prof : PredictCustom.SeasonalProfile),
    PredictCustom.analyze_seasonal_patterns df = Some prof ->
    In (PredictCustom.worst_day prof) (PredictCustom.weekly_pattern prof)
    /\ (forall e, In e (PredictCustom.weekly_pattern prof) ->
          snd (PredictCustom.worst_day prof) <= snd e
          /\ snd e <= snd (PredictCustom.best_day prof))
    /\ map fst (PredictCustom.weekly_pattern prof)
       = filter (fun n => match PredictCustom.group df n with
                          | [] => false | _ => true end)
                PredictCustom.group_keys
    /\ (exists pre post,
          PredictCustom.weekly_pattern prof
          = pre ++ PredictCustom.best_day prof :: post
          /\ forall e, In e pre -> snd e < snd (PredictCustom.best_day prof))
    /\ (exists pre post,
          PredictCustom.weekly_pattern prof
          = pre ++ PredictCustom.worst_day prof :: post
          /\ forall e, In e pre -> snd (PredictCustom.worst_day prof) < snd e).
Proof.
  intros df prof H. unfold PredictCustom.analyze_seasonal_patterns in H.
  destruct df as [|r0 df0] eqn:Edf; [discriminate|]. rewrite <- Edf in *.
  pose proof (weekly_avg_keys df) as Hk.
  destruct (PredictCustom.weekly_avg df) as [|first rest]; [discriminate|].
  injection H as <-. cbn [PredictCustom.weekly_pattern PredictCustom.best_day
                          PredictCustom.worst_day].
  destruct (max_by_first snd first rest) as (pre & post & E & Hpre & Hpost).
  destruct (min_by_first snd first rest) as (pre' & post' & E' & Hpre' & Hpost').
  assert (Hmin : forall e, In e (first :: rest) ->
            snd (PredictCustom.min_by snd first rest) <= snd e).
  { intros e He. rewrite E' in He. apply in_app_iff in He.
    destruct He as [He|[<-|He]]; [left; now apply Hpre'|lra|now apply Hpost']. }
  assert (Hmax : forall e, In e (first :: rest) ->
            snd e <= snd (PredictCustom.max_by snd first rest)).
  { intros e He. rewrite E in He. apply in_app_iff in He.
    destruct He as [He|[<-|He]]; [left; now apply Hpre|lra|now apply Hpost]. }
  split.
  { rewrite E'. apply in_app_iff. right. now left. }
  split; [intros e He; split; [now apply Hmin|now apply Hmax]|].
  split; [exact Hk|]. split.
  - exists pre, post. split; [exact E|exact Hpre].
  - exists pre', post'. split; [exact E'|exact Hpre'].
Qed.

Lemma seasonal_worst_day_witness :
  exists prof,
    PredictCustom.analyze_seasonal_patterns six_days = Some prof
    /\ In (PredictCustom.worst_day prof) (PredictCustom.weekly_pattern prof)
    /\ snd (PredictCustom.worst_day prof) <= snd (PredictCustom.best_day prof).
Proof.
  assert (E : exists prof, PredictCustom.analyze_seasonal_patterns six_days = Some prof)
    by (eexists; reflexivity).
  destruct E as [prof E]. exists prof. split; [exact E|].
  destruct (seasonal_worst_day_and_ties six_days prof E) as (Hin & Hb & _).
  split; [exact Hin|]. destruct (Hb _ Hin) as [_ H]. exact H.
Defined.

(** ** Weekend boost *)

Lemma filter_all {A} (f : A -> bool) (l : list A) :
  (forall x, In x l -> f x = true) -> filter f l = l.
Proof.
  induction l as [|x l IH]; intros H; cbn [filter]; [reflexivity|].
  rewrite (H x (or_introl eq_refl)). f_equal. apply IH.
  intros y Hy. apply H. now right.
Qed.

(** X2.  The weekend boost is a percentage only for a positive weekday
    average, and then it is positive exactly when the weekend average
    exceeds the weekday average; otherwise it is 0.  A series without any
    Friday or Saturday has weekend average 0, so with a positive weekday
    average its boost is -100. *)
Theorem weekend_boost_sign_and_missing_weekend :
  forall (df : list PredictCustom.SalesRow) (prof : PredictCustom.SeasonalProfile),
    PredictCustom.analyze_seasonal_patterns df = Some prof ->
    let we := PredictCustom.weekend_avg prof in
    let wd := PredictCustom.weekday_avg prof in
    let boost := PredictCustom.weekend_boost prof in
    (0 < wd ->
       boost = (we - wd) / wd * 100
       /\ (0 < boost <-> wd < we)
       /\ (boost < 0 <-> we < wd))
    /\ (wd <= 0 -> boost = 0)
    /\ ((forall r, In r df -> PredictCustom.is_weekend r = false) ->
        we = 0
        /\ wd = Numeric.mean (PredictCustom.sales df)
        /\ (0 < Numeric.mean (PredictCustom.sales df) -> boost = -100)).
Proof.
  intros df prof H. unfold PredictCustom.analyze_seasonal_patterns in H.
  destruct df as [|r0 df0] eqn:Edf; [discriminate|]. rewrite <- Edf in *.
  destruct (PredictCustom.weekly_avg df) as [|first rest]; [discriminate|].
  injection H as <-.
  cbn [PredictCustom.weekend_avg PredictCustom.weekday_avg PredictCustom.weekend_boost].
  set (we := match filter PredictCustom.is_weekend df with
             | [] => 0 | _ => Numeric.mean (PredictCustom.sales (filter PredictCustom.is_weekend df)) end).
  set (wd := match filter (fun r => negb (PredictCustom.is_weekend r)) df with
             | [] => 0
             | _ => Numeric.mean (PredictCustom.sales
                      (filter (fun r => negb (PredictCustom.is_weekend r)) df)) end).
  assert (Hsign : 0 < wd ->
            (0 < (we - wd) / wd * 100 <-> wd < we)
            /\ ((we - wd) / wd * 100 < 0 <-> we < wd)).
  { intros Hwd. assert (Hinv : 0 < / wd) by now apply Rinv_0_lt_compat.
    unfold Rdiv. split; split; intros Hc.
    - apply Rnot_le_lt. intros Hle.
      assert ((we - wd) * / wd <= 0) by nra. lra.
    - assert (0 < (we - wd) * / wd) by (apply Rmult_lt_0_compat; lra). lra.
    - apply Rnot_le_lt. intros Hle.
      assert (0 <= (we - wd) * / wd) by (apply Rmult_le_pos; lra). lra.
    - assert (0 < (wd - we) * / wd) by (apply Rmult_lt_0_compat; lra). nra. }
  split; [|split].
  - intros Hwd. destruct (Rlt_dec 0 wd); [|contradiction].
    split; [reflexivity|now apply Hsign].
  - intros Hwd. destruct (Rlt_dec 0 wd); [lra|reflexivity].
  - intros Hno.
    assert (Ewe : filter PredictCustom.is_weekend df = [])
      by (apply filter_none; exact Hno).
    assert (Ewd : filter (fun r => negb (PredictCustom.is_weekend r)) df = df)
      by (apply filter_all; intros r Hr; now rewrite (Hno r Hr)).
    assert (Hwe : we = 0) by (unfold we; now rewrite Ewe).
    assert (Hwd : wd = Numeric.mean (PredictCustom.sales df)).
    { unfold wd. rewrite Ewd. rewrite Edf. reflexivity. }
    split; [exact Hwe|]. split; [exact Hwd|].
    intros Hpos. rewrite <- Hwd in Hpos.
    destruct (Rlt_dec 0 wd); [|contradiction].
    rewrite Hwe. field. lra.
Qed.

Lemma weekend_boost_witness :
  exists prof,
    PredictCustom.analyze_seasonal_patterns
      [{| PredictCustom.day := 738886; PredictCustom.total_sales := 100 |}]
    = Some prof
    /\ PredictCustom.weekend_boost prof = -100.
Proof.
  eexists. split; [reflexivity|].
  eapply (weekend_boost_sign_and_missing_weekend
            [{| PredictCustom.day := 738886; PredictCustom.total_sales := 100 |}]).
  - reflexivity.
  - intros r [<-|[]]. reflexivity.
  - unfold Numeric.mean. cbn. lra.
Defined.

(** ** Anomaly detection: thresholds and small series *)

Section AnomalyBounds.
Import Numeric PredictCustom.

Lemma Rsum_app xs ys : Rsum (xs ++ ys) = Rsum xs + Rsum ys.
Proof. induction xs as [|x xs IH]; cbn [app Rsum]; lra. Qed.

Lemma squares_nonneg xs : 0 <= squares xs.
Proof.
  unfold squares. induction xs as [|x xs IH]; cbn [map Rsum]; [lra|].
  pose proof (Rle_0_sqr x) as H. unfold Rsqr in H. lra.
Qed.

(** Cauchy-Schwarz against the constant vector. *)
Lemma sum_sq_le xs : Rsum xs * Rsum xs <= INR (length xs) * squares xs.
Proof.
  unfold squares. induction xs as [|x xs IH]; [cbn; lra|].
  cbn [map Rsum]. fold (squares xs) in *.
  change (length (x :: xs)) with (S (length xs)). rewrite S_INR.
  set (n := INR (length xs)) in *. set (s := Rsum xs) in *. set (q := squares xs) in *.
  assert (Hn : 0 <= n) by apply pos_INR.
  assert (Hq : 0 <= q) by apply squares_nonneg.
  destruct xs as [|y ys].
  - cbn in n, s, q. subst n s q. lra.
  - assert (Hn1 : 1 <= n).
    { unfold n. change (length (y :: ys)) with (S (length ys)).
      rewrite S_INR. pose proof (pos_INR (length ys)). lra. }
    assert (H2 : 2 * x * s <= n * (x * x) + q).
    { apply Rmult_le_reg_l with n; [lra|].
      pose proof (Rle_0_sqr (n * x - s)) as Hs. unfold Rsqr in Hs. nra. }
    nra.
Qed.

(** Deviations from the mean sum to zero. *)
Lemma Rsum_shift xs c :
  Rsum (map (fun x => x - c) xs) = Rsum xs - INR (length xs) * c.
Proof.
  induction xs as [|x xs IH]; [cbn; lra|].
  change (length (x :: xs)) with (S (length xs)). rewrite S_INR.
  cbn [map Rsum]. rewrite IH. lra.
Qed.

Lemma deviations_sum_zero xs :
  xs <> [] -> Rsum (map (fun x => x - mean xs) xs) = 0.
Proof.
  intros H. rewrite Rsum_shift. unfold mean.
  assert (0 < INR (length xs)).
  { apply lt_0_INR. destruct xs; [contradiction|cbn; lia]. }
  field. lra.
Qed.

Lemma sq_dev_squares xs :
  sq_dev xs = squares (map (fun x => x - mean xs) xs).
Proof. unfold sq_dev, squares. now rewrite map_map. Qed.

(** Samuelson's inequality: no value deviates from the mean by more than
    [(n - 1) / sqrt n] sample standard deviations. *)
Lemma deviation_bound xs x :
  In x xs ->
  INR (length xs) * ((x - mean xs) * (x - mean xs))
  <= (INR (length xs) - 1) * sq_dev xs.
Proof.
  intros Hin.
  assert (Hne : xs <> []) by (intros ->; destruct Hin).
  pose proof (deviations_sum_zero xs Hne) as Hz.
  rewrite sq_dev_squares.
  set (m := mean xs) in *.
  apply in_split in Hin. destruct Hin as (l1 & l2 & E).
  rewrite E in Hz |- *. rewrite map_app in Hz |- *. cbn [map] in Hz |- *.
  unfold squares. rewrite map_app, Rsum_app. cbn [map Rsum].
  rewrite Rsum_app in Hz. cbn [Rsum] in Hz.
  rewrite length_app. cbn [length]. rewrite Nat.add_succ_r, S_INR, plus_INR.
  pose proof (sum_sq_le (map (fun x => x - m) l1 ++ map (fun x => x - m) l2)) as Hcs.
  rewrite Rsum_app, length_app, plus_INR, !length_map in Hcs.
  unfold squares in Hcs. rewrite map_app, Rsum_app in Hcs.
  set (d1 := map (fun x => x - m) l1) in *.
  set (d2 := map (fun x => x - m) l2) in *.
  set (q1 := Rsum (map (fun x => x * x) d1)) in *.
  set (q2 := Rsum (map (fun x => x * x) d2)) in *.
  set (n1 := INR (length l1)) in *. set (n2 := INR (length l2)) in *.
  assert (Hd : Rsum d1 + Rsum d2 = - (x - m)) by lra.
  rewrite Hd in Hcs. nra.
Qed.

End AnomalyBounds.

Section AnomalyThreshold.
Import Numeric PredictCustom.

Lemma sq_dev_nonneg xs : 0 <= sq_dev xs.
Proof. rewrite sq_dev_squares. apply squares_nonneg. Qed.


End AnomalyThreshold.



(** Six days suffice for an anomaly at the default threshold. *)
Example six_days_can_flag :
  exists a,
    PredictCustom.detect_anomalies
      [ {| PredictCustom.day := 738886; PredictCustom.total_sales := 0 |};
        {| PredictCustom.day := 738887; PredictCustom.total_sales := 0 |};
        {| PredictCustom.day := 738888; PredictCustom.total_sales := 0 |};
        {| PredictCustom.day := 738889; PredictCustom.total_sales := 0 |};
        {| PredictCustom.day := 738890; PredictCustom.total_sales := 0 |};
        {| PredictCustom.day := 738891; PredictCustom.total_sales := 6 |} ] 2
    = [a]
    /\ PredictCustom.total_sales (PredictCustom.a_row a) = 6.
Proof.
  set (df := [ {| PredictCustom.day := 738886; PredictCustom.total_sales := 0 |};
        {| PredictCustom.day := 738887; PredictCustom.total_sales := 0 |};
        {| PredictCustom.day := 738888; PredictCustom.total_sales := 0 |};
        {| PredictCustom.day := 738889; PredictCustom.total_sales := 0 |};
        {| PredictCustom.day := 738890; PredictCustom.total_sales := 0 |};
        {| PredictCustom.day := 738891; PredictCustom.total_sales := 6 |} ]).
  assert (Hm : Numeric.mean (PredictCustom.sales df) = 1)
    by (unfold Numeric.mean, df; cbn [PredictCustom.sales map PredictCustom.total_sales
          Numeric.Rsum length INR]; lra).
  assert (Hq : Numeric.sq_dev (PredictCustom.sales df) = 30)
    by (unfold Numeric.sq_dev; rewrite Hm; cbn; lra).
  assert (Hs : exists s, Numeric.pd_std (PredictCustom.sales df) = Some s
                         /\ 0 < s /\ s * s = 6).
  { eexists. split; [reflexivity|]. rewrite Hq. cbn [PredictCustom.sales df map length INR].
    replace (30 / (1 + 1 + 1 + 1 + 1 + 1 - 1)) with 6 by lra.
    split; [apply sqrt_lt_R0; lra|apply sqrt_sqrt; lra]. }
  destruct Hs as (s & Hs & Hpos & Hss).
  unfold PredictCustom.detect_anomalies.
  change (match df with [] => [] | _ => ?x end) with x.
  cbv zeta. rewrite Hs, Hm. destruct (Req_dec_T s 0); [lra|].
  assert (Hlow : Numeric.Rltb 2 (Rabs ((0 - 1) / s)) = false).
  { apply not_anomaly. rewrite Rabs_left.
    - apply Rmult_le_reg_r with s; [exact Hpos|].
      unfold Rdiv. replace (- ((0 - 1) * / s) * s) with (s * / s) by lra.
      rewrite Rinv_r by lra. nra.
    - unfold Rdiv. assert (0 < / s) by now apply Rinv_0_lt_compat. nra. }
  assert (Hhigh : Numeric.Rltb 2 (Rabs ((6 - 1) / s)) = true).
  { apply Rltb_true. rewrite Rabs_right.
    - apply lt_div; [exact Hpos|]. nra.
    - apply Rle_ge, Rlt_le, Rdiv_lt_0_compat; lra. }
  unfold df. cbn [map filter PredictCustom.total_sales].
  unfold PredictCustom.is_anomaly. cbn [PredictCustom.z_score].
  rewrite Hlow, Hhigh. eexists. split; reflexivity.
Qed.

Lemma map_filter_map {A B} (f : A -> B) (g : B -> A) (P : B -> bool) (l : list A) :
  (forall a, g (f a) = a) ->
  map g (filter P (map f l)) = filter (fun a => P (f a)) l.
Proof.
  intros Hg. induction l as [|a l IH]; cbn [map filter]; [reflexivity|].
  destruct (P (f a)); cbn [map]; now rewrite ?Hg, IH.
Qed.

(** X4.  Raising the threshold can only remove anomalies: every row flagged
    at a threshold is flagged at every smaller one.  The flagged rows are
    rows of the frame, in the frame's order. *)
Theorem anomalies_shrink_with_threshold :
  forall (df : list PredictCustom.SalesRow) (T T' : R),
    T <= T' ->
    (forall a, In a (PredictCustom.detect_anomalies df T') ->
               In a (PredictCustom.detect_anomalies df T))
    /\ (length (PredictCustom.detect_anomalies df T')
        <= length (PredictCustom.detect_anomalies df T))%nat
    /\ exists keep,
         map PredictCustom.a_row (PredictCustom.detect_anomalies df T)
         = filter keep df.
Proof.
  intros df T T' HT. unfold PredictCustom.detect_anomalies.
  destruct df as [|r0 df0] eqn:Edf;
    [split; [intros a []|split; [lia|exists (fun _ => true); reflexivity]]|].
  rewrite <- Edf. clear Edf.
  destruct (Numeric.pd_std (PredictCustom.sales df)) as [sigma|];
    [|split; [intros a []|split; [cbn; lia|exists (fun _ => false)]]].
  - destruct (Req_dec_T sigma 0);
      [split; [intros a []|split; [cbn; lia|exists (fun _ => false)]]|].
    + cbn [map]. symmetry. apply filter_none. reflexivity.
    + set (rows := map _ df).
      assert (Himp : forall a, PredictCustom.is_anomaly T' a = true ->
                               PredictCustom.is_anomaly T a = true).
      { intros a. unfold PredictCustom.is_anomaly. rewrite !Rltb_true. lra. }
      split; [|split].
      * intros a Ha. apply filter_In in Ha. apply filter_In.
        split; [tauto|apply Himp; tauto].
      * clear -Himp. induction rows as [|a rows IH]; cbn [filter]; [lia|].
        destruct (PredictCustom.is_anomaly T' a) eqn:E.
        -- rewrite (Himp a E). cbn [length]. lia.
        -- destruct (PredictCustom.is_anomaly T a); cbn [length]; lia.
      * eexists. unfold rows. apply map_filter_map. reflexivity.
  - cbn [map]. symmetry. apply filter_none. reflexivity.
Qed.

Lemma anomalies_shrink_witness :
  (length (PredictCustom.detect_anomalies six_days 2)
   <= length (PredictCustom.detect_anomalies six_days 1.5))%nat.
Proof.
  apply (anomalies_shrink_with_threshold six_days 1.5 2). lra.
Defined.

(** ** Confidence levels *)

(** X5.  Only the confidence 0.95 is told apart: every other level, 0.99
    included, gives the interval of 0.90.  For a non-negative dispersion that
    interval lies inside the one for 0.95. *)
Theorem confidence_levels_other_than_95 :
  forall (predictions : list R) (historical_std : option R) (confidence : R),
    confidence <> 0.95 ->
    PredictCustom.calculate_confidence_interval predictions historical_std confidence
    = PredictCustom.calculate_confidence_interval predictions historical_std 0.90
    /\ (0 <= PredictCustom.ci_std predictions historical_std ->
        forall i l u l95 u95,
          nth_error (fst (PredictCustom.calculate_confidence_interval
                            predictions historical_std confidence)) i = Some l ->
          nth_error (snd (PredictCustom.calculate_confidence_interval
                            predictions historical_std confidence)) i = Some u ->
          nth_error (fst (PredictCustom.calculate_confidence_interval
                            predictions historical_std 0.95)) i = Some l95 ->
          nth_error (snd (PredictCustom.calculate_confidence_interval
                            predictions historical_std 0.95)) i = Some u95 ->
          l95 <= l /\ u <= u95).
Proof.
  intros predictions hs c Hc.
  assert (Hz : PredictCustom.ci_z_score c = 1.645)
    by (unfold PredictCustom.ci_z_score; destruct (Req_dec_T c 0.95);
        [contradiction|reflexivity]).
  assert (Hz90 : PredictCustom.ci_z_score 0.90 = 1.645)
    by (unfold PredictCustom.ci_z_score; destruct (Req_dec_T 0.90 0.95);
        [lra|reflexivity]).
  assert (Hz95 : PredictCustom.ci_z_score 0.95 = 1.96)
    by (unfold PredictCustom.ci_z_score; destruct (Req_dec_T 0.95 0.95);
        [reflexivity|contradiction]).
  unfold PredictCustom.calculate_confidence_interval, PredictCustom.ci_margin.
  rewrite Hz, Hz90, Hz95. split; [reflexivity|].
  intros Hs i l u l95 u95. cbn [fst snd].
  unfold PredictCustom.ci_lower, PredictCustom.ci_upper.
  rewrite !nth_error_map.
  destruct (nth_error predictions i) as [p|]; cbn [option_map]; [|discriminate].
  intros Hl Hu Hl95 Hu95.
  injection Hl as <-. injection Hu as <-. injection Hl95 as <-. injection Hu95 as <-.
  set (s := PredictCustom.ci_std predictions hs) in *.
  split; [|nra].
  apply Rmax_lub; [|apply Rmax_r].
  apply Rle_trans with (p - 1.645 * s); [nra|apply Rmax_l].
Qed.

Lemma confidence_levels_witness :
  PredictCustom.calculate_confidence_interval [100] (Some 10) 0.99
  = PredictCustom.calculate_confidence_interval [100] (Some 10) 0.90.
Proof.
  apply (confidence_levels_other_than_95 [100] (Some 10) 0.99). lra.
Defined.

(** ** Horizons of [forecast_with_lightgbm] *)

Section LightgbmHorizon.
Import PredictCustom.
Variables (model : Model) (features : list string) (df : list SalesRow).
Variables (last_date : Z) (hm : R).

Lemma loop_add a : forall b i st,
  loop model features df last_date hm (a + b) i st
  = loop model features df last_date hm b (a + i)
      (loop model features df last_date hm a i st).
Proof.
  induction a as [|a IH]; intros b i st; [reflexivity|].
  cbn [Nat.add loop]. rewrite IH. f_equal. lia.
Qed.

(** The loop only appends. *)
Lemma loop_extends n : forall i st,
  exists ds ps,
    dates (loop model features df last_date hm n i st) = dates st ++ ds
    /\ predictions (loop model features df last_date hm n i st)
       = predictions st ++ ps
    /\ length ds = n /\ length ps = n.
Proof.
  induction n as [|n IH]; intros i st.
  - exists [], []. cbn [loop]. now rewrite !app_nil_r.
  - cbn [loop]. destruct (IH (S i) (loop_body model features df last_date hm i st))
      as (ds & ps & Hd & Hp & Hld & Hlp).
    eexists (_ :: ds), (_ :: ps).
    rewrite Hd, Hp. unfold loop_body. cbn [dates predictions].
    rewrite <- !app_assoc. cbn [app length]. auto.
Qed.

End LightgbmHorizon.

(** X6.  A longer horizon does not change the earlier forecast points: the
    forecast for [H] days is the first [H] rows of the forecast for [H + K]
    days. *)
Theorem lightgbm_forecast_is_prefix_of_longer :
  forall (model : PredictCustom.Model) (features : list string)
         (df : list PredictCustom.SalesRow) (H K : nat),
    PredictCustom.forecast_with_lightgbm model features df H
    = firstn H (PredictCustom.forecast_with_lightgbm model features df (H + K)).
Proof.
  intros model features df H K. unfold PredictCustom.forecast_with_lightgbm.
  destruct df as [|r0 df0] eqn:Edf; [now rewrite firstn_nil|].
  rewrite <- Edf. clear Edf.
  destruct (forecast_state_reached model features df H) as (Hlen & Hd & _).
  unfold PredictCustom.forecast_state in *.
  rewrite loop_add.
  set (st := PredictCustom.loop model features df _ _ H 0 _) in *.
  destruct (loop_extends model features df (PredictCustom.index_max df)
              (Numeric.mean (PredictCustom.sales df)) K (H + 0) st)
    as (ds & ps & Ed & Ep & _ & _).
  rewrite Ed, Ep.
  assert (Hdl : length (PredictCustom.dates st) = H)
    by (rewrite Hd, length_map, length_seq; reflexivity).
  rewrite combine_firstn, !firstn_app, Hdl, Hlen, Nat.sub_diag.
  cbn [firstn]. rewrite !app_nil_r.
  rewrite <- Hdl at 1. rewrite firstn_all.
  rewrite <- Hlen at 1. now rewrite firstn_all.
Qed.

(** ** Training the LightGBM model on a prepared frame *)

Section TrainOnPrepared.
Import Frame FeatureEngineering TrainLightgbmModel.

Lemma target_engineered df (l : list (nat * DailyRecord)) :
  target (map (fun ir => engineered_row df (fst ir) (snd ir)) l) "total_sales"
  = Some (map (fun ir => total_sales (snd ir)) l).
Proof.
  induction l as [|[i r] l IH]; [reflexivity|].
  cbn [map target]. 
  change (Dict.lookup (engineered_row df (fst (i, r)) (snd (i, r))) "total_sales")
    with (Some (Num (total_sales r))).
  cbv beta iota. rewrite IH. reflexivity.
Qed.

Lemma prepared_target records :
  target (prepare records) "total_sales"
  = Some (map total_sales (skipn 3 (sort_values records))).
Proof.
  rewrite prepare_rows, target_engineered. f_equal.
  rewrite <- map_map. f_equal. apply map_snd_combine.
  now rewrite length_seq, length_skipn.
Qed.

Lemma prepared_feature_cols records :
  prepare records <> [] ->
  feature_cols (prepare records) "total_sales" = engineered_features.
Proof.
  rewrite prepare_rows. intros H.
  destruct (combine _ _) as [|[i r] l]; [contradiction|]. reflexivity.
Qed.

End TrainOnPrepared.

(** X7.  Training on the frame prepared from daily records (a dataset with
    the columns [day], [total_sales], [orders_count], [items_sold] and
    [total_expenses]) raises when there are fewer than nine records (three
    are dropped, and the five-fold split needs six rows).  From nine records
    on it returns the twenty engineered feature names, which contain neither
    the day nor the target, a model fitted on all [|S| - 3] prepared rows,
    and the means of five fold scores. *)
Theorem lightgbm_training_needs_nine_records :
  forall (Fitted : Type)
         (fit : list (list Frame.cell) -> list R -> Fitted)
         (predict : Fitted -> list (list Frame.cell) -> list R)
         (S : list FeatureEngineering.DailyRecord),
    let df := TrainLightgbm.load_and_prepare_data S in
    let X := TrainLightgbmModel.select_columns df engineered_features in
    let y := map FeatureEngineering.total_sales
               (skipn 3 (FeatureEngineering.sort_values S)) in
    ((length S < 9)%nat ->
       TrainLightgbmModel.train_lightgbm_model Fitted fit predict df "total_sales"
       = None)
    /\ ((9 <= length S)%nat ->
        length X = (length S - 3)%nat
        /\ length y = (length S - 3)%nat
        /\ exists scores,
             TrainLightgbmModel.fold_scores Fitted fit predict X y = Some scores
             /\ length scores = 5%nat
             /\ TrainLightgbmModel.train_lightgbm_model Fitted fit predict df
                  "total_sales"
                = Some (fit X y, engineered_features,
                        {| TrainLightgbmModel.mae := Numeric.mean (map fst scores);
                           TrainLightgbmModel.mape := Numeric.mean (map snd scores) |}))
    /\ ~ In "total_sales"%string engineered_features
    /\ ~ In "day"%string engineered_features.
Proof.
  intros Fitted fit predict S df X y. subst df X y.
  unfold TrainLightgbm.load_and_prepare_data.
  pose proof (prepare_length S) as Hlen.
  assert (HX : forall cols,
            length (TrainLightgbmModel.select_columns
                      (FeatureEngineering.prepare S) cols)
            = (length S - 3)%nat).
  { intros cols. unfold TrainLightgbmModel.select_columns.
    rewrite length_map. exact Hlen. }
  split; [|split; [|split]].
  - intros Hlt. unfold TrainLightgbmModel.train_lightgbm_model.
    rewrite prepared_target. cbn [Raise.bind].
    unfold TrainLightgbmModel.fold_scores, TrainLightgbm.cv_folds.
    rewrite HX.
    unfold Sklearn.TimeSeriesSplit. change (5 + 1)%nat with 6%nat.
    destruct (Nat.ltb_spec (length S - 3) 6); [reflexivity|lia].
  - intros Hge.
    split; [apply HX|]. split.
    { now rewrite length_map, length_skipn, sort_values_length. }
    assert (Hne : FeatureEngineering.prepare S <> [])
      by (intros E; rewrite E in Hlen; cbn in Hlen; lia).
    assert (Hfs : exists scores,
              TrainLightgbmModel.fold_scores Fitted fit predict
                (TrainLightgbmModel.select_columns
                   (FeatureEngineering.prepare S) engineered_features)
                (map FeatureEngineering.total_sales
                   (skipn 3 (FeatureEngineering.sort_values S)))
              = Some scores /\ length scores = 5%nat).
    { unfold TrainLightgbmModel.fold_scores, TrainLightgbm.cv_folds.
      rewrite HX, TimeSeriesSplit_5 by lia. cbn [Raise.bind].
      eexists. split; [reflexivity|]. now rewrite !length_map, length_seq. }
    destruct Hfs as (scores & Hfs & Hls).
    exists scores. split; [exact Hfs|]. split; [exact Hls|].
    unfold TrainLightgbmModel.train_lightgbm_model.
    rewrite prepared_feature_cols by exact Hne.
    rewrite prepared_target. cbn [Raise.bind]. rewrite Hfs. reflexivity.
  - cbn. intuition discriminate.
  - cbn. intuition discriminate.
Qed.

Lemma lightgbm_training_witness :
  TrainLightgbmModel.train_lightgbm_model unit (fun _ _ => tt)
    (fun _ X => map (fun _ => 0) X)
    (TrainLightgbm.load_and_prepare_data five_days) "total_sales"
  = None.
Proof.
  apply (lightgbm_training_needs_nine_records unit (fun _ _ => tt)
           (fun _ X => map (fun _ => 0) X) five_days).
  cbn [five_days length map seq]. lia.
Defined.

(** ** Trained feature names at inference time *)

Section TrainedNames.
Import Frame FeatureEngineering.

Lemma engineered_row_has_features df i r f :
  In f engineered_features -> Dict.mem (engineered_row df i r) f = true.
Proof.
  unfold engineered_features. cbn [In]. intros H.
  repeat (destruct H as [<-|H]; [reflexivity|]). destruct H.
Qed.

Lemma feature_values_has_features df hm i preds d f :
  df <> [] -> In f engineered_features ->
  Dict.mem (PredictCustom.feature_values df hm i preds d) f = true.
Proof.
  intros Hne. destruct df as [|r0 df0]; [contradiction|].
  unfold engineered_features. cbn [In]. intros H.
  repeat (destruct H as [<-|H]; [reflexivity|]). destruct H.
Qed.

Lemma get_present {V} (d : Dict.dict V) k (v w : V) :
  Dict.mem d k = true -> Dict.get d k v = Dict.get d k w.
Proof.
  intros H. apply mem_true_lookup in H. destruct H as [x H].
  unfold Dict.get. now rewrite H.
Qed.

End TrainedNames.

(** The ten engineered features about orders and items. *)
Lemma orders_items_zero_gen df hm i preds d f :
  df <> [] ->
  In f [ "orders_lag_1"; "items_lag_1"; "orders_lag_2"; "items_lag_2";
         "orders_lag_3"; "items_lag_3"; "orders_rolling_3"; "items_rolling_3";
         "orders_rolling_7"; "items_rolling_7" ]%string ->
  Dict.lookup (PredictCustom.feature_values df hm i preds d) f = Some 0.
Proof.
  intros Hne. destruct df as [|r0 df0]; [contradiction|].
  cbn [In]. intros H.
  repeat (destruct H as [<-|H]; [reflexivity|]). destruct H.
Qed.

(** X8.  For the twenty feature names that [load_and_prepare_data]
    engineers, inference never falls back on the default 0: each of them is
    a key of the dict [forecast_with_lightgbm] builds (for a non-empty
    history) and of every prepared row [generate_predictions] copies from.
    In [forecast_with_lightgbm] the ten features about orders and items are
    nevertheless fed as the constant 0 at every step. *)
Theorem trained_features_are_all_built :
  forall (df : list PredictCustom.SalesRow) (hm : R) (i : nat)
         (preds : list R) (d : Z),
    df <> [] ->
    let fv := PredictCustom.feature_values df hm i preds d in
    (forall v, map (fun f => Dict.get fv f v) engineered_features
               = PredictCustom.feature_array fv engineered_features)
    /\ (forall f,
          In f [ "orders_lag_1"; "items_lag_1"; "orders_lag_2"; "items_lag_2";
                 "orders_lag_3"; "items_lag_3"; "orders_rolling_3";
                 "items_rolling_3"; "orders_rolling_7"; "items_rolling_7" ]%string ->
          In f engineered_features /\ Dict.lookup fv f = Some 0)
    /\ (forall (S : list FeatureEngineering.DailyRecord) (last_row : Frame.row)
               (next_day : Z),
          In last_row (DailyPredictions.load_latest_data S) ->
          forall f, In f engineered_features ->
            Dict.lookup
              (NextDays.fill_from_last_row last_row engineered_features
                 (NextDays.date_features next_day)) f
            = (if Dict.mem (NextDays.date_features next_day) f
               then Dict.lookup (NextDays.date_features next_day) f
               else Dict.lookup last_row f)
            /\ (Dict.mem (NextDays.date_features next_day) f = true
                \/ Dict.mem last_row f = true)).
Proof.
  intros df hm i preds d Hne fv. split; [|split].
  - intros v. unfold PredictCustom.feature_array. apply map_ext_in.
    intros f Hf. apply get_present.
    now apply feature_values_has_features.
  - intros f Hf. split.
    + cbn [In] in Hf. unfold engineered_features. cbn [In].
      repeat (destruct Hf as [<-|Hf]; [tauto|]). destruct Hf.
    + now apply orders_items_zero_gen.
  - intros S last_row next_day Hin f Hf.
    assert (Hrow : Dict.mem last_row f = true).
    { unfold DailyPredictions.load_latest_data in Hin.
      rewrite prepare_rows in Hin. apply in_map_iff in Hin.
      destruct Hin as ([j r] & <- & _).
      now apply engineered_row_has_features. }
    split; [|now right].
    destruct (Dict.mem (NextDays.date_features next_day) f) eqn:M.
    + apply mem_true_lookup in M. destruct M as [c M]. rewrite M.
      now apply fill_keeps.
    + rewrite (fill_new last_row engineered_features _ f Hf M).
      apply mem_true_lookup in Hrow. destruct Hrow as [c Hc].
      unfold Dict.get. now rewrite Hc.
Qed.

Lemma trained_features_witness :
  map (fun f =>
         Dict.get (PredictCustom.feature_values six_days 1 0 [] 738892) f 7)
      engineered_features
  = PredictCustom.feature_array
      (PredictCustom.feature_values six_days 1 0 [] 738892) engineered_features.
Proof.
  assert (Hne : six_days <> []) by (unfold six_days; discriminate).
  destruct (trained_features_are_all_built six_days 1 0%nat [] 738892%Z Hne)
    as [H _].
  apply H.
Defined.

(** ** Derived columns of a prepared row *)

Section DerivedColumns.
Import Frame FeatureEngineering Numeric.

Lemma window_of_three {A} : forall k (xs : list A) a b c,
  nth_error xs k = Some a ->
  nth_error xs (S k) = Some b ->
  nth_error xs (S (S k)) = Some c ->
  skipn k (firstn (S (S (S k))) xs) = [a; b; c].
Proof.
  induction k as [|k IH]; intros xs a b c Ha Hb Hc.
  - destruct xs as [|x0 [|x1 [|x2 xs]]]; cbn in *; try discriminate.
    congruence.
  - destruct xs as [|x0 xs]; [discriminate|].
    cbn [nth_error] in Ha, Hb, Hc.
    change (firstn (S (S (S (S k)))) (x0 :: xs))
      with (x0 :: firstn (S (S (S k))) xs).
    cbn [skipn]. now apply IH.
Qed.

Lemma mean_of_three a b c : mean [a; b; c] = (a + b + c) / 3.
Proof. unfold mean. cbn [Rsum length INR]. field. Qed.

Lemma pct_change_cases xs i prev cur :
  (3 <= i)%nat ->
  nth_error xs (i - 3) = Some prev ->
  nth_error xs i = Some cur ->
  fillna 0 (pct_change_at 3 xs i)
  = if Req_dec_T prev 0
    then (if Req_dec_T cur 0 then Num 0 else Inf (Rltb 0 cur))
    else Num (cur / prev - 1).
Proof.
  intros Hi Hp Hc. unfold pct_change_at.
  rewrite (shift_at_value 3 xs i prev Hi Hp), Hc. unfold fdiv.
  destruct (Req_dec_T prev 0); [destruct (Req_dec_T cur 0)|]; reflexivity.
Qed.

End DerivedColumns.

(** X9.  In a row prepared from an ascending sequence, [sales_rolling_3] is
    the mean of the sales of the row's own day and the two days before, so
    it contains the target of that row.  [sales_trend] is never missing: it
    is [today / three-days-ago - 1] when the earlier sales are nonzero, 0
    when both are zero, and an infinity when only the earlier sales are
    zero. *)
Theorem prepared_row_rolling_and_trend :
  forall (S : list FeatureEngineering.DailyRecord) (j : nat)
         (r p1 p2 p3 : FeatureEngineering.DailyRecord),
    ascending S ->
    nth_error S (3 + j) = Some r ->
    nth_error S (2 + j) = Some p1 ->
    nth_error S (1 + j) = Some p2 ->
    nth_error S j = Some p3 ->
    exists row trend,
      nth_error (TrainLightgbm.load_and_prepare_data S) j = Some row
      /\ Dict.lookup row "total_sales"
         = Some (Frame.Num (FeatureEngineering.total_sales r))
      /\ Dict.lookup row "sales_rolling_3"
         = Some (Frame.Num ((FeatureEngineering.total_sales p2
                             + FeatureEngineering.total_sales p1
                             + FeatureEngineering.total_sales r) / 3))
      /\ Dict.lookup row "sales_trend" = Some trend
      /\ trend <> Frame.NaN
      /\ (FeatureEngineering.total_sales p3 <> 0 ->
          trend = Frame.Num (FeatureEngineering.total_sales r
                             / FeatureEngineering.total_sales p3 - 1))
      /\ (FeatureEngineering.total_sales p3 = 0 ->
          FeatureEngineering.total_sales r = 0 -> trend = Frame.Num 0)
      /\ (FeatureEngineering.total_sales p3 = 0 ->
          FeatureEngineering.total_sales r <> 0 ->
          exists positive, trend = Frame.Inf positive).
Proof.
  intros S j r p1 p2 p3 Hasc Hr H1 H2 H3.
  unfold TrainLightgbm.load_and_prepare_data.
  eexists. eexists. split; [apply prepare_nth; eassumption|].
  cbn [Nat.add] in Hr, H1, H2.
  split; [reflexivity|]. split.
  { change (Dict.lookup (FeatureEngineering.engineered_row S (3 + j) r)
              "sales_rolling_3")
      with (Some (Frame.Num (Frame.rolling_mean_at 3
                    (map FeatureEngineering.total_sales S) (3 + j)))).
    f_equal. f_equal. unfold Frame.rolling_mean_at.
    replace (Datatypes.S (3 + j) - 3)%nat with (Datatypes.S j) by lia.
    cbn [Nat.add].
    rewrite (window_of_three (Datatypes.S j) _
               (FeatureEngineering.total_sales p2)
               (FeatureEngineering.total_sales p1)
               (FeatureEngineering.total_sales r)).
    - apply mean_of_three.
    - now rewrite nth_error_map, H2.
    - now rewrite nth_error_map, H1.
    - now rewrite nth_error_map, Hr. }
  split.
  { change (Dict.lookup (FeatureEngineering.engineered_row S (3 + j) r)
              "sales_trend")
      with (Some (Frame.fillna 0 (Frame.pct_change_at 3
                    (map FeatureEngineering.total_sales S) (3 + j)))).
    rewrite (pct_change_cases _ (3 + j) (FeatureEngineering.total_sales p3)
               (FeatureEngineering.total_sales r));
      [reflexivity|lia| |].
    - replace (3 + j - 3)%nat with j by lia. now rewrite nth_error_map, H3.
    - cbn [Nat.add]. now rewrite nth_error_map, Hr. }
  destruct (Req_dec_T (FeatureEngineering.total_sales p3) 0) as [E3|N3];
    [destruct (Req_dec_T (FeatureEngineering.total_sales r) 0) as [E0|N0]|];
    repeat split; intros; try discriminate; try contradiction; eauto.
Qed.

Lemma prepared_row_witness :
  exists row trend,
    nth_error (TrainLightgbm.load_and_prepare_data five_days) 0 = Some row
    /\ Dict.lookup row "sales_trend" = Some trend
    /\ trend <> Frame.NaN.
Proof.
  destruct (prepared_row_rolling_and_trend five_days 0 _ _ _ _
              five_days_ascending eq_refl eq_refl eq_refl eq_refl)
    as (row & trend & H1 & _ & _ & H2 & H3 & _).
  exists row, trend. auto.
Defined.

(** ** The forecasts of [generate_predictions] *)

Section DailyForecast.
Import Calendar Frame NextDays.

Lemma weekday_shift d k :
  weekday (d + k) = ((d mod 7 + (k + 6)) mod 7)%Z.
Proof.
  unfold weekday. rewrite Z.add_mod_idemp_l by lia. f_equal. lia.
Qed.

(** Any seven consecutive days hold exactly one Saturday and one Sunday. *)
Lemma week_has_two_weekend_days d0 :
  length (filter is_medium
            (map (fun i => confidence_of (d0 + Z.of_nat i)) (seq 1 7))) = 2%nat.
Proof.
  cbn [seq map]. unfold confidence_of. rewrite !weekday_shift.
  assert (H : (0 <= d0 mod 7 < 7)%Z) by (apply Z.mod_pos_bound; lia).
  assert (Hc : (d0 mod 7 = 0 \/ d0 mod 7 = 1 \/ d0 mod 7 = 2 \/ d0 mod 7 = 3
                \/ d0 mod 7 = 4 \/ d0 mod 7 = 5 \/ d0 mod 7 = 6)%Z) by lia.
  destruct Hc as [-> |[-> |[-> |[-> |[-> |[-> | ->]]]]]]; reflexivity.
Qed.

Lemma date_features_mem d c :
  Dict.mem (date_features d) c
  = if in_dec string_dec c ["day_of_week"; "day_of_month"; "month"; "is_weekend"]%string
    then true else false.
Proof.
  unfold date_features. cbn [Dict.mem].
  destruct (in_dec string_dec c _) as [H|H]; cbn [In] in H.
  - destruct H as [<-|[<-|[<-|[<-|[]]]]];
      repeat (match goal with |- context [string_dec ?a ?b] =>
                destruct (string_dec a b); try congruence end).
  - repeat (match goal with |- context [string_dec ?a ?b] =>
              destruct (string_dec a b); [exfalso; apply H; subst; tauto|] end).
    reflexivity.
Qed.

End DailyForecast.

Section DailyForecastFacts.
Import Calendar Frame NextDays.

Lemma generate_predictions_inv model df cols n preds :
  DailyPredictions.generate_predictions model df cols n = Some preds ->
  exists last_row steps,
    Numeric.iloc_neg 1 df = Some last_row
    /\ collected model last_row cols (seq 1 n) steps
    /\ preds = map (fun s : Z * row * R =>
                      {| DailyPredictions.date := fst (fst s);
                         DailyPredictions.day_name := day_name_of (fst (fst s));
                         DailyPredictions.predicted_sales := snd s;
                         DailyPredictions.confidence_level :=
                           confidence_of (fst (fst s)) |}) steps.
Proof.
  unfold DailyPredictions.generate_predictions. intros H.
  destruct (run model df cols n) as [steps|] eqn:Hrun; [|discriminate].
  cbn [Raise.bind] in H. injection H as <-.
  destruct (Numeric.iloc_neg 1 df) as [last_row|] eqn:Hl.
  - exists last_row, steps. split; [reflexivity|].
    split; [now apply (run_collected model last_row cols df)|].
    apply map_ext. intros [[d f] p]. reflexivity.
  - unfold run in Hrun. rewrite Hl in Hrun. discriminate.
Qed.

(** The inputs the backend sees when no requested column is a calendar one. *)
Lemma select_without_calendar last_row cols d :
  (forall c, In c cols -> ~ In c calendar_features) ->
  select (fill_from_last_row last_row cols (date_features d)) cols
  = map (fun c => Dict.get last_row c (Num 0)) cols.
Proof.
  intros H. unfold select. apply map_ext_in. intros c Hc.
  unfold Dict.get at 1. rewrite (fill_new last_row cols _ c Hc); [reflexivity|].
  rewrite date_features_mem.
  destruct (in_dec string_dec c _) as [Hin|]; [|reflexivity].
  exfalso. exact (H c Hc Hin).
Qed.

End DailyForecastFacts.

(** X10.  A seven-day forecast of [generate_predictions] carries the label
    'medium' on exactly two of its points (the Saturday and the Sunday) and
    'high' on the other five, whatever the last observed day. *)
Theorem seven_day_forecast_confidence :
  forall (model : NextDays.Model) (df : list Frame.row)
         (feature_cols : list string) (preds : list DailyPredictions.Prediction),
    DailyPredictions.generate_predictions model df feature_cols 7 = Some preds ->
    length (filter is_medium (map DailyPredictions.confidence_level preds)) = 2%nat
    /\ length (filter (fun c => negb (is_medium c))
                 (map DailyPredictions.confidence_level preds)) = 5%nat
    /\ forall p, In p preds ->
         (DailyPredictions.confidence_level p = DailyPredictions.medium
          <-> (5 <= Calendar.weekday (DailyPredictions.date p))%Z).
Proof.
  intros model df cols preds H.
  destruct (generate_predictions_inv _ _ _ _ _ H) as (last_row & steps & Hl & Hc & ->).
  destruct (collected_nth _ _ _ _ _ Hc) as [Hlen _].
  rewrite length_seq in Hlen.
  assert (Hconf : exists d0,
            map DailyPredictions.confidence_level
              (map (fun s : Z * Frame.row * R =>
                      {| DailyPredictions.date := fst (fst s);
                         DailyPredictions.day_name := Calendar.day_name_of (fst (fst s));
                         DailyPredictions.predicted_sales := snd s;
                         DailyPredictions.confidence_level :=
                           confidence_of (fst (fst s)) |}) steps)
            = map (fun i => confidence_of (d0 + Z.of_nat i)) (seq 1 7)).
  { destruct steps as [|s0 steps']; [discriminate|].
    inversion Hc as [|i s done acc Hs HF]; subst.
    destruct s0 as [[d f] p]. apply step_inv in Hs.
    destruct Hs as (d0 & Hd0 & _). exists d0.
    destruct (collected_components _ _ _ _ _ _ Hc Hd0) as [Hdates _].
    rewrite map_map. cbn [DailyPredictions.confidence_level].
    rewrite <- (map_map (fun s : Z * Frame.row * R => fst (fst s)) confidence_of).
    rewrite Hdates, map_map. reflexivity. }
  destruct Hconf as [d0 Hconf]. split; [|split].
  - rewrite Hconf. apply week_has_two_weekend_days.
  - pose proof (week_has_two_weekend_days d0) as H2.
    rewrite <- Hconf in H2.
    pose proof (filter_length is_medium
                  (map DailyPredictions.confidence_level
                     (map (fun s : Z * Frame.row * R =>
                      {| DailyPredictions.date := fst (fst s);
                         DailyPredictions.day_name := Calendar.day_name_of (fst (fst s));
                         DailyPredictions.predicted_sales := snd s;
                         DailyPredictions.confidence_level :=
                           confidence_of (fst (fst s)) |}) steps))) as Hf.
    rewrite !length_map in Hf. lia.
  - intros p Hp. apply in_map_iff in Hp. destruct Hp as (s & <- & _).
    cbn [DailyPredictions.confidence_level DailyPredictions.date].
    unfold confidence_of. destruct (Z.ltb_spec (Calendar.weekday (fst (fst s))) 5).
    + split; [discriminate|lia].
    + split; [lia|reflexivity].
Qed.

Lemma seven_day_forecast_witness :
  exists preds,
    DailyPredictions.generate_predictions (fun _ => Some 250) last_row_frame
      ["sales_lag_1"]%string 7 = Some preds
    /\ length (filter is_medium (map DailyPredictions.confidence_level preds)) = 2%nat.
Proof.
  eexists. split; [reflexivity|].
  exact (proj1 (seven_day_forecast_confidence (fun _ => Some 250) last_row_frame
                  ["sales_lag_1"%string] _ eq_refl)).
Defined.

(** X11.  When none of the requested features is one of the four calendar
    features, [generate_predictions] feeds the backend the same inputs at
    every step (the last row's values), so all forecast points carry the
    same predicted value. *)
Theorem forecast_is_flat_without_calendar_features :
  forall (model : NextDays.Model) (df : list Frame.row)
         (feature_cols : list string) (n_days : nat)
         (preds : list DailyPredictions.Prediction),
    (forall c, In c feature_cols -> ~ In c calendar_features) ->
    DailyPredictions.generate_predictions model df feature_cols n_days = Some preds ->
    exists last_row,
      Numeric.iloc_neg 1 df = Some last_row
      /\ forall p, In p preds ->
           model (map (fun c => Dict.get last_row c (Frame.Num 0)) feature_cols)
           = Some (DailyPredictions.predicted_sales p).
Proof.
  intros model df cols n preds Hcal H.
  destruct (generate_predictions_inv _ _ _ _ _ H) as (last_row & steps & Hl & Hc & ->).
  exists last_row. split; [exact Hl|].
  intros p Hp. apply in_map_iff in Hp. destruct Hp as ([[d f] q] & <- & Hin).
  cbn [DailyPredictions.predicted_sales snd].
  destruct (collected_In _ _ _ _ _ Hc _ Hin) as (i & _ & Hstep).
  apply step_inv in Hstep. destruct Hstep as (d0 & _ & _ & -> & Hm).
  now rewrite select_without_calendar in Hm.
Qed.

Lemma forecast_is_flat_witness :
  exists last_row,
    Numeric.iloc_neg 1 last_row_frame = Some last_row
    /\ forall p,
         In p [ {| DailyPredictions.date := 738892;
                   DailyPredictions.day_name := Calendar.Sunday;
                   DailyPredictions.predicted_sales := 90 + 10;
                   DailyPredictions.confidence_level := DailyPredictions.medium |} ] ->
         (fun X => match X with [Frame.Num x] => Some (x + 10) | _ => None end)
           (map (fun c => Dict.get last_row c (Frame.Num 0)) ["sales_lag_1"]%string)
         = Some (DailyPredictions.predicted_sales p).
Proof.
  apply (forecast_is_flat_without_calendar_features
           (fun X => match X with [Frame.Num x] => Some (x + 10) | _ => None end)
           last_row_frame ["sales_lag_1"]%string 1).
  - intros c [<-|[]]. cbn. intuition discriminate.
  - reflexivity.
Defined.

(** ** The regression forecaster of [Dataset-creat/train_model.py] *)

Section RegressionForecast.
Import Numeric TrainModel.

Lemma mem_set {V} (d : Dict.dict V) k v c :
  Dict.mem (Dict.set d k v) c = if string_dec c k then true else Dict.mem d c.
Proof.
  induction d as [|[k' v'] d IH]; cbn [Dict.set Dict.mem].
  - reflexivity.
  - destruct (string_dec k k') as [<-|N]; cbn [Dict.mem].
    + destruct (string_dec c k); reflexivity.
    + rewrite IH. destruct (string_dec c k'), (string_dec c k); reflexivity.
Qed.

Lemma mem_add_if b k v (row : Dict.dict R) c :
  Dict.mem (add_if b k v row) c
  = if string_dec c k then b || Dict.mem row c else Dict.mem row c.
Proof.
  unfold add_if. destruct b; [rewrite mem_set|];
    destruct (string_dec c k); reflexivity.
Qed.

(** The keys of the row built for a date: the two calendar names, and each
    of the four history names that the artifact lists. *)
Lemma build_row_mem cols h d c :
  In c cols ->
  Dict.mem (build_row cols h d) c
  = if in_dec string_dec c regression_features then true else false.
Proof.
  intros Hin. unfold build_row. rewrite !mem_add_if. cbn [Dict.mem].
  unfold has.
  destruct (in_dec string_dec c regression_features) as [Hk|Hk].
  - cbn in Hk.
    destruct Hk as [<-|[<-|[<-|[<-|[<-|[<-|[]]]]]]];
      repeat match goal with
             | |- context [in_dec string_dec ?a cols] =>
                 destruct (in_dec string_dec a cols); try contradiction
             end;
      reflexivity.
  - repeat match goal with
           | |- context [string_dec c ?a] =>
               destruct (string_dec c a) as [->|];
               [exfalso; apply Hk; cbn; tauto|]
           end.
    reflexivity.
Qed.

Lemma select_total (row : Dict.dict R) cols :
  (forall c, In c cols -> Dict.mem row c = true) ->
  exists X, select row cols = Some X /\ length X = length cols.
Proof.
  induction cols as [|c cols IH]; intros H; cbn [select].
  - exists []. split; reflexivity.
  - destruct (mem_true_lookup row c (H c (or_introl eq_refl))) as [v ->].
    destruct IH as (X & -> & HX); [intros c' Hc'; apply H; now right|].
    cbn [Raise.bind]. exists (v :: X). split; [reflexivity|]. cbn. lia.
Qed.

Lemma select_key_error (row : Dict.dict R) cols c :
  In c cols -> Dict.mem row c = false -> select row cols = None.
Proof.
  intros Hin Hm. apply mem_lookup in Hm.
  induction cols as [|c' cols IH]; [contradiction|]. cbn [select].
  destruct Hin as [->|Hin]; [now rewrite Hm|].
  destruct (Dict.lookup row c'); [|reflexivity]. cbn [Raise.bind].
  now rewrite (IH Hin).
Qed.

Lemma for_each_app {A S} (body : A -> S -> option S) xs ys s :
  Raise.for_each (xs ++ ys) body s
  = Raise.bind (Raise.for_each xs body s) (Raise.for_each ys body).
Proof.
  revert s. induction xs as [|x xs IH]; intros s; cbn [app Raise.for_each].
  - reflexivity.
  - destruct (body x s) as [s'|]; cbn [Raise.bind]; [apply IH|reflexivity].
Qed.

(** The loop reads only the buffer: started with other accumulators it
    makes the same steps and appends the same values. *)
Lemma loop_from_buffer reg ds : forall st st' fv b,
  Raise.for_each ds (loop_body reg) st = Some st' ->
  exists fv' b',
    Raise.for_each ds (loop_body reg)
      {| history_df := history_df st; forecast_values := fv; built := b |}
    = Some {| history_df := history_df st';
              forecast_values := fv ++ fv'; built := b ++ b' |}
    /\ forecast_values st' = forecast_values st ++ fv'
    /\ built st' = built st ++ b'.
Proof.
  induction ds as [|d ds IH]; intros st st' fv b H; cbn [Raise.for_each] in *.
  - injection H as <-. exists [], []. now rewrite !app_nil_r.
  - unfold loop_body at 1 in H. unfold loop_body at 1.
    cbn [history_df].
    destruct (select _ _) as [X|]; [|discriminate]. cbn [Raise.bind] in *.
    destruct (predict reg X) as [p|]; [|discriminate]. cbn [Raise.bind] in *.
    destruct (IH _ _ (fv ++ [p])
                (b ++ [build_row (features reg) (history_df st) d]) H)
      as (fv' & b' & Hrun & Hfv & Hb).
    cbn [history_df forecast_values built] in *.
    exists (p :: fv'), (build_row (features reg) (history_df st) d :: b').
    rewrite Hrun, Hfv, Hb, <- !app_assoc. cbn [app]. auto.
Qed.

Lemma map_seq_from {A} (f : nat -> A) s k :
  map f (seq s k) = map (fun j => f (s + j)%nat) (seq 0 k).
Proof.
  revert s. induction k as [|k IH]; intros s; [reflexivity|].
  cbn [seq map]. rewrite Nat.add_0_r. f_equal.
  rewrite IH, <- (seq_shift k 0), map_map. apply map_ext. intros j. f_equal. lia.
Qed.

Lemma fold_max_consecutive (m : Z) : forall h s a,
  (a <= m + Z.of_nat s)%Z ->
  fold_left Z.max (map (fun k => (m + 1 + Z.of_nat k)%Z) (seq s h)) a
  = if (h =? 0)%nat then a else (m + Z.of_nat s + Z.of_nat h)%Z.
Proof.
  induction h as [|h IH]; intros s a Ha; [reflexivity|].
  cbn [seq map fold_left]. rewrite IH by lia.
  cbn [Nat.eqb]. destruct (h =? 0)%nat eqn:E.
  - apply Nat.eqb_eq in E. subst h. lia.
  - lia.
Qed.

Lemma index_max_extended df m h (values : list R) :
  index_max df = Some m -> length values = h ->
  index_max (df ++ combine (map (fun k => (m + 1 + Z.of_nat k)%Z) (seq 0 h)) values)
  = Some (m + Z.of_nat h)%Z.
Proof.
  intros Hm Hlen. destruct df as [|r df]; [discriminate|].
  cbn [index_max app] in *. injection Hm as Hm. f_equal.
  rewrite map_app, fold_left_app, Hm.
  rewrite map_fst_combine by (now rewrite length_map, length_seq).
  rewrite fold_max_consecutive by lia.
  destruct (h =? 0)%nat eqn:E; [apply Nat.eqb_eq in E|]; lia.
Qed.

End RegressionForecast.

(** X12.  [train_model.forecast_next_days] with an artifact whose feature
    list holds a name outside the six that [train_regression] knows raises
    ([KeyError] at [pd.DataFrame([row])[feature_cols]]) as soon as one day
    is requested, whatever the history and the model. *)
Theorem unknown_feature_name_raises :
  forall (reg : TrainModel.Regression) (df : TrainModel.History) (days : nat)
         (c : string),
    In c (TrainModel.features reg) ->
    ~ In c regression_features ->
    (0 < days)%nat ->
    TrainModel.forecast_next_days reg df days = None.
Proof.
  intros reg df days c Hin Hk Hd.
  unfold TrainModel.forecast_next_days, TrainModel.forecast_state,
    TrainModel.future_dates.
  destruct (TrainModel.index_max df) as [m|]; [|reflexivity].
  cbn [Raise.bind]. destruct days as [|days]; [lia|].
  cbn [seq map Raise.for_each]. unfold TrainModel.loop_body at 1.
  cbn [TrainModel.history_df].
  rewrite (select_key_error _ _ c Hin); [reflexivity|].
  rewrite build_row_mem by exact Hin.
  destruct (in_dec string_dec c regression_features); [contradiction|reflexivity].
Qed.

Lemma unknown_feature_name_witness :
  TrainModel.forecast_next_days
    {| TrainModel.predict := fun _ => Some 0;
       TrainModel.features := ["lag_1_sales"; "sales_lag_1"]%string |}
    [(738886%Z, 100)] 1 = None.
Proof.
  apply (unknown_feature_name_raises _ _ _ "sales_lag_1"%string).
  - cbn. tauto.
  - cbn. intuition discriminate.
  - lia.
Defined.

(** X13.  With a non-empty history, feature names among the six known ones
    and a model that answers every input of the right width,
    [train_model.forecast_next_days] returns exactly [days] rows, dated by
    the consecutive days after the latest date of the history. *)
Theorem regression_forecast_returns :
  forall (reg : TrainModel.Regression) (df : TrainModel.History) (days : nat),
    df <> [] ->
    (forall c, In c (TrainModel.features reg) -> In c regression_features) ->
    (forall X, length X = length (TrainModel.features reg) ->
               TrainModel.predict reg X <> None) ->
    exists m rows,
      TrainModel.index_max df = Some m
      /\ (forall r, In r df -> (fst r <= m)%Z)
      /\ TrainModel.forecast_next_days reg df days = Some rows
      /\ map fst rows = map (fun k => (m + 1 + Z.of_nat k)%Z) (seq 0 days).
Proof.
  intros reg df days Hne Hknown Hpred.
  destruct df as [|r0 df]; [contradiction|].
  set (h := r0 :: df) in *.
  assert (Hm : exists m, TrainModel.index_max h = Some m
                         /\ forall r, In r h -> (fst r <= m)%Z).
  { eexists. split; [reflexivity|]. subst h.
    assert (G : forall l a, (a <= fold_left Z.max l a)%Z
                /\ forall x, In x l -> (x <= fold_left Z.max l a)%Z).
    { induction l as [|x l IH]; intros a; cbn [fold_left].
      - split; [lia|contradiction].
      - destruct (IH (Z.max a x)) as [H1 H2]. split; [lia|].
        intros y [<-|Hy]; [lia|now apply H2]. }
    destruct (G (map fst df) (fst r0)) as [G1 G2].
    intros r [<-|Hr]; [exact G1|]. apply G2. now apply in_map. }
  destruct Hm as (m & Hm & Hmax). exists m.
  unfold TrainModel.forecast_next_days, TrainModel.forecast_state,
    TrainModel.future_dates.
  rewrite Hm. cbn [Raise.bind].
  set (ds := map (fun k => (m + 1 + Z.of_nat k)%Z) (seq 0 days)).
  destruct (for_each_total (TrainModel.loop_body reg) ds) with
    (s := {| TrainModel.history_df := h; TrainModel.forecast_values := [];
             TrainModel.built := [] |}) as [st Hst].
  { intros d st _. unfold TrainModel.loop_body.
    destruct (select_total (TrainModel.build_row (TrainModel.features reg)
                              (TrainModel.history_df st) d)
                (TrainModel.features reg)) as (X & -> & HX).
    - intros c Hc. rewrite build_row_mem by exact Hc.
      destruct (in_dec string_dec c regression_features) as [|N];
        [reflexivity|]. exfalso. apply N. now apply Hknown.
    - cbn [Raise.bind].
      destruct (TrainModel.predict reg X) eqn:E; [discriminate|].
      exfalso. exact (Hpred X HX E). }
  rewrite Hst. cbn [Raise.bind]. eexists. split; [reflexivity|].
  split; [exact Hmax|]. split; [reflexivity|].
  assert (Hb : TrainModel.forecast_state reg h days = Some st).
  { unfold TrainModel.forecast_state, TrainModel.future_dates.
    rewrite Hm. exact Hst. }
  destruct (forecast_state_buffered _ _ _ _ Hb) as (ds' & Hds & Hlen & Hbuf & _).
  unfold TrainModel.future_dates in Hds. rewrite Hm in Hds.
  cbn [Raise.bind] in Hds. injection Hds as <-.
  apply map_fst_combine. symmetry. exact Hbuf.
Qed.

Lemma regression_forecast_witness :
  exists m rows,
    TrainModel.index_max [(738886%Z, 100)] = Some m
    /\ (forall r, In r [(738886%Z, 100)] -> (fst r <= m)%Z)
    /\ TrainModel.forecast_next_days lag_plus_10 [(738886%Z, 100)] 3 = Some rows
    /\ map fst rows = map (fun k => (m + 1 + Z.of_nat k)%Z) (seq 0 3).
Proof.
  apply (regression_forecast_returns lag_plus_10 [(738886%Z, 100)] 3).
  - discriminate.
  - intros c [<-|[]]. cbn. tauto.
  - intros [|x [|y X]] HX; cbn in HX; discriminate.
Defined.

(** X14.  The recursive forecast of [train_model.forecast_next_days] treats
    its own predictions like observed history: forecasting [h] days,
    appending the forecast rows to the history and forecasting [k] more days
    gives the same rows as forecasting [h + k] days at once. *)
Theorem regression_forecast_composes :
  forall (reg : TrainModel.Regression) (df : TrainModel.History) (h k : nat)
         (rows_h rows_k : list (Z * R)),
    TrainModel.forecast_next_days reg df h = Some rows_h ->
    TrainModel.forecast_next_days reg (df ++ rows_h) k = Some rows_k ->
    TrainModel.forecast_next_days reg df (h + k) = Some (rows_h ++ rows_k).
Proof.
  intros reg df h k rows_h rows_k Hh Hk.
  unfold TrainModel.forecast_next_days in Hh.
  destruct (TrainModel.future_dates df h) as [ds_h|] eqn:Hdh; [|discriminate].
  cbn [Raise.bind] in Hh.
  destruct (TrainModel.forecast_state reg df h) as [st_h|] eqn:Hsh;
    [|discriminate].
  cbn [Raise.bind] in Hh. injection Hh as <-.
  destruct (forecast_state_buffered _ _ _ _ Hsh)
    as (ds & Hds & Hlen & Hfl & Hhist & _).
  rewrite Hdh in Hds. injection Hds as <-.
  unfold TrainModel.future_dates in Hdh.
  destruct (TrainModel.index_max df) as [m|] eqn:Hm; [|discriminate].
  cbn [Raise.bind] in Hdh. injection Hdh as <-.
  unfold buffer in Hhist.
  rewrite firstn_all2 in Hhist by (rewrite length_combine; lia).
  (* the second call *)
  unfold TrainModel.forecast_next_days, TrainModel.forecast_state,
    TrainModel.future_dates in Hk.
  rewrite (index_max_extended df m h _ Hm) in Hk
    by (rewrite length_map, length_seq in Hfl; lia).
  cbn [Raise.bind] in Hk.
  set (ds_h := map (fun k => (m + 1 + Z.of_nat k)%Z) (seq 0 h)) in *.
  set (ds_k := map (fun j => (m + Z.of_nat h + 1 + Z.of_nat j)%Z) (seq 0 k)) in *.
  destruct (Raise.for_each ds_k (TrainModel.loop_body reg) _) as [st_k|] eqn:Hsk;
    [|discriminate].
  cbn [Raise.bind] in Hk. injection Hk as <-.
  (* the dates of the long run *)
  assert (Hdates : map (fun j => (m + 1 + Z.of_nat j)%Z) (seq 0 (h + k))
                   = ds_h ++ ds_k).
  { rewrite seq_app, map_app. f_equal. cbn [Nat.add]. subst ds_k.
    rewrite (map_seq_from _ h k). apply map_ext. intros j. lia. }
  unfold TrainModel.forecast_next_days, TrainModel.forecast_state,
    TrainModel.future_dates.
  rewrite Hm. cbn [Raise.bind]. rewrite Hdates, for_each_app.
  unfold TrainModel.forecast_state, TrainModel.future_dates in Hsh.
  rewrite Hm in Hsh. cbn [Raise.bind] in Hsh. fold ds_h in Hsh.
  rewrite Hsh. cbn [Raise.bind].
  destruct (loop_from_buffer reg ds_k _ _ (TrainModel.forecast_values st_h)
              (TrainModel.built st_h) Hsk) as (fv' & b' & Hrun & Hfv & _).
  cbn [TrainModel.history_df TrainModel.forecast_values] in Hrun, Hfv.
  rewrite <- Hhist in Hrun.
  replace {| TrainModel.history_df := TrainModel.history_df st_h;
             TrainModel.forecast_values := TrainModel.forecast_values st_h;
             TrainModel.built := TrainModel.built st_h |} with st_h in Hrun
    by (now destruct st_h).
  rewrite Hrun. cbn [Raise.bind TrainModel.forecast_values]. f_equal.
  rewrite Hfv. cbn [app]. apply combine_app. exact (eq_sym Hfl).
Qed.

Lemma regression_forecast_composes_witness :
  TrainModel.forecast_next_days lag_plus_10 [(738886%Z, 100)] (1 + 2)
  = Some ([(738887%Z, 100 + 10)]
          ++ [(738888%Z, 100 + 10 + 10); (738889%Z, 100 + 10 + 10 + 10)]).
Proof.
  apply (regression_forecast_composes lag_plus_10 [(738886%Z, 100)] 1 2);
    reflexivity.
Defined.

(** ** The dataset written by [Dataset-creat/pipeline_json.py] *)

Section PipelineFrame.
Import Frame PipelineJson.

Lemma engineer_features_nth (M : list MasterRow) i r :
  nth_error M i = Some r ->
  nth_error (engineer_features M) i
  = Some ([ ("day", Stamp (day r));
            ("total_sales", Num (total_sales r));
            ("total_expenses", Num (total_expenses r));
            ("inventory_usage_qty", Num (inventory_usage_qty r)) ]%string
          ++ added_columns M i r).
Proof.
  intros H. unfold engineer_features. rewrite nth_error_map.
  assert (Hi : (i < length M)%nat) by (apply nth_error_Some; congruence).
  rewrite (nth_error_combine _ _ i i r); [reflexivity| |exact H].
  rewrite nth_error_nth' with (d := 0%nat) by (now rewrite length_seq).
  now rewrite seq_nth.
Qed.

Lemma filled_shift k xs i :
  fillna 0 (shift_at k xs i)
  = Num (if (i <? k)%nat then 0 else nth (i - k) xs 0).
Proof.
  unfold shift_at. destruct (i <? k)%nat; [reflexivity|].
  destruct (nth_error xs (i - k)) as [v|] eqn:E; cbn [fillna].
  - now rewrite (nth_error_nth _ _ _ E).
  - apply nth_error_None in E. now rewrite nth_overflow.
Qed.

End PipelineFrame.

(** X15.  [pipeline_json.engineer_features] keeps every row and leaves no
    value missing, so a later [dropna] removes nothing: the lags of the
    first days are written as 0 ([lag_1_sales] on the first day,
    [lag_7_sales] on the first seven) and are the sales of one and seven
    rows earlier afterwards. *)
Theorem pipeline_frame_has_no_missing_value :
  forall (M : list PipelineJson.MasterRow),
    length (PipelineJson.engineer_features M) = length M
    /\ Frame.dropna (PipelineJson.engineer_features M)
       = PipelineJson.engineer_features M
    /\ forall i r,
         nth_error M i = Some r ->
         exists row,
           nth_error (PipelineJson.engineer_features M) i = Some row
           /\ Dict.lookup row "lag_1_sales"
              = Some (Frame.Num
                        (if (i <? 1)%nat then 0
                         else nth (i - 1) (map PipelineJson.total_sales M) 0))
           /\ Dict.lookup row "lag_7_sales"
              = Some (Frame.Num
                        (if (i <? 7)%nat then 0
                         else nth (i - 7) (map PipelineJson.total_sales M) 0)).
Proof.
  intros M. split; [|split].
  - unfold PipelineJson.engineer_features.
    now rewrite length_map, length_combine, length_seq, Nat.min_id.
  - unfold Frame.dropna. apply filter_all. intros row Hrow.
    unfold PipelineJson.engineer_features in Hrow. apply in_map_iff in Hrow.
    destruct Hrow as ([i r] & <- & _).
    unfold PipelineJson.added_columns.
    cbn [app map snd fst existsb Frame.isna orb].
    now rewrite !isna_fillna.
  - intros i r H. eexists. split; [exact (engineer_features_nth M i r H)|].
    unfold PipelineJson.added_columns. rewrite <- !filled_shift.
    split; reflexivity.
Qed.

Lemma pipeline_frame_witness :
  exists row,
    nth_error (PipelineJson.engineer_features pipeline_week) 3 = Some row
    /\ Dict.lookup row "lag_1_sales"
       = Some (Frame.Num
                 (if (3 <? 1)%nat then 0
                  else nth (3 - 1) (map PipelineJson.total_sales pipeline_week) 0))
    /\ Dict.lookup row "lag_7_sales"
       = Some (Frame.Num
                 (if (3 <? 7)%nat then 0
                  else nth (3 - 7) (map PipelineJson.total_sales pipeline_week) 0)).
Proof.
  apply (proj2 (proj2 (pipeline_frame_has_no_missing_value pipeline_week)) 3%nat
           {| PipelineJson.day := 738886 + Z.of_nat 3;
              PipelineJson.total_sales := 500;
              PipelineJson.total_expenses := 100;
              PipelineJson.inventory_usage_qty := 3 |}).
  reflexivity.
Defined.

(** X16.  Seven columns that the pipeline writes into the dataset
    ([rolling_7d_sales_avg], [rolling_30d_sales_avg], [inventory_burn_rate],
    the two growth rates, [lag_1_sales], [lag_7_sales]) are not among the
    columns [train_lightgbm_model] excludes, so on such a dataset they
    become features of the model; [forecast_with_lightgbm] builds none of
    them and feeds each as 0. *)
Theorem pipeline_features_are_fed_as_zero :
  forall (M : list PipelineJson.MasterRow) (written : Frame.row) (c : string),
    In written (PipelineJson.engineer_features M) ->
    In c pipeline_features ->
    Dict.mem written c = true
    /\ ~ In c engineered_features
    /\ (forall frame : list Frame.row,
          In c (TrainLightgbmModel.columns frame) ->
          In c (TrainLightgbmModel.feature_cols frame "total_sales"))
    /\ forall (df : list PredictCustom.SalesRow) (hm : R) (i : nat)
              (preds : list R) (d : Z),
         Dict.lookup (PredictCustom.feature_values df hm i preds d) c = None
         /\ PredictCustom.feature_array
              (PredictCustom.feature_values df hm i preds d) [c] = [0].
Proof.
  intros M written c Hw Hc.
  unfold PipelineJson.engineer_features in Hw. apply in_map_iff in Hw.
  destruct Hw as ([i r] & <- & _).
  unfold pipeline_features in Hc. cbn [In] in Hc.
  assert (Hnone : forall df hm k preds d,
            Dict.lookup (PredictCustom.feature_values df hm k preds d) c = None).
  { intros df hm k preds d. unfold PredictCustom.feature_values.
    destruct (0 <? length df)%nat;
      repeat (destruct Hc as [<-|Hc]; [reflexivity|]); destruct Hc. }
  split; [|split; [|split]].
  - repeat (destruct Hc as [<-|Hc]; [reflexivity|]). destruct Hc.
  - repeat (destruct Hc as [<-|Hc];
            [cbn; intuition discriminate|]). destruct Hc.
  - intros frame Hin. unfold TrainLightgbmModel.feature_cols.
    apply filter_In. split; [exact Hin|].
    repeat (destruct Hc as [<-|Hc]; [reflexivity|]). destruct Hc.
  - intros df hm k preds d. split; [apply Hnone|].
    unfold PredictCustom.feature_array, Dict.get. cbn [map].
    now rewrite Hnone.
Qed.

Lemma pipeline_features_witness :
  Dict.lookup
    (PredictCustom.feature_values six_days 1 0 [] 738892) "lag_7_sales" = None
  /\ PredictCustom.feature_array
       (PredictCustom.feature_values six_days 1 0 [] 738892) ["lag_7_sales"%string]
     = [0].
Proof.
  refine (proj2 (proj2 (proj2
            (pipeline_features_are_fed_as_zero pipeline_week _ "lag_7_sales" _ _)))
            six_days 1 0%nat [] 738892%Z).
  - left. reflexivity.
  - cbn. tauto.
Defined.

(** X17.  The weekend flag at training time and at inference time.
    [load_and_prepare_data] and the next-days loop of [generate_predictions]
    and [train_lightgbm.forecast_next_days] set [is_weekend] on Saturday and
    Sunday; [forecast_with_lightgbm] sets it on Friday and Saturday.  So the
    value [forecast_with_lightgbm] feeds the model equals the value the
    model was trained with on every day except Fridays and Sundays, while
    [day_of_week] always agrees. *)
Theorem lightgbm_weekend_flag_differs_on_fridays_and_sundays :
  forall (frame : list FeatureEngineering.DailyRecord) (i : nat)
         (r : FeatureEngineering.DailyRecord)
         (df : list PredictCustom.SalesRow) (hm : R) (k : nat) (preds : list R),
    let d := FeatureEngineering.day r in
    let trained := FeatureEngineering.engineered_row frame i r in
    let served := PredictCustom.feature_values df hm k preds d in
    exists t s,
      Dict.lookup trained "is_weekend" = Some (Frame.Num t)
      /\ Dict.lookup (NextDays.date_features d) "is_weekend" = Some (Frame.Num t)
      /\ Dict.lookup served "is_weekend" = Some s
      /\ (s = t <-> Calendar.weekday d <> 4%Z /\ Calendar.weekday d <> 6%Z)
      /\ Dict.lookup trained "day_of_week"
         = option_map Frame.Num (Dict.lookup served "day_of_week").
Proof.
  intros frame i r df hm k preds d trained served.
  exists (if (5 <=? Calendar.weekday d)%Z then 1 else 0),
         (if ((Calendar.weekday d =? 4) || (Calendar.weekday d =? 5))%Z
          then 1 else 0).
  split; [reflexivity|]. split; [reflexivity|]. split; [reflexivity|].
  split; [|reflexivity].
  assert (Hw : (0 <= Calendar.weekday d < 7)%Z)
    by (unfold Calendar.weekday; apply Z.mod_pos_bound; lia).
  destruct (Z.leb_spec 5 (Calendar.weekday d)),
           (Z.eqb_spec (Calendar.weekday d) 4),
           (Z.eqb_spec (Calendar.weekday d) 5); cbn [orb];
    split; intros H'; try lia; try lra; try reflexivity.
Qed.

(** X18.  The weekend flag of the regression model.  The dataset written by
    the pipeline marks Friday and Saturday; the row that
    [train_model.forecast_next_days] builds marks every day from Friday on,
    Sunday included.  So the flag fed at forecast time equals the flag of
    the dataset on every day except Sundays. *)
Theorem regression_weekend_flag_differs_on_sundays :
  forall (M : list PipelineJson.MasterRow) (i : nat)
         (r : PipelineJson.MasterRow)
         (feature_cols : list string) (history : TrainModel.History),
    let d := PipelineJson.day r in
    exists t s,
      Dict.lookup (PipelineJson.added_columns M i r) "is_weekend"
      = Some (Frame.Num t)
      /\ Dict.lookup (TrainModel.build_row feature_cols history d) "is_weekend"
         = Some s
      /\ (s = t <-> Calendar.weekday d <> 6%Z).
Proof.
  intros M i r cols h d.
  exists (if ((Calendar.weekday d =? 4) || (Calendar.weekday d =? 5))%Z
          then 1 else 0),
         (if (4 <=? Calendar.weekday d)%Z then 1 else 0).
  split; [reflexivity|]. split.
  - unfold TrainModel.build_row.
    destruct (TrainModel.has cols "lag_1_sales"),
             (TrainModel.has cols "lag_7_sales"),
             (TrainModel.has cols "rolling_7d_sales_avg"),
             (TrainModel.has cols "rolling_30d_sales_avg"); reflexivity.
  - assert (Hw : (0 <= Calendar.weekday d < 7)%Z)
      by (unfold Calendar.weekday; apply Z.mod_pos_bound; lia).
    destruct (Z.leb_spec 4 (Calendar.weekday d)),
             (Z.eqb_spec (Calendar.weekday d) 4),
             (Z.eqb_spec (Calendar.weekday d) 5); cbn [orb];
      split; intros H'; try lia; try lra; try reflexivity.
Qed.

(** ** The recommendations of [scripts/predict_custom.py] *)

Section Advice.
Import Numeric PredictCustom PredictCustomReports.

Lemma seasonal_advice_shape patterns :
  (length (seasonal_advice patterns) <= 2)%nat
  /\ ~ In KeepCollecting (seasonal_advice patterns)
  /\ (seasonal_advice patterns = [] <-> patterns = None).
Proof.
  destruct patterns as [p|]; cbn [seasonal_advice].
  - destruct (Rlt_dec 20 (weekend_boost p));
      [|destruct (Rlt_dec (weekend_boost p) (-10))]; cbn;
      (split; [lia|]); (split; [intuition discriminate|]);
      split; discriminate.
  - cbn. split; [lia|]. split; [tauto|]. split; reflexivity.
Qed.

Lemma product_advice_shape products :
  (length (product_advice products) <= 1)%nat
  /\ ~ In KeepCollecting (product_advice products).
Proof.
  unfold product_advice. destruct products as [p|]; [|cbn; split; [lia|tauto]].
  destruct (top_by_quantity p) as [|[n c] r]; cbn;
    (split; [lia|]); intuition discriminate.
Qed.

Lemma trend_advice_shape frame :
  (length (trend_advice frame) <= 1)%nat
  /\ ~ In KeepCollecting (trend_advice frame).
Proof.
  unfold trend_advice.
  repeat match goal with
         | |- context [if ?c then _ else _] => destruct c
         end; cbn; (split; [lia|]); intuition discriminate.
Qed.

Lemma margin_advice_shape frame :
  (length (margin_advice frame) <= 1)%nat
  /\ ~ In KeepCollecting (margin_advice frame).
Proof.
  unfold margin_advice.
  destruct (rows frame), (total_expenses frame);
    repeat match goal with
           | |- context [if ?c then _ else _] => destruct c
           end; cbn; (split; [lia|]); intuition discriminate.
Qed.

(** The mean of the row-wise difference of two columns. *)
Lemma Rsum_difference : forall s e : list R,
  length e = length s ->
  Rsum (map (fun p => fst p - snd p) (combine s e)) = Rsum s - Rsum e.
Proof.
  induction s as [|x s IH]; intros [|y e] H; cbn in *; try discriminate;
    [lra|]. rewrite IH by lia. lra.
Qed.

Lemma mean_difference (s e : list R) :
  length e = length s -> s <> [] ->
  mean (map (fun p => fst p - snd p) (combine s e)) = mean s - mean e.
Proof.
  intros H Hne. unfold mean.
  rewrite length_map, length_combine, H, Nat.min_id, Rsum_difference by exact H.
  assert (INR (length s) <> 0).
  { apply not_0_INR. destruct s; [contradiction|discriminate]. }
  field. assumption.
Qed.

(** The messages of the four rules together. *)
Lemma rules_shape frame patterns products :
  let l := seasonal_advice patterns ++ product_advice products
           ++ trend_advice frame ++ margin_advice frame in
  (length l <= 5)%nat
  /\ ~ In KeepCollecting l
  /\ (l = [] <-> patterns = None
                 /\ product_advice products = []
                 /\ trend_advice frame = []
                 /\ margin_advice frame = []).
Proof.
  destruct (seasonal_advice_shape patterns) as (Ls & Ks & Es).
  destruct (product_advice_shape products) as (Lp & Kp).
  destruct (trend_advice_shape frame) as (Lt & Kt).
  destruct (margin_advice_shape frame) as (Lm & Km).
  cbv zeta. split; [rewrite !length_app; lia|].
  split; [rewrite !in_app_iff; tauto|]. split.
  - intros E. apply app_eq_nil in E. destruct E as [Ea E].
    apply app_eq_nil in E. destruct E as [Eb E].
    apply app_eq_nil in E. destruct E as [Ec Ed].
    split; [now apply Es|tauto].
  - intros (Hp & Hb & Hc & Hd). apply Es in Hp. now rewrite Hp, Hb, Hc, Hd.
Qed.

End Advice.

(** X19.  [generate_recommendations] always returns between one and five
    messages.  The message asking to keep collecting data is returned only
    alone, and exactly when no pattern is given and none of the rules on
    products, trend and margin fires. *)
Theorem recommendations_are_never_empty :
  forall (sales_df : PredictCustomReports.SalesFrame)
         (patterns : option PredictCustom.SeasonalProfile)
         (products : option PredictCustomReports.Products),
    let recs :=
      PredictCustomReports.generate_recommendations sales_df patterns products in
    (1 <= length recs <= 5)%nat
    /\ (In PredictCustomReports.KeepCollecting recs
        <-> recs = [PredictCustomReports.KeepCollecting])
    /\ (recs = [PredictCustomReports.KeepCollecting]
        <-> patterns = None
            /\ PredictCustomReports.product_advice products = []
            /\ PredictCustomReports.trend_advice sales_df = []
            /\ PredictCustomReports.margin_advice sales_df = []).
Proof.
  intros frame patterns products recs. subst recs.
  unfold PredictCustomReports.generate_recommendations.
  destruct (rules_shape frame patterns products) as (Hl & Hk & He).
  cbv zeta in Hl, Hk, He.
  destruct (_ ++ _) as [|x l] eqn:E.
  - cbn. split; [lia|]. split; [tauto|].
    split; [intros _; now apply He|reflexivity].
  - cbn [length] in *. split; [lia|]. split.
    + split; [intros H; contradiction|].
      intros H. rewrite H in Hk. exfalso. apply Hk. now left.
    + split.
      * intros H. rewrite H in Hk. exfalso. apply Hk. now left.
      * intros H. apply He in H. discriminate.
Qed.

(** X20.  The list [generate_recommendations_report] prints for a non-empty
    frame always names the best day of the seasonal analysis of that frame
    and never asks to keep collecting data.  For an empty frame it is the
    product message alone, or the request to keep collecting data. *)
Theorem report_names_the_best_day :
  forall (sales_df : PredictCustomReports.SalesFrame)
         (products : option PredictCustomReports.Products),
    let recs := PredictCustomReports.report_recommendations sales_df products in
    (PredictCustomReports.rows sales_df <> [] ->
       exists prof,
         PredictCustom.analyze_seasonal_patterns
           (PredictCustomReports.rows sales_df) = Some prof
         /\ In (PredictCustomReports.BestDay
                  (fst (PredictCustom.best_day prof))
                  (snd (PredictCustom.best_day prof))) recs
         /\ ~ In PredictCustomReports.KeepCollecting recs)
    /\ (PredictCustomReports.rows sales_df = [] ->
        recs = match PredictCustomReports.product_advice products with
               | [] => [PredictCustomReports.KeepCollecting]
               | advice => advice
               end).
Proof.
  intros frame products recs. subst recs.
  unfold PredictCustomReports.report_recommendations. split.
  - intros Hne.
    destruct (PredictCustom.analyze_seasonal_patterns
                (PredictCustomReports.rows frame)) as [prof|] eqn:E.
    + exists prof. split; [reflexivity|].
      assert (Hin : In (PredictCustomReports.BestDay
                          (fst (PredictCustom.best_day prof))
                          (snd (PredictCustom.best_day prof)))
                       (PredictCustomReports.generate_recommendations frame
                          (Some prof) products)).
      { unfold PredictCustomReports.generate_recommendations.
        set (l := _ ++ _).
        assert (Hl : In (PredictCustomReports.BestDay
                           (fst (PredictCustom.best_day prof))
                           (snd (PredictCustom.best_day prof))) l).
        { subst l. apply in_or_app. left.
          cbn [PredictCustomReports.seasonal_advice].
          apply in_or_app. right. now left. }
        destruct l; [destruct Hl|exact Hl]. }
      split; [exact Hin|].
      destruct (rules_shape frame (Some prof) products) as (_ & Hk & _).
      cbv zeta in Hk. unfold PredictCustomReports.generate_recommendations in *.
      destruct (_ ++ _); [destruct Hin as [Hd|[]]; discriminate|exact Hk].
    + exfalso. unfold PredictCustom.analyze_seasonal_patterns in E.
      pose proof (weekly_avg_nonempty _ Hne) as Hw.
      destruct (PredictCustomReports.rows frame); [contradiction|].
      destruct (PredictCustom.weekly_avg _); [contradiction|discriminate].
  - intros Hempty.
    unfold PredictCustomReports.generate_recommendations,
      PredictCustomReports.trend_advice, PredictCustomReports.margin_advice.
    rewrite Hempty.
    cbn [PredictCustom.analyze_seasonal_patterns
         PredictCustomReports.seasonal_advice PredictCustom.sales map length
         Nat.leb app].
    rewrite !app_nil_r.
    destruct (PredictCustomReports.product_advice products); reflexivity.
Qed.

Lemma report_names_the_best_day_witness :
  exists prof,
    PredictCustom.analyze_seasonal_patterns
      (PredictCustomReports.rows six_days_frame) = Some prof
    /\ In (PredictCustomReports.BestDay
             (fst (PredictCustom.best_day prof))
             (snd (PredictCustom.best_day prof)))
          (PredictCustomReports.report_recommendations six_days_frame None)
    /\ ~ In PredictCustomReports.KeepCollecting
          (PredictCustomReports.report_recommendations six_days_frame None).
Proof.
  apply (proj1 (report_names_the_best_day six_days_frame None)).
  discriminate.
Defined.

(** X21.  The margin rule of [generate_recommendations], for a non-empty
    frame that carries expenses.  With positive average sales the margin is
    [(avg_sales - avg_expenses) / avg_sales * 100]; it is reported as low
    exactly when the average expenses exceed 70% of the average sales, as
    excellent exactly when they are below 50%, and not mentioned in between.
    With average sales that are not positive the margin counts as 0 and is
    always reported as low. *)
Theorem margin_advice_thresholds :
  forall (sales_df : PredictCustomReports.SalesFrame) (expenses : list R),
    PredictCustomReports.rows sales_df <> [] ->
    PredictCustomReports.total_expenses sales_df = Some expenses ->
    length expenses = length (PredictCustomReports.rows sales_df) ->
    let avg_sales :=
      Numeric.mean (PredictCustom.sales (PredictCustomReports.rows sales_df)) in
    let avg_expenses := Numeric.mean expenses in
    let m := (avg_sales - avg_expenses) / avg_sales * 100 in
    (0 < avg_sales ->
       PredictCustomReports.margin_advice sales_df
       = if Rlt_dec (0.7 * avg_sales) avg_expenses
         then [PredictCustomReports.LowMargin m]
         else if Rlt_dec avg_expenses (0.5 * avg_sales)
              then [PredictCustomReports.ExcellentMargin m]
              else [])
    /\ (avg_sales <= 0 ->
        PredictCustomReports.margin_advice sales_df
        = [PredictCustomReports.LowMargin 0]).
Proof.
  intros frame expenses Hne Hexp Hlen. cbv zeta.
  assert (E : PredictCustomReports.margin_advice frame
              = let m := PredictCustomReports.margin_pct
                           (PredictCustom.sales (PredictCustomReports.rows frame))
                           expenses in
                if Rlt_dec m 30 then [PredictCustomReports.LowMargin m]
                else if Rlt_dec 50 m then [PredictCustomReports.ExcellentMargin m]
                else []).
  { unfold PredictCustomReports.margin_advice. rewrite Hexp.
    destruct (PredictCustomReports.rows frame); [contradiction|reflexivity]. }
  rewrite E. clear E. cbv zeta. unfold PredictCustomReports.margin_pct.
  rewrite mean_difference;
    [|now rewrite Hlen; unfold PredictCustom.sales; rewrite length_map
     |unfold PredictCustom.sales;
      destruct (PredictCustomReports.rows frame); [contradiction|discriminate]].
  set (avg_sales := Numeric.mean _).
  set (avg_expenses := Numeric.mean expenses).
  clearbody avg_sales avg_expenses. split.
  - intros Hpos. destruct (Rlt_dec 0 avg_sales) as [_|N]; [|contradiction].
    set (m := (avg_sales - avg_expenses) / avg_sales * 100).
    assert (Hm : m * avg_sales = (avg_sales - avg_expenses) * 100).
    { subst m. field. lra. }
    clearbody m.
    destruct (Rlt_dec m 30), (Rlt_dec (0.7 * avg_sales) avg_expenses);
      try reflexivity; try (exfalso; nra).
    destruct (Rlt_dec 50 m), (Rlt_dec avg_expenses (0.5 * avg_sales));
      try reflexivity; exfalso; nra.
  - intros Hle. destruct (Rlt_dec 0 avg_sales) as [P|_]; [lra|].
    destruct (Rlt_dec 0 30) as [_|N]; [reflexivity|lra].
Qed.

Lemma margin_advice_witness :
  PredictCustomReports.margin_advice six_days_frame
  = if Rlt_dec
         (0.7 * Numeric.mean (PredictCustom.sales
                                (PredictCustomReports.rows six_days_frame)))
         (Numeric.mean [1; 1; 1; 1; 1; 1])
    then [PredictCustomReports.LowMargin
            ((Numeric.mean (PredictCustom.sales
                              (PredictCustomReports.rows six_days_frame))
              - Numeric.mean [1; 1; 1; 1; 1; 1])
             / Numeric.mean (PredictCustom.sales
                               (PredictCustomReports.rows six_days_frame))
             * 100)]
    else if Rlt_dec (Numeric.mean [1; 1; 1; 1; 1; 1])
              (0.5 * Numeric.mean (PredictCustom.sales
                                     (PredictCustomReports.rows six_days_frame)))
         then [PredictCustomReports.ExcellentMargin
                 ((Numeric.mean (PredictCustom.sales
                                   (PredictCustomReports.rows six_days_frame))
                   - Numeric.mean [1; 1; 1; 1; 1; 1])
                  / Numeric.mean (PredictCustom.sales
                                    (PredictCustomReports.rows six_days_frame))
                  * 100)]
         else [].
Proof.
  apply (proj1 (margin_advice_thresholds six_days_frame [1; 1; 1; 1; 1; 1]
                  ltac:(discriminate) eq_refl eq_refl)).
  cbn [PredictCustomReports.rows six_days_frame].
  rewrite six_days_mean. lra.
Defined.

(** ** [analyze_products] *)

Section ProductCounts.
Import PredictCustomReports.

Lemma set_sum (d : Dict.dict Z) k q :
  Zsum (map snd (Dict.set d k (Dict.get d k 0 + q)%Z))
  = (Zsum (map snd d) + q)%Z.
Proof.
  unfold Dict.get. induction d as [|[k' v'] d IH]; cbn [Dict.set Dict.lookup].
  - cbn. lia.
  - destruct (string_dec k k') as [E|N]; cbn [map snd Zsum fold_right].
    + lia.
    + fold (Zsum (map snd (Dict.set d k
                             (match Dict.lookup d k with
                              | Some v => v | None => 0 end + q)%Z))).
      rewrite IH. fold (Zsum (map snd d)). lia.
Qed.

Lemma set_length {V} (d : Dict.dict V) k v :
  length (Dict.set d k v)
  = (length d + if Dict.mem d k then 0 else 1)%nat.
Proof.
  induction d as [|[k' v'] d IH]; cbn [Dict.set Dict.mem length].
  - reflexivity.
  - destruct (string_dec k k'); cbn [length]; [lia|]. rewrite IH. lia.
Qed.

Variable unknown : Z -> string.

(** The counts after the loop: their sum is the sum of the quantities, and
    there is at least one and at most one product per item. *)
Lemma product_counts_invariant menu :
  forall (order_items : list OrderItem) (start : Dict.dict Z),
    let counts :=
      fold_left
        (fun counts item =>
           let n := product_name unknown menu item in
           Dict.set counts n (Dict.get counts n 0 + get_or (quantity item) 1)%Z)
        order_items start in
    Zsum (map snd counts) = (Zsum (map snd start) + Zsum (map counted order_items))%Z
    /\ (length start <= length counts <= length start + length order_items)%nat
    /\ (order_items <> [] -> counts <> []).
Proof.
  induction order_items as [|item items IH]; intros start; cbn [fold_left].
  - cbn. split; [lia|]. split; [lia|]. intros H. contradiction.
  - cbv zeta in *.
    set (start' := Dict.set start _ _).
    destruct (IH start') as (Hs & Hl & Hn). rewrite Hs.
    subst start'. rewrite set_sum. rewrite set_length in Hl.
    cbn [map Zsum fold_right length]. fold (Zsum (map counted items)).
    unfold counted at 2. split; [lia|]. split.
    + destruct (Dict.mem start _); lia.
    + intros _ E. rewrite E in Hl. cbn [length] in Hl.
      destruct start as [|kv start]; [cbn [Dict.mem length] in Hl; lia|].
      cbn [length] in Hl. lia.
Qed.

Lemma insert_desc_In {A} (geb : A -> A -> bool) x y (l : list A) :
  In y (insert_desc geb x l) <-> y = x \/ In y l.
Proof.
  induction l as [|z l IH]; cbn [insert_desc In].
  - intuition.
  - destruct (geb x z); cbn [In]; [intuition|]. rewrite IH. intuition.
Qed.

Lemma sorted_desc_In {A} (geb : A -> A -> bool) y (l : list A) :
  In y (sorted_desc geb l) <-> In y l.
Proof.
  unfold sorted_desc. induction l as [|x l IH]; cbn [fold_right In]; [tauto|].
  rewrite insert_desc_In, IH. intuition.
Qed.

Lemma insert_desc_length {A} (geb : A -> A -> bool) x (l : list A) :
  length (insert_desc geb x l) = S (length l).
Proof.
  induction l as [|z l IH]; cbn [insert_desc length]; [reflexivity|].
  destruct (geb x z); cbn [length]; [reflexivity|now rewrite IH].
Qed.

Lemma sorted_desc_length {A} (geb : A -> A -> bool) (l : list A) :
  length (sorted_desc geb l) = length l.
Proof.
  unfold sorted_desc. induction l as [|x l IH]; cbn [fold_right length];
    [reflexivity|]. now rewrite insert_desc_length, IH.
Qed.

Lemma insert_desc_sorted x (l : list (string * Z)) :
  StronglySorted (fun a b => (snd b <= snd a)%Z) l ->
  StronglySorted (fun a b => (snd b <= snd a)%Z) (insert_desc count_geb x l).
Proof.
  induction 1 as [|z l Hs IH Hz]; cbn [insert_desc].
  - constructor; constructor.
  - unfold count_geb at 1. destruct (Z.leb_spec (snd z) (snd x)).
    + constructor; [now constructor|]. constructor; [assumption|].
      eapply Forall_impl; [|exact Hz]. cbn. intros a Ha. lia.
    + constructor; [exact IH|]. apply Forall_forall. intros a Ha.
      apply insert_desc_In in Ha. destruct Ha as [->|Ha]; [lia|].
      rewrite Forall_forall in Hz. now apply Hz.
Qed.

Lemma sorted_desc_sorted (l : list (string * Z)) :
  StronglySorted (fun a b => (snd b <= snd a)%Z) (sorted_desc count_geb l).
Proof.
  unfold sorted_desc. induction l as [|x l IH]; cbn [fold_right];
    [constructor|]. now apply insert_desc_sorted.
Qed.

End ProductCounts.

(** X22.  [analyze_products] on non-empty order and menu lists: the total
    it reports is the sum of the quantities of all order items (1 for an
    item without quantity), whether or not the menu knows the product; there
    are at least one and at most as many products as order items; the top
    list holds the five products (or all, when fewer) with the highest
    counts in descending order; and the product [generate_recommendations]
    names is one whose count no other product exceeds. *)
Theorem product_totals_and_top_product :
  forall (unknown : Z -> string)
         (order_items : list PredictCustomReports.OrderItem)
         (menu_items : list PredictCustomReports.MenuItem),
    order_items <> [] -> menu_items <> [] ->
    exists p top count,
      PredictCustomReports.analyze_products unknown order_items menu_items
      = Some p
      /\ PredictCustomReports.total_products_sold p
         = Zsum (map counted order_items)
      /\ (1 <= PredictCustomReports.unique_products p <= length order_items)%nat
      /\ length (PredictCustomReports.top_by_quantity p)
         = Nat.min 5 (PredictCustomReports.unique_products p)
      /\ StronglySorted (fun a b => (snd b <= snd a)%Z)
           (PredictCustomReports.top_by_quantity p)
      /\ PredictCustomReports.product_advice (Some p)
         = [PredictCustomReports.TopProduct top]
      /\ In (top, count)
            (PredictCustomReports.product_counts unknown
               (PredictCustomReports.menu_lookup menu_items) order_items)
      /\ forall n c,
           In (n, c)
              (PredictCustomReports.product_counts unknown
                 (PredictCustomReports.menu_lookup menu_items) order_items) ->
           (c <= count)%Z.
Proof.
  intros unknown order_items menu_items Ho Hm.
  set (menu := PredictCustomReports.menu_lookup menu_items).
  set (counts := PredictCustomReports.product_counts unknown menu order_items).
  destruct (product_counts_invariant unknown menu order_items [])
    as (Hsum & Hlen & Hne).
  cbv zeta in Hsum, Hlen, Hne.
  fold (PredictCustomReports.product_counts unknown menu order_items)
    in Hsum, Hlen, Hne.
  fold counts in Hsum, Hlen, Hne. specialize (Hne Ho).
  pose proof (sorted_desc_sorted counts) as Hsorted.
  pose proof (sorted_desc_length PredictCustomReports.count_geb counts) as Hsl.
  pose proof (sorted_desc_In PredictCustomReports.count_geb) as HIn.
  destruct (PredictCustomReports.sorted_desc PredictCustomReports.count_geb counts)
    as [|[top count] rest] eqn:Es.
  { destruct counts; [contradiction|discriminate]. }
  exists {| PredictCustomReports.top_by_quantity :=
              firstn 5 ((top, count) :: rest);
            PredictCustomReports.top_by_revenue :=
              firstn 5 (PredictCustomReports.sorted_desc
                          PredictCustomReports.revenue_geb
                          (PredictCustomReports.product_revenue unknown menu
                             order_items));
            PredictCustomReports.total_products_sold := Zsum (map snd counts);
            PredictCustomReports.unique_products := length counts |},
         top, count.
  cbn [PredictCustomReports.total_products_sold
       PredictCustomReports.unique_products
       PredictCustomReports.top_by_quantity].
  split.
  { unfold PredictCustomReports.analyze_products.
    destruct order_items; [contradiction|].
    destruct menu_items; [contradiction|].
    fold menu. fold counts. now rewrite Es. }
  split; [cbn in Hsum; lia|].
  split.
  { cbn [length] in Hlen. destruct counts; [contradiction|]. cbn [length] in *. lia. }
  split; [rewrite length_firstn, Hsl; reflexivity|].
  split.
  { clear -Hsorted.
    assert (G : forall k (l : list (string * Z)),
              StronglySorted (fun a b => (snd b <= snd a)%Z) l ->
              StronglySorted (fun a b => (snd b <= snd a)%Z) (firstn k l)).
    { intros k l H. revert k. induction H as [|a l H IH Ha]; intros [|k];
        cbn [firstn]; try constructor.
      - apply IH.
      - apply Forall_forall. intros x Hx. rewrite Forall_forall in Ha.
        apply Ha. revert Hx. clear. revert k.
        induction l as [|y l IHl]; intros [|k] Hx; cbn [firstn] in Hx;
          try contradiction.
        destruct Hx as [->|Hx]; [now left|right; eapply IHl; exact Hx]. }
    now apply G. }
  split; [reflexivity|].
  split; [apply (HIn (top, count) counts); rewrite Es; now left|].
  intros n c Hin. apply (HIn (n, c) counts) in Hin. rewrite Es in Hin.
  destruct Hin as [E|Hin]; [injection E as _ ->; lia|].
  inversion Hsorted as [|? ? _ Hall]; subst.
  rewrite Forall_forall in Hall. exact (Hall (n, c) Hin).
Qed.

Lemma product_totals_witness :
  exists p top count,
    PredictCustomReports.analyze_products (fun _ => "other"%string)
      sample_orders sample_menu = Some p
    /\ PredictCustomReports.total_products_sold p
       = Zsum (map counted sample_orders)
    /\ (1 <= PredictCustomReports.unique_products p <= length sample_orders)%nat
    /\ length (PredictCustomReports.top_by_quantity p)
       = Nat.min 5 (PredictCustomReports.unique_products p)
    /\ StronglySorted (fun a b => (snd b <= snd a)%Z)
         (PredictCustomReports.top_by_quantity p)
    /\ PredictCustomReports.product_advice (Some p)
       = [PredictCustomReports.TopProduct top]
    /\ In (top, count)
          (PredictCustomReports.product_counts (fun _ => "other"%string)
             (PredictCustomReports.menu_lookup sample_menu) sample_orders)
    /\ forall n c,
         In (n, c)
            (PredictCustomReports.product_counts (fun _ => "other"%string)
               (PredictCustomReports.menu_lookup sample_menu) sample_orders) ->
         (c <= count)%Z.
Proof.
  apply (product_totals_and_top_product (fun _ => "other"%string)
           sample_orders sample_menu); discriminate.
Defined.

(** ** [scripts/predict.py] *)

Section PredictFacts.
Import Numeric Predict.






End PredictFacts.



(** X24.  The hour [analyze_peak_hours] prints is the twelve-hour reading
    of the hour of the day: between 1 and 12, in the morning half exactly
    before noon, and giving back the hour when 12 is read as 0 and the
    evening half adds 12. *)
Theorem peak_hour_label_is_twelve_hour_clock :
  forall h : Z,
    (0 <= h < 24)%Z ->
    let (ampm, h_12) := Predict.hour_label h in
    (1 <= h_12 <= 12)%Z
    /\ (ampm = Predict.morning <-> (h < 12)%Z)
    /\ h = (h_12 mod 12
            + match ampm with Predict.morning => 0 | Predict.evening => 12 end)%Z.
Proof.
  intros h Hh. unfold Predict.hour_label.
  destruct (Z.ltb_spec h 12), (Z.leb_spec h 12); try lia.
  - destruct (Z.eqb_spec h 0).
    + subst h. split; [lia|]. split; [tauto|]. reflexivity.
    + split; [lia|]. split; [tauto|]. rewrite Z.mod_small; lia.
  - assert (h = 12%Z) by lia. subst h. cbn.
    split; [lia|]. split; [|reflexivity]. split; [discriminate|lia].
  - destruct (Z.eqb_spec (h - 12) 0); [lia|].
    split; [lia|]. split; [split; [discriminate|lia]|].
    rewrite Z.mod_small; lia.
Qed.

Lemma peak_hour_label_witness :
  let (ampm, h_12) := Predict.hour_label 0 in
  (1 <= h_12 <= 12)%Z
  /\ (ampm = Predict.morning <-> (0 < 12)%Z)
  /\ 0%Z = (h_12 mod 12
            + match ampm with Predict.morning => 0 | Predict.evening => 12 end)%Z.
Proof.
  apply (peak_hour_label_is_twelve_hour_clock 0). lia.
Defined.

(** ** The summary of [scripts/daily_predictions.py] *)

Section DailyReportFacts.
Import Numeric DailyPredictions DailyReport.


End DailyReportFacts.



(** ** The frame of [train_regression] *)

Section RegressionFrame.
Import Frame TrainRegression.

Lemma set_clean (c : row) k v :
  existsb isna (map snd c) = false -> isna v = false ->
  existsb isna (map snd (Dict.set c k v)) = false.
Proof.
  induction c as [|[k' v'] c IH]; cbn [Dict.set map snd existsb]; intros H Hv.
  - now rewrite Hv.
  - apply orb_false_iff in H. destruct H as [H1 H2].
    destruct (string_dec k k'); cbn [map snd existsb].
    + now rewrite Hv, H2.
    + now rewrite H1, IH.
Qed.

Lemma lookup_na (c : row) k :
  Dict.lookup c k = Some NaN -> existsb isna (map snd c) = true.
Proof.
  induction c as [|[k' v'] c IH]; cbn [Dict.lookup map snd existsb];
    [discriminate|].
  destruct (string_dec k k'); intros H.
  - injection H as ->. reflexivity.
  - rewrite IH by assumption. apply orb_true_r.
Qed.

Lemma mem_ensure {V} (c : Dict.dict V) k v k' :
  Dict.mem (if Dict.mem c k then c else Dict.set c k v) k'
  = if string_dec k' k then true else Dict.mem c k'.
Proof.
  destruct (Dict.mem c k) eqn:E.
  - destruct (string_dec k' k) as [->|]; [exact E|reflexivity].
  - apply mem_set.
Qed.

Lemma lookup_ensure_other {V} (c : Dict.dict V) k v k' :
  k' <> k ->
  Dict.lookup (if Dict.mem c k then c else Dict.set c k v) k'
  = Dict.lookup c k'.
Proof.
  intros N. destruct (Dict.mem c k); [reflexivity|now apply lookup_set_other].
Qed.

Lemma ensure_clean (c : row) k v :
  existsb isna (map snd c) = false -> isna v = false ->
  existsb isna (map snd (if Dict.mem c k then c else Dict.set c k v)) = false.
Proof.
  intros H Hv. destruct (Dict.mem c k); [exact H|now apply set_clean].
Qed.

(** A derived row has a missing value exactly when it is one of the first
    seven, provided the dataset itself has none. *)
Lemma derived_row_isna df i r :
  (i < length df)%nat ->
  existsb isna (map snd (others r)) = false ->
  existsb isna (map snd (derived_row df i r)) = (i <? 7)%nat.
Proof.
  intros Hi Hclean. unfold derived_row. cbv zeta.
  destruct (Nat.ltb_spec i 7) as [Hlt|Hge].
  - apply (lookup_na _ "lag_7_sales").
    rewrite !lookup_ensure_other by discriminate.
    rewrite !lookup_set_other by discriminate.
    rewrite lookup_set_same. unfold shift_at.
    destruct (Nat.ltb_spec i 7); [reflexivity|lia].
  - apply ensure_clean; [|reflexivity].
    apply ensure_clean; [|reflexivity].
    apply set_clean; [|reflexivity].
    apply set_clean; [|reflexivity].
    apply set_clean.
    + apply set_clean; [exact Hclean|].
      rewrite shift_at_isna by (now rewrite length_map).
      destruct (Nat.ltb_spec i 1); [lia|reflexivity].
    + rewrite shift_at_isna by (now rewrite length_map).
      destruct (Nat.ltb_spec i 7); [lia|reflexivity].
Qed.

Lemma derived_row_features df i r :
  feature_cols (derived_row df i r) = regression_features.
Proof.
  unfold feature_cols. apply filter_all. intros c Hc.
  unfold derived_row. cbv zeta. rewrite !mem_ensure, !mem_set.
  unfold regression_features in Hc. cbn [In] in Hc.
  repeat (destruct Hc as [<-|Hc]; [reflexivity|]). destruct Hc.
Qed.

Lemma filter_map_commute {A B} (f : B -> bool) (g : A -> B) (l : list A) :
  filter f (map g l) = map g (filter (fun a => f (g a)) l).
Proof.
  induction l as [|a l IH]; cbn [map filter]; [reflexivity|].
  destruct (f (g a)); cbn [map]; now rewrite IH.
Qed.

Lemma usable_rows df :
  (forall r, In r df -> existsb isna (map snd (others r)) = false) ->
  usable df
  = map (fun ir => (day (snd ir), derived_row df (fst ir) (snd ir)))
        (combine (seq 7 (length df - 7)) (skipn 7 df)).
Proof.
  intros Hclean. unfold usable. rewrite filter_map_commute.
  apply (f_equal (map _)).
  pose proof (filter_from_index 7 df 0) as F.
  change (7 - 0)%nat with 7%nat in F. change (Nat.max 0 7) with 7%nat in F.
  rewrite <- F. apply filter_ext_in. intros [i r] HI. cbn [fst snd].
  rewrite derived_row_isna; [reflexivity| |].
  - apply in_combine_l in HI. apply in_seq in HI. lia.
  - apply Hclean. now apply in_combine_r in HI.
Qed.

Lemma skipn_cons_nth {A} (l : list A) : forall a x,
  nth_error l a = Some x -> skipn a l = x :: skipn (S a) l.
Proof.
  induction l as [|y l IH]; intros [|a] x H; cbn in H; try discriminate.
  - now injection H as ->.
  - cbn [skipn]. now apply IH.
Qed.

Lemma iloc_seq {A} (l : list A) : forall b a,
  (a + b <= length l)%nat ->
  Sklearn.iloc (seq a b) l = firstn b (skipn a l).
Proof.
  induction b as [|b IH]; intros a H;
    cbn [seq Sklearn.iloc flat_map]; [reflexivity|].
  fold (Sklearn.iloc (seq (S a) b) l). rewrite IH by lia.
  destruct (nth_error l a) as [x|] eqn:E.
  - now rewrite (skipn_cons_nth l a x E).
  - apply nth_error_None in E. lia.
Qed.

End RegressionFrame.

(** X26.  [train_regression] on a dataset of [n] days without missing
    values: recomputing the lags unfilled and dropping the incomplete rows
    leaves the [n - 7] rows from the eighth day on, each with all six
    feature columns.  From ten days on, the last three usable rows are the
    test set and the [n - 10] before them the training set, so with the ten
    days that [main] accepts as enough the training set is empty. *)
Theorem regression_training_rows :
  forall df : list TrainRegression.CsvRow,
    (forall r, In r df ->
       existsb Frame.isna (map snd (TrainRegression.others r)) = false) ->
    length (TrainRegression.usable df) = (length df - 7)%nat
    /\ (forall j r,
          nth_error df (7 + j) = Some r ->
          nth_error (TrainRegression.usable df) j
          = Some (TrainRegression.day r,
                  TrainRegression.derived_row df (7 + j) r))
    /\ (forall dr, In dr (TrainRegression.usable df) ->
          TrainRegression.feature_cols (snd dr) = regression_features)
    /\ ((10 <= length df)%nat ->
        TrainRegression.split df
        = (firstn (length df - 10) (TrainRegression.usable df),
           skipn (length df - 10) (TrainRegression.usable df))
        /\ length (snd (TrainRegression.split df)) = 3%nat)
    /\ (length df = 10%nat -> fst (TrainRegression.split df) = []).
Proof.
  intros df Hclean.
  pose proof (usable_rows df Hclean) as Hrows.
  assert (Hlen : length (TrainRegression.usable df) = (length df - 7)%nat).
  { rewrite Hrows, length_map, length_combine, length_seq, length_skipn. lia. }
  assert (Hsplit : (10 <= length df)%nat ->
            TrainRegression.split df
            = (firstn (length df - 10) (TrainRegression.usable df),
               skipn (length df - 10) (TrainRegression.usable df))).
  { intros Hn. unfold TrainRegression.split, TrainModel.holdout.
    rewrite Hlen.
    assert (Hcut : TrainModel.slice_index (length df - 7)
                     (Z.of_nat (length df - 7) - 3)
                   = (length df - 10)%nat).
    { unfold TrainModel.slice_index.
      destruct (Z.ltb_spec (Z.of_nat (length df - 7) - 3) 0); lia. }
    rewrite Hcut.
    replace (length df - 7 - (length df - 10))%nat with 3%nat by lia.
    rewrite !iloc_seq by lia. cbn [skipn].
    apply f_equal2; [reflexivity|].
    apply firstn_all2. rewrite length_skipn. lia. }
  split; [exact Hlen|]. split; [|split; [|split; [|]]].
  - intros j r Hr. rewrite Hrows, nth_error_map.
    assert (Hj : (7 + j < length df)%nat) by (apply nth_error_Some; congruence).
    rewrite (nth_error_combine _ _ j (7 + j)%nat r); [reflexivity| |].
    + rewrite nth_error_seq.
      destruct (Nat.ltb_spec j (length df - 7)); [reflexivity|lia].
    + now rewrite nth_error_skipn.
  - intros dr Hdr. rewrite Hrows in Hdr. apply in_map_iff in Hdr.
    destruct Hdr as ([i r] & <- & _). apply derived_row_features.
  - intros Hn. split; [now apply Hsplit|].
    rewrite (Hsplit Hn). cbn [snd]. rewrite length_skipn. lia.
  - intros Hn. rewrite Hsplit by lia. cbn [fst]. rewrite Hn. reflexivity.
Qed.

Lemma regression_training_rows_witness :
  length (TrainRegression.usable ten_day_dataset) = (10 - 7)%nat
  /\ fst (TrainRegression.split ten_day_dataset) = [].
Proof.
  assert (H : forall r, In r ten_day_dataset ->
              existsb Frame.isna (map snd (TrainRegression.others r)) = false).
  { intros r Hr. unfold ten_day_dataset in Hr. apply in_map_iff in Hr.
    destruct Hr as (k & <- & _). reflexivity. }
  destruct (regression_training_rows ten_day_dataset H)
    as (Hlen & _ & _ & _ & Hempty).
  split; [exact Hlen|]. apply Hempty. reflexivity.
Defined.

(** ** The anomaly report of [scripts/predict_custom.py] *)

Section AnomalyReportFacts.
Import Numeric PredictCustom PredictCustomReports.

Lemma abs_ratio_gt d s T :
  0 < s -> (T < Rabs (d / s) <-> T * s < Rabs d).
Proof.
  intros Hs. unfold Rdiv.
  rewrite Rabs_mult, (Rabs_right (/ s))
    by (apply Rle_ge, Rlt_le, Rinv_0_lt_compat; exact Hs).
  split; intros H.
  - apply (Rmult_lt_compat_r s) in H; [|exact Hs].
    rewrite Rmult_assoc, Rinv_l, Rmult_1_r in H by lra. exact H.
  - apply (Rmult_lt_reg_r s); [exact Hs|].
    rewrite Rmult_assoc, Rinv_l, Rmult_1_r by lra. exact H.
Qed.

(** A sample deviation of 0 means that all values equal the mean. *)
Lemma zero_std_all_equal xs x :
  pd_std xs = Some 0 -> In x xs -> x = mean xs.
Proof.
  unfold pd_std. destruct (Nat.ltb_spec (length xs) 2) as [|Hlen];
    [discriminate|].
  intros H Hin. injection H as H.
  assert (Hn : 2 <= INR (length xs)) by (apply (le_INR 2); exact Hlen).
  pose proof (sq_dev_nonneg xs) as HS.
  apply sqrt_eq_0 in H.
  - assert (HS0 : sq_dev xs = 0).
    { apply (Rmult_eq_compat_r (INR (length xs) - 1)) in H.
      unfold Rdiv in H. rewrite Rmult_assoc, Rinv_l, Rmult_1_r, Rmult_0_l in H
        by lra. exact H. }
    pose proof (deviation_bound xs x Hin) as Hd. rewrite HS0, Rmult_0_r in Hd.
    set (d := x - mean xs) in *.
    assert (Hdd : d * d <= 0).
    { apply (Rmult_le_reg_l (INR (length xs))); [lra|]. now rewrite Rmult_0_r. }
    assert (Hd0 : d = 0).
    { destruct (Req_dec_T d 0) as [|N]; [assumption|].
      pose proof (Rsqr_pos_lt d N) as Hp. unfold Rsqr in Hp. lra. }
    unfold d in Hd0. lra.
  - unfold Rdiv. apply Rmult_le_pos; [exact HS|].
    apply Rlt_le, Rinv_0_lt_compat. lra.
Qed.

Lemma pd_std_nonneg xs s : pd_std xs = Some s -> 0 <= s.
Proof.
  unfold pd_std. destruct (length xs <? 2)%nat; [discriminate|].
  intros H. injection H as <-. apply sqrt_pos.
Qed.

End AnomalyReportFacts.

(** X27.  The anomaly report is consistent with the band it prints, for a
    frame of at least two rows whose sales are not negative: a row is listed
    as a rise exactly when its sales exceed the printed upper limit
    [mean + 2 std], and as a drop exactly when they are below the printed
    lower limit [max(0, mean - 2 std)]. *)
Theorem anomaly_report_lists_rows_outside_band :
  forall (df : list PredictCustom.SalesRow)
         (report : PredictCustomReports.AnomalyReport) (upper : R),
    PredictCustomReports.generate_anomaly_report df = Some report ->
    PredictCustomReports.normal_upper report = Some upper ->
    (forall r, In r df -> 0 <= PredictCustom.total_sales r) ->
    forall r, In r df ->
      ((exists z, In ({| PredictCustom.a_row := r; PredictCustom.z_score := z |},
                      PredictCustom.spike)
                     (PredictCustomReports.table report))
       <-> upper < PredictCustom.total_sales r)
      /\ ((exists z, In ({| PredictCustom.a_row := r; PredictCustom.z_score := z |},
                         PredictCustom.drop)
                        (PredictCustomReports.table report))
          <-> PredictCustom.total_sales r
              < PredictCustomReports.normal_lower report).
Proof.
  intros df report upper Hrep Hup Hpos r Hr.
  unfold PredictCustomReports.generate_anomaly_report in Hrep.
  destruct df as [|r0 df0] eqn:Edf; [discriminate|]. rewrite <- Edf in *.
  injection Hrep as <-.
  cbn [PredictCustomReports.normal_upper PredictCustomReports.normal_lower
       PredictCustomReports.table] in *.
  destruct (Numeric.pd_std (PredictCustom.sales df)) as [s|] eqn:Hs;
    [|discriminate].
  cbn [option_map] in Hup. injection Hup as <-.
  set (m := Numeric.mean (PredictCustom.sales df)) in *.
  pose proof (pd_std_nonneg _ _ Hs) as Hs0.
  assert (Hx : 0 <= PredictCustom.total_sales r) by now apply Hpos.
  assert (Hlow : PredictCustom.total_sales r < Rmax 0 (m - 2 * s)
                 <-> PredictCustom.total_sales r < m - 2 * s).
  { unfold Rmax. destruct (Rle_dec 0 (m - 2 * s)); lra. }
  rewrite Hlow.
  destruct (Req_dec_T s 0) as [Hz|Hnz].
  - (* all values equal the mean: nothing listed, nothing outside *)
    subst s.
    assert (Hnone : PredictCustom.detect_anomalies df 2 = []).
    { unfold PredictCustom.detect_anomalies. rewrite Edf, <- Edf, Hs.
      destruct (Req_dec_T 0 0); [reflexivity|contradiction]. }
    rewrite Hnone. cbn [map].
    assert (E : PredictCustom.total_sales r = m).
    { apply (zero_std_all_equal _ _ Hs). now apply in_map. }
    split; (split; [intros [z []]|intros H; lra]).
  - assert (Hspos : 0 < s) by lra.
    pose proof (detect_anomalies_flagged df 2 s Hs Hnz) as Hflag.
    fold m in Hflag.
    assert (Hz : forall r', 2 < Rabs (z_of m s r')
                   <-> 2 * s < Rabs (PredictCustom.total_sales r' - m)).
    { intros r'. unfold z_of. now apply abs_ratio_gt. }
    assert (Hsign : forall r', 0 < z_of m s r'
                      <-> 0 < PredictCustom.total_sales r' - m).
    { intros r'. unfold z_of, Rdiv. split; intros H.
      - apply (Rmult_lt_compat_r s) in H; [|exact Hspos].
        rewrite Rmult_0_l, Rmult_assoc, Rinv_l, Rmult_1_r in H by lra. exact H.
      - apply Rmult_lt_0_compat; [exact H|now apply Rinv_0_lt_compat]. }
    split; split.
    + intros [z Hin]. apply in_map_iff in Hin.
      destruct Hin as (a & Ea & Ha). apply Hflag in Ha.
      destruct Ha as (r' & _ & -> & Hgt). injection Ea as -> _ Hdir.
      cbn [PredictCustom.z_score] in Hdir.
      unfold PredictCustom.anomaly_type in Hdir.
      destruct (Rlt_dec 0 (z_of m s r)) as [P|]; [|discriminate].
      apply Hz in Hgt. apply Hsign in P.
      rewrite Rabs_right in Hgt by lra. lra.
    + intros Hgt. exists (z_of m s r). apply in_map_iff.
      exists {| PredictCustom.a_row := r;
                PredictCustom.z_score := z_of m s r |}.
      split.
      * cbn [PredictCustom.z_score]. unfold PredictCustom.anomaly_type.
        destruct (Rlt_dec 0 (z_of m s r)) as [|N]; [reflexivity|].
        exfalso. apply N. apply Hsign. lra.
      * apply Hflag. exists r. split; [exact Hr|]. split; [reflexivity|].
        apply Hz. rewrite Rabs_right by lra. lra.
    + intros [z Hin]. apply in_map_iff in Hin.
      destruct Hin as (a & Ea & Ha). apply Hflag in Ha.
      destruct Ha as (r' & _ & -> & Hgt). injection Ea as -> _ Hdir.
      cbn [PredictCustom.z_score] in Hdir.
      unfold PredictCustom.anomaly_type in Hdir.
      destruct (Rlt_dec 0 (z_of m s r)) as [|N]; [discriminate|].
      apply Hz in Hgt.
      assert (Hle : PredictCustom.total_sales r - m <= 0).
      { destruct (Rle_dec (PredictCustom.total_sales r - m) 0); [assumption|].
        exfalso. apply N. apply Hsign. lra. }
      rewrite Rabs_left1 in Hgt by exact Hle. lra.
    + intros Hlt. exists (z_of m s r). apply in_map_iff.
      exists {| PredictCustom.a_row := r;
                PredictCustom.z_score := z_of m s r |}.
      split.
      * cbn [PredictCustom.z_score]. unfold PredictCustom.anomaly_type.
        destruct (Rlt_dec 0 (z_of m s r)) as [P|]; [|reflexivity].
        apply Hsign in P. lra.
      * apply Hflag. exists r. split; [exact Hr|]. split; [reflexivity|].
        apply Hz. rewrite Rabs_left1 by lra. lra.
Qed.

Lemma anomaly_report_witness :
  exists report upper,
    PredictCustomReports.generate_anomaly_report six_days = Some report
    /\ PredictCustomReports.normal_upper report = Some upper
    /\ ((exists z,
           In ({| PredictCustom.a_row :=
                    {| PredictCustom.day := 738891;
                       PredictCustom.total_sales := 5 |};
                  PredictCustom.z_score := z |}, PredictCustom.spike)
              (PredictCustomReports.table report))
        <-> upper < 5).
Proof.
  eexists. eexists. split; [reflexivity|]. split; [reflexivity|].
  apply (proj1 (anomaly_report_lists_rows_outside_band six_days _ _
                  eq_refl eq_refl
                  ltac:(intros r Hr; cbn in Hr;
                        repeat (destruct Hr as [<-|Hr]; [cbn; lra|]);
                        destruct Hr)
                  {| PredictCustom.day := 738891;
                     PredictCustom.total_sales := 5 |}
                  ltac:(cbn; tauto))).
Defined.

(** ** The network forecast of [scripts/predict.py] *)



(** X29.  The closing recommendation of [generate_report] compares the
    total of the three forecast days with 3.5 times the daily average.  So
    when the trend label does not mention growth, a forecast that lies above
    the historical average on every one of the three days, but by no more
    than a sixth, is still answered with the message that sales are below
    average. *)
Theorem forecast_above_average_is_called_below :
  forall (predict : list R -> R) (today : Z) (t : Predict.trend)
         (avg_sales : R),
    Predict.mentions_growth t = false ->
    let forecast := Predict.predict_future predict today 3 in
    (Predict.recommend t forecast avg_sales = Predict.sales_below_average
     <-> Numeric.mean (map Predict.forecast_sales forecast)
         <= 7 / 6 * avg_sales)
    /\ ((forall f, In f forecast ->
           avg_sales < Predict.forecast_sales f <= 7 / 6 * avg_sales) ->
        Predict.recommend t forecast avg_sales = Predict.sales_below_average).
Proof.
  intros predict today t avg Hg forecast.
  assert (Hiff : Predict.recommend t forecast avg = Predict.sales_below_average
                 <-> Numeric.mean (map Predict.forecast_sales forecast)
                     <= 7 / 6 * avg).
  { unfold Predict.recommend. rewrite Hg. unfold Numeric.mean.
    subst forecast. unfold Predict.predict_future.
    rewrite !length_map, length_seq. cbn [INR].
    set (total := Numeric.Rsum _).
    replace (1 + 1 + 1) with 3 by lra.
    destruct (Rlt_dec (avg * 3.5) total); split; intros H;
      try discriminate; try reflexivity; lra. }
  split; [exact Hiff|].
  intros Hall. apply Hiff. unfold Numeric.mean.
  subst forecast. unfold Predict.predict_future in *.
  rewrite !length_map, length_seq. cbn [seq map Numeric.Rsum length INR] in *.
  pose proof (Hall _ (or_introl eq_refl)) as H1.
  pose proof (Hall _ (or_intror (or_introl eq_refl))) as H2.
  pose proof (Hall _ (or_intror (or_intror (or_introl eq_refl)))) as H3.
  cbn [Predict.forecast_sales] in H1, H2, H3 |- *. lra.
Qed.

Lemma forecast_above_average_witness :
  Predict.recommend Predict.stable
    (Predict.predict_future (fun _ => 110) 738886 3) 100
  = Predict.sales_below_average.
Proof.
  apply (proj2 (forecast_above_average_is_called_below
                  (fun _ => 110) 738886 Predict.stable 100 eq_refl)).
  intros f Hf. cbn in Hf.
  assert (E : Rmax 0 110 = 110) by (apply Rmax_right; lra).
  repeat (destruct Hf as [<-|Hf];
          [cbn [Predict.forecast_sales]; rewrite E; lra|]).
  destruct Hf.
Defined.
